(** * Premarket scanner: a shallow embedding of [thetagang/premarket_scanner.py]

    The scanner gates a scan on the premarket window of an exchange calendar,
    scans every configured symbol (qualify the contract, fetch a ticker,
    classify the move against the previous close), collects the per-symbol
    outcomes and keeps them in [self.scan_results], from which the top
    opportunities are ranked.

    Python floats are IEEE-754 binary64 numbers: they are modelled by Rocq's
    primitive floats, so the arithmetic of the model is the arithmetic of the
    program.  Python dictionaries keep insertion order: they are modelled by
    association lists.  Exceptions and the mutation of [self.scan_results] are
    modelled by a state-and-exception monad. *)

From Stdlib Require Import List String ZArith Bool Lia Floats.
From Stdlib Require Import Sorting.Permutation Sorting.Sorted.
Import ListNotations.

Local Open Scope Z_scope.

(** ** Python floats *)

Module PyFloat.

(** [x / y] on Python floats raises [ZeroDivisionError] when [y] is a zero
    (of either sign) and is the IEEE quotient otherwise. *)
Definition truediv (x y : float) : option float :=
  if PrimFloat.eqb y 0%float then None else Some (PrimFloat.div x y).

(** [pd.isna] on a float. *)
Definition isna (x : float) : bool := PrimFloat.is_nan x.

(** [x < y] on Python floats. *)
Definition lt (x y : float) : bool := PrimFloat.ltb x y.

(** An order-preserving key of the spec floats that are not NaN:
    class, then exponent, then mantissa. *)
Definition sf_key (x : spec_float) : Z * Z * Z :=
  match x with
  | S754_nan => (0, 0, 0)
  | S754_zero _ => (0, 0, 0)
  | S754_infinity true => (-2, 0, 0)
  | S754_infinity false => (2, 0, 0)
  | S754_finite true m e => (-1, - e, - Z.pos m)
  | S754_finite false m e => (1, e, Z.pos m)
  end.

Definition lex_lt (a b : Z * Z * Z) : Prop :=
  let '(a1, a2, a3) := a in
  let '(b1, b2, b3) := b in
  a1 < b1 \/ (a1 = b1 /\ (a2 < b2 \/ (a2 = b2 /\ a3 < b3))).

Definition sf_is_nan (x : spec_float) : bool :=
  match x with S754_nan => true | _ => false end.

End PyFloat.

(** ** Python dictionaries (insertion ordered) *)

Section Dict.
Context {V : Type}.

Definition dict := list (string * V).

(** [d.get(k)] *)
Fixpoint dict_get (d : dict) (k : string) : option V :=
  match d with
  | [] => None
  | (k', v) :: d' => if String.eqb k k' then Some v else dict_get d' k
  end.

(** [d[k] = v]: an existing key keeps its position, a new key goes last. *)
Fixpoint dict_set (d : dict) (k : string) (v : V) : dict :=
  match d with
  | [] => [(k, v)]
  | (k', v') :: d' =>
      if String.eqb k k' then (k', v) :: d' else (k', v') :: dict_set d' k v
  end.

(** [list(d.keys())] and [d.values()] *)
Definition dict_keys (d : dict) : list string := map fst d.
Definition dict_values (d : dict) : list V := map snd d.

End Dict.
Arguments dict V : clear implicits.

(** ** Data *)

(** [thetagang.config]: the part of the configuration the scanner reads.
    The flags of [write_when] are optional booleans. *)
Record WriteWhen := { green : option bool; red : option bool }.
Record SideConfig := { write_when : option WriteWhen }.
Record SymbolConfig := {
  primary_exchange : option string;
  puts : option SideConfig;
  calls : option SideConfig
}.
Record Config := {
  exchange : string;               (* config.exchange_hours.exchange *)
  symbols : dict SymbolConfig      (* config.symbols *)
}.

(** [ib_async.Stock(symbol, exchange, currency, primaryExchange=...)] *)
Record Stock := {
  stk_symbol : string;
  stk_exchange : string;
  stk_currency : string;
  stk_primaryExchange : string
}.

(** [ib_async.Ticker], read by attribute: [None] is an attribute the object
    does not have; [marketPrice] is the value of the method call. *)
Record Ticker := {
  marketPrice : option float;
  close : option float;
  volume : option float
}.

Inductive Action := PUT | CALL.

(** The dictionary built at the end of [scan_symbol]. *)
Record ScanResult := {
  symbol : string;
  current_price : float;
  close_price : float;
  price_change_pct : float;
  res_volume : float;
  has_opportunity : bool;
  recommended_action : option Action;
  timestamp : Z
}.

(** ** Exceptions, collaborators and the scanner's state *)

Inductive PyExc := ZeroDivisionError | CollaboratorError (what : string).

Inductive Py (A : Type) := Ok (a : A) | Raise (e : PyExc).
Arguments Ok {A} a.
Arguments Raise {A} e.

Inductive Message :=
| CouldNotQualify (s : string)          (* scan_symbol, log.warning *)
| CouldNotGetTicker (s : string)        (* scan_symbol, log.warning *)
| ErrorScanningSymbol (s : string)      (* scan_symbol, logger.exception *)
| FailedConvertET                       (* is_premarket_hours *)
| FailedConvertOpen                     (* is_premarket_hours *)
| ErrorCheckingPremarket                (* is_premarket_hours *)
| NotInPremarket                        (* scan_all_symbols *)
| StartingScan
| NoSymbolsConfigured
| ScanningInParallel (n : nat)
| ExpiredBeforeStart
| MarketOpensIn (seconds : Z)
| ExpiredDuringScan (elapsed : Z)
| ErrorScanning (s : string)            (* scan_all_symbols, exception result *)
| NoResultFor (s : string)              (* scan_all_symbols, None result *)
| ScanCompleted (elapsed : Z) (successful total failed : nat).

(** What the scanner does to the outside: calls to the broker and log lines. *)
Inductive Event :=
| QualifyContracts (c : Stock)
| GetTickerForContract (c : Stock)
| Logged (m : Message).

Record Calendar := {
  is_session : Z -> Py bool;           (* calendar.is_session(date) *)
  session_open : Z -> Py Z             (* calendar.session_open(date), UTC *)
}.

(** The collaborators.  Times are seconds; [tz_convert] turns a UTC instant
    into New York wall-clock seconds, [None] being [NaT]. *)
Record Env := {
  get_calendar : string -> Py Calendar;
  tz_convert : Z -> option Z;
  qualify_contracts : Stock -> Py (list Stock);
  get_ticker_for_contract : Stock -> Py (option Ticker)
}.

(** [self.scan_results] and the trace of effects so far. *)
Record State := {
  scan_results : dict ScanResult;
  trace : list Event
}.

(** ** The monad: state threaded through, exceptions keep the state *)

Definition M (A : Type) : Type := State -> Py A * State.

Definition ret {A} (a : A) : M A := fun st => (Ok a, st).

Definition bind {A B} (m : M A) (k : A -> M B) : M B :=
  fun st => match m st with
            | (Ok a, st') => k a st'
            | (Raise e, st') => (Raise e, st')
            end.

Notation "x <- m ;; k" := (bind m (fun x => k))
  (at level 61, m at next level, right associativity).
Notation "m ;; k" := (bind m (fun _ => k))
  (at level 61, right associativity).

(** [try: body except Exception as e: handler] *)
Definition try_except {A} (body : M A) (handler : PyExc -> M A) : M A :=
  fun st => match body st with
            | (Ok a, st') => (Ok a, st')
            | (Raise e, st') => handler e st'
            end.

Definition lift {A} (r : Py A) : M A := fun st => (r, st).

Definition emit (e : Event) : M unit :=
  fun st => (Ok tt, {| scan_results := scan_results st; trace := trace st ++ [e] |}).

Definition log (m : Message) : M unit := emit (Logged m).

(** [self.scan_results[symbol] = result] *)
Definition store_result (s : string) (r : ScanResult) : M unit :=
  fun st => (Ok tt, {| scan_results := dict_set (scan_results st) s r;
                       trace := trace st |}).

(** [self.scan_results = results] *)
Definition assign_results (d : dict ScanResult) : M unit :=
  fun st => (Ok tt, {| scan_results := d; trace := trace st |}).

(** ** [PremarketScanner] *)

Definition PREMARKET_START_HOUR : Z := 4.
Definition PREMARKET_START_MINUTE : Z := 0.

(** [PremarketScanner.is_premarket_hours], at the UTC instant [now_utc] read
    from the clock. *)
Definition is_premarket_hours (env : Env) (config : Config) (now_utc : Z) : M bool :=
  try_except
    (calendar <- lift (get_calendar env (exchange config)) ;;
     match tz_convert env now_utc with
     | None => log FailedConvertET ;; ret false
     | Some now_et =>
         let today := now_et / 86400 in
         session <- lift (is_session calendar today) ;;
         if negb session then ret false
         else
           let premarket_start :=
             today * 86400 + PREMARKET_START_HOUR * 3600 + PREMARKET_START_MINUTE * 60 in
           regular_open <- lift (session_open calendar today) ;;
           match tz_convert env regular_open with
           | None => log FailedConvertOpen ;; ret false
           | Some regular_open_et =>
               if (premarket_start <=? now_et) && (now_et <? regular_open_et)
               then ret true
               else ret false
           end
     end)
    (fun _ => log ErrorCheckingPremarket ;; ret false).

(** The gate of the red branch:
    [puts is None or puts.write_when is None or puts.write_when.red is True]. *)
Definition allow_red (sc : SymbolConfig) : bool :=
  match puts sc with
  | None => true
  | Some p =>
      match write_when p with
      | None => true
      | Some w => match red w with Some true => true | _ => false end
      end
  end.

(** The gate of the green branch:
    [calls is None or calls.write_when is None or calls.write_when.green is True]. *)
Definition allow_green (sc : SymbolConfig) : bool :=
  match calls sc with
  | None => true
  | Some c =>
      match write_when c with
      | None => true
      | Some w => match green w with Some true => true | _ => false end
      end
  end.

(** The [if symbol_config: ... elif ...] cascade of [scan_symbol]. *)
Definition classify (symbol_config : option SymbolConfig) (price_change_pct : float)
  : bool * option Action :=
  match symbol_config with
  | Some sc =>
      if PyFloat.lt price_change_pct (-1)%float then
        if allow_red sc then (true, Some PUT) else (false, None)
      else if PyFloat.lt 1%float price_change_pct then
        if allow_green sc then (true, Some CALL) else (false, None)
      else (false, None)
  | None => (false, None)
  end.

(** [ticker.marketPrice() if hasattr(ticker, 'marketPrice') else 0.0] *)
Definition read_current_price (ticker : Ticker) : float :=
  match marketPrice ticker with Some p => p | None => 0%float end.

(** [ticker.close if hasattr(ticker, 'close') and not pd.isna(ticker.close) else 0.0] *)
Definition read_close_price (ticker : Ticker) : float :=
  match close ticker with
  | Some c => if PyFloat.isna c then 0%float else c
  | None => 0%float
  end.

(** [getattr(ticker, 'volume', 0)] *)
Definition read_volume (ticker : Ticker) : float :=
  match volume ticker with Some v => v | None => 0%float end.

(** The price change: [0.0], replaced by
    [((current_price - close_price) / close_price) * 100] when
    [close_price > 0]. *)
Definition price_change (current_price close_price : float) : Py float :=
  if PyFloat.lt 0%float close_price then
    match PyFloat.truediv (PrimFloat.sub current_price close_price) close_price with
    | Some q => Ok (PrimFloat.mul q 100%float)
    | None => Raise ZeroDivisionError
    end
  else Ok 0%float.

(** [Stock(symbol, "SMART", "USD", primaryExchange=primary_exchange)] *)
Definition stock_contract (sym primary_exch : string) : Stock :=
  {| stk_symbol := sym; stk_exchange := "SMART"; stk_currency := "USD";
     stk_primaryExchange := primary_exch |}.

(** [PremarketScanner.scan_symbol]; [now] is the clock read for the timestamp. *)
Definition scan_symbol (env : Env) (config : Config)
    (sym : string) (primary_exch : string) (now : Z) : M (option ScanResult) :=
  try_except
    (emit (QualifyContracts (stock_contract sym primary_exch)) ;;
     qualified <- lift (qualify_contracts env (stock_contract sym primary_exch)) ;;
     match qualified with
     | [] => log (CouldNotQualify sym) ;; ret None
     | contract :: _ =>
         emit (GetTickerForContract contract) ;;
         ticker <- lift (get_ticker_for_contract env contract) ;;
         match ticker with
         | None => log (CouldNotGetTicker sym) ;; ret None
         | Some ticker =>
             let current_price := read_current_price ticker in
             let close_price := read_close_price ticker in
             price_change_pct <- lift (price_change current_price close_price) ;;
             let volume := read_volume ticker in
             let '(has_opportunity, recommended_action) :=
               classify (dict_get (symbols config) sym) price_change_pct in
             let result :=
               {| symbol := sym;
                  current_price := current_price;
                  close_price := close_price;
                  price_change_pct := price_change_pct;
                  res_volume := volume;
                  has_opportunity := has_opportunity;
                  recommended_action := recommended_action;
                  timestamp := now |} in
             store_result sym result ;;
             ret (Some result)
         end
     end)
    (fun _ => log (ErrorScanningSymbol sym) ;; ret None).

(** The readings of the clock during one call of [scan_all_symbols], in the
    order the code takes them. *)
Record Clock := {
  t_precheck : Z;           (* is_premarket_hours, on entry *)
  t_start : Z;              (* start_time *)
  t_recheck : Z;            (* is_premarket_hours, before the scan *)
  t_info : Z;               (* now_utc of the time-until-open report *)
  t_scan : string -> Z;     (* timestamp taken by the task of a symbol *)
  t_end : Z;                (* end_time *)
  t_postcheck : Z           (* is_premarket_hours, after the scan *)
}.

Inductive LookupError := KeyError | IndexError.

Definition lookup_error (e : LookupError) : PyExc :=
  match e with
  | KeyError => CollaboratorError "KeyError"
  | IndexError => CollaboratorError "IndexError"
  end.

(** The loop that creates one coroutine per symbol. *)
Fixpoint make_tasks (env : Env) (config : Config) (clock : Clock)
    (syms : list string) : M (list (M (option ScanResult))) :=
  match syms with
  | [] => ret []
  | s :: rest =>
      symbol_config <-
        lift (match dict_get (symbols config) s with
              | Some sc => Ok sc
              | None => Raise (lookup_error KeyError)
              end) ;;
      let primary_exch :=
        match primary_exchange symbol_config with Some e => e | None => ""%string end in
      tasks <- make_tasks env config clock rest ;;
      ret (scan_symbol env config s primary_exch (t_scan clock s) :: tasks)
  end.

(** Running a task to its end, its exception turned into a value. *)
Definition attempt {A} (task : M A) : M (Py A) :=
  fun st => let (r, st') := task st in (Ok r, st').

(** [asyncio.gather( *tasks, return_exceptions=True)]: every task runs to its
    end and the results come back in the order of the tasks.  The tasks are
    run in the order of their creation; a task of [scan_symbol] writes only
    the entry of its own symbol. *)
Fixpoint gather {A} (tasks : list (M A)) : M (list (Py A)) :=
  match tasks with
  | [] => ret []
  | t :: ts =>
      r <- attempt t ;;
      rs <- gather ts ;;
      ret (r :: rs)
  end.

(** The time-until-open report; every exception is swallowed. *)
Definition report_time_until_open (env : Env) (config : Config) (now_utc : Z) : M unit :=
  try_except
    (calendar <- lift (get_calendar env (exchange config)) ;;
     match tz_convert env now_utc with
     | None => ret tt
     | Some now_et =>
         let today := now_et / 86400 in
         regular_open <- lift (session_open calendar today) ;;
         match tz_convert env regular_open with
         | None => ret tt
         | Some market_open_et =>
             let time_until_open := market_open_et - now_et in
             if 0 <? time_until_open then log (MarketOpensIn time_until_open)
             else ret tt
         end
     end)
    (fun _ => ret tt).

(** The loop over [enumerate(results)]. *)
Fixpoint process_results (syms : list string) (i : nat)
    (results : list (Py (option ScanResult)))
    (scan_results : dict ScanResult) (successful_scans failed_scans : nat)
  : M (dict ScanResult * nat * nat) :=
  match results with
  | [] => ret (scan_results, successful_scans, failed_scans)
  | result :: rest =>
      sym <- lift (match nth_error syms i with
                   | Some s => Ok s
                   | None => Raise (lookup_error IndexError)
                   end) ;;
      match result with
      | Raise _ =>
          log (ErrorScanning sym) ;;
          process_results syms (S i) rest scan_results successful_scans (S failed_scans)
      | Ok (Some r) =>
          process_results syms (S i) rest (dict_set scan_results sym r)
                          (S successful_scans) failed_scans
      | Ok None =>
          log (NoResultFor sym) ;;
          process_results syms (S i) rest scan_results successful_scans (S failed_scans)
      end
  end.

(** [PremarketScanner.scan_all_symbols] *)
Definition scan_all_symbols (env : Env) (config : Config) (clock : Clock)
  : M (dict ScanResult) :=
  window <- is_premarket_hours env config (t_precheck clock) ;;
  if negb window then log NotInPremarket ;; ret []
  else
    log StartingScan ;;
    let syms := dict_keys (symbols config) in
    let total_symbols := List.length syms in
    if Nat.eqb total_symbols 0 then log NoSymbolsConfigured ;; ret []
    else
      log (ScanningInParallel total_symbols) ;;
      tasks <- make_tasks env config clock syms ;;
      let start_time := t_start clock in
      window <- is_premarket_hours env config (t_recheck clock) ;;
      if negb window then log ExpiredBeforeStart ;; ret []
      else
        report_time_until_open env config (t_info clock) ;;
        results <- gather tasks ;;
        let end_time := t_end clock in
        let elapsed := end_time - start_time in
        window <- is_premarket_hours env config (t_postcheck clock) ;;
        (if negb window then log (ExpiredDuringScan elapsed) else ret tt) ;;
        counted <- process_results syms 0 results [] 0%nat 0%nat ;;
        let '(scan_results, successful_scans, failed_scans) := counted in
        assign_results scan_results ;;
        log (ScanCompleted elapsed successful_scans total_symbols failed_scans) ;;
        ret scan_results.

(** ** Ranking *)

(** [l.sort(key=key, reverse=True)] and [sorted(l, key=key, reverse=True)]:
    a stable sort, larger keys first, equal keys in their original order. *)
Fixpoint insert_desc {A} (key : A -> float) (x : A) (l : list A) : list A :=
  match l with
  | [] => [x]
  | y :: l' =>
      if PyFloat.lt (key x) (key y) then y :: insert_desc key x l'
      else x :: y :: l'
  end.

Definition sort_reverse {A} (key : A -> float) (l : list A) : list A :=
  fold_right (insert_desc key) [] l.

(** [l[:limit]] *)
Definition slice_to {A} (l : list A) (limit : Z) : list A :=
  if limit <? 0 then firstn (Z.to_nat (Z.max 0 (Z.of_nat (List.length l) + limit))) l
  else firstn (Z.to_nat limit) l.

(** [[r for r in self.scan_results.values() if r.get("has_opportunity", False)]] *)
Definition opportunities (st : State) : list ScanResult :=
  filter has_opportunity (dict_values (scan_results st)).

(** [key=lambda x: abs(x.get("price_change_pct", 0))] *)
Definition change_magnitude (r : ScanResult) : float :=
  PrimFloat.abs (price_change_pct r).

(** The opportunities in the order of [get_top_opportunities] and of the rows
    of [get_opportunities_summary]. *)
Definition ranked_opportunities (st : State) : list ScanResult :=
  sort_reverse change_magnitude (opportunities st).

(** [PremarketScanner.get_top_opportunities] *)
Definition get_top_opportunities (st : State) (limit : Z) : list ScanResult :=
  slice_to (ranked_opportunities st) limit.

(** ** Views of a run used in the statements *)

Definition initial_state : State := {| scan_results := []; trace := [] |}.

(** The answer of the window gate at an instant. *)
Definition in_premarket (env : Env) (config : Config) (now_utc : Z) : bool :=
  match fst (is_premarket_hours env config now_utc initial_state) with
  | Ok b => b
  | Raise _ => false
  end.

(** What the task of a symbol returns. *)
Definition task_result (env : Env) (config : Config)
    (sym primary_exch : string) (now : Z) : option ScanResult :=
  match fst (scan_symbol env config sym primary_exch now initial_state) with
  | Ok r => r
  | Raise _ => None
  end.

(** [getattr(self.config.symbols[symbol], 'primary_exchange', '')] *)
Definition configured_exchange (config : Config) (sym : string) : string :=
  match dict_get (symbols config) sym with
  | Some sc => match primary_exchange sc with Some e => e | None => ""%string end
  | None => ""%string
  end.

(** What the task that [scan_all_symbols] creates for a symbol returns. *)
Definition outcome_of (env : Env) (config : Config) (clock : Clock) (sym : string)
  : option ScanResult :=
  task_result env config sym (configured_exchange config sym) (t_scan clock sym).

(** The task that [scan_all_symbols] creates for a symbol. *)
Definition task_of (env : Env) (config : Config) (clock : Clock) (sym : string)
  : M (option ScanResult) :=
  scan_symbol env config sym (configured_exchange config sym) (t_scan clock sym).

(** Whether the task of a symbol returns a result. *)
Definition has_result (env : Env) (config : Config) (clock : Clock) (sym : string) : bool :=
  match outcome_of env config clock sym with Some _ => true | None => false end.

(** The mapping of the symbols whose task returned a result, in the order of
    the symbols. *)
Fixpoint collected (env : Env) (config : Config) (clock : Clock)
    (syms : list string) (acc : dict ScanResult) : dict ScanResult :=
  match syms with
  | [] => acc
  | s :: rest =>
      match outcome_of env config clock s with
      | Some r => collected env config clock rest (dict_set acc s r)
      | None => collected env config clock rest acc
      end
  end.

(** Calls to the broker in a trace: a task that has started has made one. *)
Definition is_broker_call (e : Event) : bool :=
  match e with
  | QualifyContracts _ | GetTickerForContract _ => true
  | Logged _ => false
  end.

Definition broker_calls (tr : list Event) : list Event := filter is_broker_call tr.

(** Log lines of [scan_all_symbols] that count a symbol or a scan. *)
Definition is_count_log (e : Event) : bool :=
  match e with
  | Logged (ErrorScanning _) | Logged (NoResultFor _) | Logged (ScanCompleted _ _ _ _) => true
  | _ => false
  end.

Definition count_logs (tr : list Event) : list Event := filter is_count_log tr.

(** A scan runs its tasks when the window is open at both checks and there
    is a symbol to scan. *)
Definition scan_runs (env : Env) (config : Config) (clock : Clock) : bool :=
  in_premarket env config (t_precheck clock)
  && negb (Nat.eqb (List.length (dict_keys (symbols config))) 0)
  && in_premarket env config (t_recheck clock).

(** The same clock with another reading at the check after the scan. *)
Definition with_postcheck (clock : Clock) (t : Z) : Clock :=
  {| t_precheck := t_precheck clock; t_start := t_start clock;
     t_recheck := t_recheck clock; t_info := t_info clock;
     t_scan := t_scan clock; t_end := t_end clock; t_postcheck := t |}.

(** A stored result marked as an opportunity moved by more than one percent:
    what [scan_symbol] guarantees of the results it builds. *)
Definition classified (r : ScanResult) : Prop :=
  has_opportunity r = true ->
  PyFloat.lt (price_change_pct r) (-1)%float || PyFloat.lt 1%float (price_change_pct r) = true.

Definition scanned_state (st : State) : Prop :=
  Forall classified (dict_values (scan_results st)).

(** Two results whose magnitudes compare neither way. *)
Definition tie (a b : ScanResult) : bool :=
  negb (PyFloat.lt (change_magnitude a) (change_magnitude b))
  && negb (PyFloat.lt (change_magnitude b) (change_magnitude a)).

(** The order of the ranking: no later element has a larger magnitude. *)
Definition not_below (a b : ScanResult) : Prop :=
  PyFloat.lt (change_magnitude a) (change_magnitude b) = false.

(** ** The statements of the specification that the code does not follow *)

(** The direction gates as the specification words them: a gate that is not
    set is open, for a symbol without configuration too. *)
Definition spec_allow_red (symbol_config : option SymbolConfig) : bool :=
  match symbol_config with Some sc => allow_red sc | None => true end.

Definition spec_allow_green (symbol_config : option SymbolConfig) : bool :=
  match symbol_config with Some sc => allow_green sc | None => true end.

(** [(percentChange < -1.0 and allowRed) or (percentChange > 1.0 and allowGreen)] *)
Definition spec_has_opportunity (symbol_config : option SymbolConfig) (pct : float) : bool :=
  (PyFloat.lt pct (-1)%float && spec_allow_red symbol_config)
  || (PyFloat.lt 1%float pct && spec_allow_green symbol_config).

(** A quote whose price field is missing: no [marketPrice], or no usable
    [close]. *)
Definition price_field_missing (ticker : Ticker) : bool :=
  match marketPrice ticker with None => true | Some _ => false end
  || match close ticker with None => true | Some c => PyFloat.isna c end.

(** The order of the ranking as the specification words it: larger magnitude
    first, equal magnitudes in the lexical order of the symbols. *)
Definition spec_before (a b : ScanResult) : bool :=
  PyFloat.lt (change_magnitude b) (change_magnitude a)
  || (tie a b && String.leb (symbol a) (symbol b)).

(** ** Sample collaborators *)

Module Sample.

(** A calendar in which every day is a session that opens at 13:30 UTC. *)
Definition calendar : Calendar :=
  {| is_session := fun _ => Ok true;
     session_open := fun day => Ok (day * 86400 + 13 * 3600 + 30 * 60) |}.

(** New York is four hours behind UTC. *)
Definition to_new_york (t : Z) : option Z := Some (t - 4 * 3600).

Definition quote (price prev : float) : Ticker :=
  {| marketPrice := Some price; close := Some prev; volume := Some 1000%float |}.

(** A ticker object without price attributes. *)
Definition bare_ticker : Ticker :=
  {| marketPrice := None; close := None; volume := None |}.

(** AAA and BBB fall by two percent, CCC rises by half a percent, DDD has
    a ticker without prices, EEE has no ticker, FFF raises, anything else
    does not qualify. *)
Definition ticker_of (c : Stock) : Py (option Ticker) :=
  if String.eqb (stk_symbol c) "AAA" then Ok (Some (quote 147 150))
  else if String.eqb (stk_symbol c) "BBB" then Ok (Some (quote 98 100))
  else if String.eqb (stk_symbol c) "CCC" then Ok (Some (quote 100.5 100))
  else if String.eqb (stk_symbol c) "DDD" then Ok (Some bare_ticker)
  else if String.eqb (stk_symbol c) "EEE" then Ok None
  else Raise (CollaboratorError "timeout").

Definition qualify (c : Stock) : Py (list Stock) :=
  if String.eqb (stk_symbol c) "ZZZ" then Ok [] else Ok [c].

Definition env : Env :=
  {| get_calendar := fun _ => Ok calendar;
     tz_convert := to_new_york;
     qualify_contracts := qualify;
     get_ticker_for_contract := ticker_of |}.

Definition plain : SymbolConfig :=
  {| primary_exchange := None; puts := None; calls := None |}.

(** BBB is configured before AAA. *)
Definition config : Config :=
  {| exchange := "XNYS";
     symbols := [("BBB", plain); ("AAA", plain); ("CCC", plain);
                 ("EEE", plain); ("FFF", plain)]%string |}.

(** A configuration without symbols. *)
Definition no_symbols : Config := {| exchange := "XNYS"; symbols := [] |}.

(** 12:00 UTC is 08:00 in New York, inside the window; 14:00 UTC is 10:00,
    after the open. *)
Definition inside : Z := 12 * 3600.
Definition after_open : Z := 14 * 3600.

Definition clock_open : Clock :=
  {| t_precheck := inside; t_start := inside; t_recheck := inside;
     t_info := inside; t_scan := fun _ => inside; t_end := inside + 5;
     t_postcheck := inside + 5 |}.

Definition clock_crossing : Clock := with_postcheck clock_open after_open.

Definition clock_late : Clock :=
  {| t_precheck := after_open; t_start := after_open; t_recheck := after_open;
     t_info := after_open; t_scan := fun _ => after_open; t_end := after_open;
     t_postcheck := after_open |}.

(** The state a scan inside the window leaves. *)
Definition scanned : State := snd (scan_all_symbols env config clock_open initial_state).

End Sample.

(** ** More of [PremarketScanner] *)

(** The contracts sent to [qualify_contracts] and to
    [get_ticker_for_contract], in the order of the calls. *)
Definition qualify_calls (tr : list Event) : list Stock :=
  flat_map (fun e => match e with QualifyContracts c => [c] | _ => [] end) tr.

Definition ticker_calls (tr : list Event) : list Stock :=
  flat_map (fun e => match e with GetTickerForContract c => [c] | _ => [] end) tr.

(** A stored result whose action agrees with its flag and with its move:
    what the cascade of [scan_symbol] guarantees. *)
Definition coherent (r : ScanResult) : Prop :=
  match recommended_action r with
  | Some PUT =>
      has_opportunity r = true /\ PyFloat.lt (price_change_pct r) (-1)%float = true
  | Some CALL =>
      has_opportunity r = true /\ PyFloat.lt 1%float (price_change_pct r) = true
  | None => has_opportunity r = false
  end.

Definition coherent_state (st : State) : Prop :=
  Forall coherent (dict_values (scan_results st)).

(** The rows of the table of [get_opportunities_summary].  A cell holds the
    value that the code formats, not the formatted text; the colour is the
    one the code picks for the change. *)
Inductive Color := Red | Green.

Inductive SummaryRow :=
| NoOpportunitiesFound
| OpportunityRow (sym : string) (current close : float)
                 (change_color : Color) (change_pct : float)
                 (vol : float) (action : option Action).

(** One [table.add_row] of the loop: [change_color] is
    ["red" if change_pct < 0 else "green"]. *)
Definition summary_row (result : ScanResult) : SummaryRow :=
  let change_pct := price_change_pct result in
  let change_color := if PyFloat.lt change_pct 0%float then Red else Green in
  OpportunityRow (symbol result) (current_price result) (close_price result)
                 change_color change_pct (res_volume result)
                 (recommended_action result).

(** [PremarketScanner.get_opportunities_summary]: the rows added to the
    table. *)
Definition get_opportunities_summary (st : State) : list SummaryRow :=
  match opportunities st with
  | [] => [NoOpportunitiesFound]
  | _ :: _ => map summary_row (sort_reverse change_magnitude (opportunities st))
  end.

Definition row_colour_matches_action (row : SummaryRow) : Prop :=
  match row with
  | NoOpportunitiesFound => True
  | OpportunityRow _ _ _ change_color _ _ action =>
      (change_color = Red <-> action = Some PUT)
      /\ (change_color = Green <-> action = Some CALL)
  end.

(** More sample collaborators: quotes without a usable market price, and a
    window that closes early. *)
Module Sample2.

(** Every stock has a ticker whose market price is NaN and whose previous
    close is 100. *)
Definition nan_quotes : Env :=
  {| get_calendar := fun _ => Ok Sample.calendar;
     tz_convert := Sample.to_new_york;
     qualify_contracts := Sample.qualify;
     get_ticker_for_contract :=
       fun _ => Ok (Some {| marketPrice := Some PrimFloat.nan;
                            close := Some 100%float;
                            volume := None |}) |}.

(** The window closes between the two checks that precede the scan. *)
Definition clock_expiring : Clock :=
  {| t_precheck := Sample.inside; t_start := Sample.inside;
     t_recheck := Sample.after_open; t_info := Sample.inside;
     t_scan := fun _ => Sample.inside; t_end := Sample.inside;
     t_postcheck := Sample.after_open |}.

End Sample2.

(** * The other modules of the package *)

(** Exceptions and results of the modules that do not touch the scanner. *)
Inductive Exn := ValueError | TypeError | Failure (what : string).

Inductive Res (A : Type) := Return (a : A) | Throw (e : Exn).
Arguments Return {A} a.
Arguments Throw {A} e.

(** State threaded through, exceptions keep the state reached. *)
Module Eff.
Section Eff.
Context {S : Type}.

Definition SM (A : Type) : Type := S -> Res A * S.

Definition ret {A} (a : A) : SM A := fun st => (Return a, st).

Definition bind {A B} (m : SM A) (k : A -> SM B) : SM B :=
  fun st => match m st with
            | (Return a, st') => k a st'
            | (Throw e, st') => (Throw e, st')
            end.

Definition raise {A} (e : Exn) : SM A := fun st => (Throw e, st).

Definition lift {A} (r : Res A) : SM A := fun st => (r, st).

(** [try: body except Exception as e: handler] *)
Definition try_except {A} (body : SM A) (handler : Exn -> SM A) : SM A :=
  fun st => match body st with
            | (Return a, st') => (Return a, st')
            | (Throw e, st') => handler e st'
            end.

End Eff.
End Eff.

Declare Scope eff_scope.
Notation "x <- m ;; k" := (Eff.bind m (fun x => k))
  (at level 61, m at next level, right associativity) : eff_scope.
Notation "m ;; k" := (Eff.bind m (fun _ => k))
  (at level 61, right associativity) : eff_scope.

(** ** [exchange_hours] *)

Module ExchangeHours.
Import Eff.
Local Open Scope eff_scope.

(** The fields of [ExchangeHoursConfig] that the module reads; the delays
    and the maximal wait are seconds. *)
Record ExchangeHoursConfig := {
  exchange : string;
  action_when_closed : string;
  delay_after_open : Z;
  delay_before_close : Z;
  max_wait_until_open : Z;
  enable_extended_hours : bool;
  enable_premarket_scanner : bool
}.

(** An exchange calendar; a session is named by its day. *)
Record Calendar := {
  is_session : Z -> Res bool;            (* calendar.is_session(date) *)
  session_open : Z -> Res Z;             (* calendar.session_open(session), UTC *)
  session_close : Z -> Res Z;            (* calendar.session_close(session), UTC *)
  date_to_session_next : Z -> Res Z      (* calendar.date_to_session(date, direction="next") *)
}.

(** The collaborators.  Times are seconds; [tz_convert] turns a UTC instant
    into New York wall-clock seconds: it is both
    [pd.Timestamp(now).tz_convert("America/New_York")] and
    [regular_open.astimezone(now_et.tzinfo)]. *)
Record Env := {
  get_calendar : string -> Res Calendar;   (* xcals.get_calendar(name) *)
  tz_convert : Z -> Res Z
}.

Inductive Message :=
| PremarketScanningEnabled                               (* log.info *)
| ErrorCheckingExtendedHours                             (* log.warning *)
| HoursTable (open close start end_ : Z) (premarket_row : bool)   (* log.print(table) *)
| ExchangeIsClosed                                       (* log.info *)
| WaitingForOpen (start seconds_until_start : Z)         (* log.info *)
| MaxWaitExceeded (seconds_until_start max_wait : Z).    (* log.info *)

Inductive Effect := Logged (m : Message) | Slept (seconds : Z).

Definition Trace := list Effect.

Definition log (m : Message) : SM (S := Trace) unit :=
  fun tr => (Return tt, tr ++ [Logged m]).

(** [time.sleep(secs)]: a negative length raises [ValueError]. *)
Definition sleep (secs : Z) : SM (S := Trace) unit :=
  if secs <? 0 then raise ValueError
  else fun tr => (Return tt, tr ++ [Slept secs]).

(** The [try] block of [determine_action]: [Some a] is [return a] from
    inside the block, [None] falls through to the code after it. *)
Definition extended_hours_check (env : Env) (config : ExchangeHoursConfig)
    (calendar : Calendar) (now today : Z) : SM (S := Trace) (option string) :=
  try_except
    (now_et <- lift (tz_convert env now) ;;
     let premarket_start := now_et / 86400 * 86400 + 4 * 3600 + 0 * 60 in
     session <- lift (is_session calendar today) ;;
     if session then
       regular_open <- lift (session_open calendar today) ;;
       regular_open_et <- lift (tz_convert env regular_open) ;;
       if (premarket_start <=? now_et) && (now_et <? regular_open_et)
          && enable_premarket_scanner config
       then log PremarketScanningEnabled ;; ret (Some "continue"%string)
       else ret None
     else ret None)
    (fun _ => log ErrorCheckingExtendedHours ;; ret None).

(** [determine_action(config, now)], [now] a UTC instant. *)
Definition determine_action (env : Env) (config : ExchangeHoursConfig) (now : Z)
  : SM (S := Trace) string :=
  if String.eqb (action_when_closed config) "continue" then ret "continue"%string
  else
    calendar <- lift (get_calendar env (exchange config)) ;;
    let today := now / 86400 in
    early <- (if enable_extended_hours config || enable_premarket_scanner config
              then extended_hours_check env config calendar now today
              else ret None) ;;
    match early with
    | Some action => ret action
    | None =>
        session <- lift (is_session calendar today) ;;
        if session then
          open <- lift (session_open calendar today) ;;
          close <- lift (session_close calendar today) ;;
          let start := open + delay_after_open config in
          let end_ := close - delay_before_close config in
          log (HoursTable open close start end_ (enable_premarket_scanner config)) ;;
          if (start <=? now) && (now <=? end_) then ret "continue"%string
          else if String.eqb (action_when_closed config) "exit" then
            log ExchangeIsClosed ;; ret "exit"%string
          else if String.eqb (action_when_closed config) "wait" then
            log ExchangeIsClosed ;; ret "wait"%string
          else log ExchangeIsClosed ;; ret "exit"%string
        else if String.eqb (action_when_closed config) "wait" then ret "wait"%string
        else log ExchangeIsClosed ;; ret "exit"%string
    end.

(** [waited_for_open(config, now)] *)
Definition waited_for_open (env : Env) (config : ExchangeHoursConfig) (now : Z)
  : SM (S := Trace) bool :=
  calendar <- lift (get_calendar env (exchange config)) ;;
  let today := now / 86400 in
  next_session <- lift (date_to_session_next calendar today) ;;
  open <- lift (session_open calendar next_session) ;;
  let start := open + delay_after_open config in
  let seconds_until_start := start - now in
  if seconds_until_start <? max_wait_until_open config then
    log (WaitingForOpen start seconds_until_start) ;;
    sleep seconds_until_start ;;
    ret true
  else
    log (MaxWaitExceeded seconds_until_start (max_wait_until_open config)) ;;
    ret false.

(** [need_to_exit(config)], [now] being the reading of the clock. *)
Definition need_to_exit (env : Env) (config : ExchangeHoursConfig) (now : Z)
  : SM (S := Trace) bool :=
  action <- determine_action env config now ;;
  if String.eqb action "exit" then ret true
  else if String.eqb action "wait" then
    waited <- waited_for_open env config now ;;
    ret (negb waited)
  else ret false.

(** ** Views used in the statements *)

(** The seconds slept along a trace. *)
Definition sleeps (tr : Trace) : list Z :=
  flat_map (fun e => match e with Slept s => [s] | Logged _ => [] end) tr.

Definition with_extended_hours (config : ExchangeHoursConfig) (b : bool)
  : ExchangeHoursConfig :=
  {| exchange := exchange config;
     action_when_closed := action_when_closed config;
     delay_after_open := delay_after_open config;
     delay_before_close := delay_before_close config;
     max_wait_until_open := max_wait_until_open config;
     enable_extended_hours := b;
     enable_premarket_scanner := enable_premarket_scanner config |}.

(** A sample exchange: every day is a session but the days 3 and 4 of each
    week of seven, open 14:30 to 21:00 UTC; New York is four hours behind. *)
Module Sample.

Definition trading (day : Z) : bool :=
  negb ((day mod 7 =? 3) || (day mod 7 =? 4)).

Fixpoint next_trading (fuel : nat) (day : Z) : Z :=
  match fuel with
  | O => day
  | S fuel' => if trading day then day else next_trading fuel' (day + 1)
  end.

Definition calendar : Calendar :=
  {| is_session := fun d => Return (trading d);
     session_open := fun d => Return (d * 86400 + 52200);
     session_close := fun d => Return (d * 86400 + 75600);
     date_to_session_next := fun d => Return (next_trading 7 d) |}.

Definition env : Env :=
  {| get_calendar := fun _ => Return calendar;
     tz_convert := fun t => Return (t - 14400) |}.

Definition broken : Env :=
  {| get_calendar := fun _ => Throw (Failure "no such calendar");
     tz_convert := fun _ => Throw (Failure "no time zone") |}.

(** The calendar loads, the conversion to New York time fails. *)
Definition no_time_zone : Env :=
  {| get_calendar := fun _ => Return calendar;
     tz_convert := fun _ => Throw (Failure "no time zone") |}.

Definition config (action : string) : ExchangeHoursConfig :=
  {| exchange := "XNYS";
     action_when_closed := action;
     delay_after_open := 1800;
     delay_before_close := 1800;
     max_wait_until_open := 86400;
     enable_extended_hours := false;
     enable_premarket_scanner := false |}.

Definition scanning (action : string) : ExchangeHoursConfig :=
  {| exchange := "XNYS";
     action_when_closed := action;
     delay_after_open := 1800;
     delay_before_close := 1800;
     max_wait_until_open := 86400;
     enable_extended_hours := false;
     enable_premarket_scanner := true |}.

(** Day 7 is a session: 12:00, 16:00 and 22:00 UTC of that day. *)
Definition premarket : Z := 7 * 86400 + 12 * 3600.
Definition midday : Z := 7 * 86400 + 16 * 3600.
Definition evening : Z := 7 * 86400 + 22 * 3600.

(** The days 3 and 4 are not sessions, the next session is day 5: 16:00 UTC
    of day 3 and of day 4. *)
Definition long_weekend : Z := 3 * 86400 + 16 * 3600.
Definition holiday : Z := 4 * 86400 + 16 * 3600.

End Sample.

End ExchangeHours.

(** ** [market_regime] *)

Module MarketRegime.
Import Eff.
Local Open Scope eff_scope.
#[local] Set Warnings "-inexact-float".

Inductive MarketRegime := BULL | BEAR | SIDEWAYS | HIGH_VOLATILITY | UNKNOWN.

Definition regime_eqb (a b : MarketRegime) : bool :=
  match a, b with
  | BULL, BULL | BEAR, BEAR | SIDEWAYS, SIDEWAYS
  | HIGH_VOLATILITY, HIGH_VOLATILITY | UNKNOWN, UNKNOWN => true
  | _, _ => false
  end.

Record RegimeMetrics := {
  regime : MarketRegime;
  vix_level : float;
  spy_trend : float;
  volatility : float;
  confidence : float
}.

(** [x > y] and the two-argument [min(x, y)] of Python on floats: [min]
    keeps its first argument unless the second is smaller. *)
Definition gt (x y : float) : bool := PyFloat.lt y x.

Definition min (x y : float) : float := if PyFloat.lt y x then y else x.

(** [MarketRegimeDetector._classify_regime] *)
Definition _classify_regime (vix_level spy_trend volatility : float) : MarketRegime :=
  if gt vix_level 30 then HIGH_VOLATILITY
  else if gt spy_trend 0.01 && PyFloat.lt vix_level 20 then BULL
  else if PyFloat.lt spy_trend (-0.01) && gt vix_level 20 then BEAR
  else if PyFloat.lt (PrimFloat.abs spy_trend) 0.005
          && (PyFloat.lt 15 vix_level && PyFloat.lt vix_level 25) then SIDEWAYS
  else SIDEWAYS.

(** [MarketRegimeDetector._calculate_confidence] *)
Definition _calculate_confidence (vix_level spy_trend volatility : float) : float :=
  let vix_confidence := min (PrimFloat.abs (vix_level - 20) / 20)%float 1 in
  let trend_confidence := min (PrimFloat.abs spy_trend / 0.02)%float 1 in
  let confidence := ((vix_confidence + trend_confidence) / 2)%float in
  min confidence 1.

(** A bar of historical data, read by its [close]. *)
Record Bar := { close : float }.

(** A ticker, read by its method [marketPrice()]. *)
Record Ticker := { marketPrice : Res float }.

(** The collaborators; [sum] is the builtin on a list of floats, whose
    rounding is the interpreter's. *)
Record Env := {
  get_ticker_for_stock : string -> string -> Res (option Ticker);
  reqHistoricalDataAsync : Res (list Bar);
  sum : list float -> float
}.

Inductive Message :=
| CouldNotCalculateTrend                 (* log.warning *)
| RegimeDetected (m : RegimeMetrics)     (* log.info *)
| ErrorDetectingRegime                   (* log.error *)
| TradingPaused (vix : float).           (* log.warning *)

(** [self.current_regime] and the log lines so far. *)
Record State := {
  current_regime : option RegimeMetrics;
  logged : list Message
}.

Definition log (m : Message) : SM (S := State) unit :=
  fun st => (Return tt, {| current_regime := current_regime st;
                           logged := logged st ++ [m] |}).

(** [self.current_regime = metrics] *)
Definition set_current_regime (m : RegimeMetrics) : SM (S := State) unit :=
  fun st => (Return tt, {| current_regime := Some m; logged := logged st |}).

(** [l[-n:]] for a positive [n] *)
Definition last_n {A} (n : nat) (l : list A) : list A :=
  skipn (List.length l - n) l.

Definition of_nat (n : nat) : float := PrimFloat.of_uint63 (Uint63.of_Z (Z.of_nat n)).

(** The inner [try] block of [detect_regime]: the trend of SPY. *)
Definition spy_trend_of (env : Env) : SM (S := State) float :=
  try_except
    (bars <- lift (reqHistoricalDataAsync env) ;;
     match bars with
     | [] => ret 0%float
     | _ :: _ =>
         let recent_prices := map close (last_n 20 bars) in
         if (10 <=? List.length recent_prices)%nat then
           let ma_20 := (sum env (last_n 20 recent_prices)
                         / of_nat (Nat.min 20 (List.length recent_prices)))%float in
           let ma_10 := (sum env (last_n 10 recent_prices)
                         / of_nat (Nat.min 10 (List.length recent_prices)))%float in
           if gt ma_20 0 then ret ((ma_10 - ma_20) / ma_20)%float else ret 0%float
         else ret 0%float
     end)
    (fun _ => log CouldNotCalculateTrend ;; ret 0%float).

(** [ticker.marketPrice() if ticker else default] *)
Definition price_or (ticker : option Ticker) (default : float) : SM (S := State) float :=
  match ticker with
  | Some t => lift (marketPrice t)
  | None => ret default
  end.

(** [MarketRegimeDetector.detect_regime] *)
Definition detect_regime (env : Env) : SM (S := State) RegimeMetrics :=
  try_except
    (vix_ticker <- lift (get_ticker_for_stock env "VIX" "") ;;
     vix_level <- price_or vix_ticker 20 ;;
     spy_ticker <- lift (get_ticker_for_stock env "SPY" "") ;;
     spy_price <- price_or spy_ticker 0 ;;
     spy_trend <- spy_trend_of env ;;
     let volatility := (PrimFloat.abs spy_trend * 100)%float in
     let regime := _classify_regime vix_level spy_trend volatility in
     let confidence := _calculate_confidence vix_level spy_trend volatility in
     let metrics := {| regime := regime; vix_level := vix_level;
                       spy_trend := spy_trend; volatility := volatility;
                       confidence := confidence |} in
     set_current_regime metrics ;;
     log (RegimeDetected metrics) ;;
     ret metrics)
    (fun _ =>
       log ErrorDetectingRegime ;;
       ret {| regime := UNKNOWN; vix_level := 20; spy_trend := 0;
              volatility := 15; confidence := 0 |}).

(** [MarketRegimeDetector.should_trade] *)
Definition should_trade : SM (S := State) bool :=
  fun st =>
    match current_regime st with
    | None => ret true st
    | Some m =>
        if regime_eqb (regime m) HIGH_VOLATILITY && gt (vix_level m) 40
        then (log (TradingPaused (vix_level m)) ;; ret false) st
        else ret true st
    end.

(** [MarketRegimeDetector.get_position_size_multiplier] *)
Definition get_position_size_multiplier (st : State) : float :=
  match current_regime st with
  | None => 1%float
  | Some m =>
      let in_high_volatility :=
        if regime_eqb (regime m) HIGH_VOLATILITY then
          if gt (vix_level m) 35 then Some 0.5%float
          else if gt (vix_level m) 30 then Some 0.75%float
          else None
        else None in
      match in_high_volatility with
      | Some size => size
      | None =>
          if regime_eqb (regime m) BULL && PyFloat.lt (vix_level m) 18 then 1.1%float
          else 1%float
      end
  end.

(** [MarketRegimeDetector.get_delta_adjustment] *)
Definition get_delta_adjustment (st : State) : float :=
  match current_regime st with
  | None => 0%float
  | Some m =>
      if regime_eqb (regime m) HIGH_VOLATILITY then (-0.05)%float
      else if regime_eqb (regime m) BULL then 0.02%float
      else 0%float
  end.

(** ** Views used in the statements *)

(** A detector that has not detected yet. *)
Definition initial_state : State := {| current_regime := None; logged := [] |}.

(** The quote that [detect_regime] reads for a symbol:
    [ticker.marketPrice() if ticker else default], or the exception of the
    ticker call or of [marketPrice()]. *)
Definition quote_of (env : Env) (symbol : string) (default : float) : Res float :=
  match get_ticker_for_stock env symbol "" with
  | Return (Some ticker) => marketPrice ticker
  | Return None => Return default
  | Throw e => Throw e
  end.

(** The metrics that [detect_regime] returns when it fails. *)
Definition default_metrics : RegimeMetrics :=
  {| regime := UNKNOWN; vix_level := 20; spy_trend := 0;
     volatility := 15; confidence := 0 |}.

(** The metrics that a detection computes from the VIX and the trend. *)
Definition metrics_of (vix trend : float) : RegimeMetrics :=
  let volatility := (PrimFloat.abs trend * 100)%float in
  {| regime := _classify_regime vix trend volatility;
     vix_level := vix; spy_trend := trend; volatility := volatility;
     confidence := _calculate_confidence vix trend volatility |}.

(** Whether fewer than ten bars of history are to be had. *)
Definition short_history (env : Env) : Prop :=
  forall bars, reqHistoricalDataAsync env = Return bars -> (List.length bars < 10)%nat.

(** Sample collaborators: the broker quotes every stock at [vix]; there are
    no bars. *)
Module Sample.

Definition quiet (vix : float) : Env :=
  {| get_ticker_for_stock := fun _ _ => Return (Some {| marketPrice := Return vix |});
     reqHistoricalDataAsync := Return [];
     sum := fun l => fold_left PrimFloat.add l 0%float |}.

Definition offline : Env :=
  {| get_ticker_for_stock := fun _ _ => Throw (Failure "not connected");
     reqHistoricalDataAsync := Throw (Failure "not connected");
     sum := fun l => fold_left PrimFloat.add l 0%float |}.

(** The broker knows no ticker at all. *)
Definition no_tickers : Env :=
  {| get_ticker_for_stock := fun _ _ => Return None;
     reqHistoricalDataAsync := Return [];
     sum := fun l => fold_left PrimFloat.add l 0%float |}.

Definition calm : RegimeMetrics :=
  {| regime := BULL; vix_level := 15; spy_trend := 0.02;
     volatility := 2; confidence := 0.625 |}.

Definition detected (m : RegimeMetrics) : State :=
  {| current_regime := Some m; logged := [] |}.

End Sample.

End MarketRegime.

(** ** [earnings_detector] *)

Module EarningsDetector.
Import Eff.
Local Open Scope eff_scope.

(** A [datetime.date], or a [datetime.datetime] with its date and its second
    of the day; a date is the number of its day, 0 being 1970-01-01. *)
Inductive Moment := ADate (day : Z) | ADateTime (day second : Z).

Definition day_of (m : Moment) : Z :=
  match m with ADate d => d | ADateTime d _ => d end.

(** [date.max], 9999-12-31. *)
Definition date_max : Z := 2932896.

(** [m.weekday()]: Monday is 0; 1970-01-01 was a Thursday. *)
Definition weekday (m : Moment) : Z := (day_of m + 3) mod 7.

(** [m + timedelta(days=k)], which overflows past [date.max]. *)
Definition add_days (m : Moment) (k : Z) : Res Moment :=
  if day_of m + k <=? date_max then
    Return (match m with
            | ADate d => ADate (d + k)
            | ADateTime d s => ADateTime (d + k) s
            end)
  else Throw (Failure "OverflowError").

(** [(m - today).days] for a date [today]: a date minus a date is a
    [timedelta]; a datetime minus a date is a [TypeError]. *)
Definition days_since (m : Moment) (today : Z) : Res Z :=
  match m with
  | ADate d => Return (d - today)
  | ADateTime _ _ => Throw TypeError
  end.

(** The text of [m.strftime("%Y%m%d")], kept as the day that it writes. *)
Definition YYYYMMDD := Z.

Definition strftime (m : Moment) : YYYYMMDD := day_of m.

(** An entry of [self.earnings_cache]; [None] is a key that is missing or
    whose value is falsy. *)
Record CacheEntry := {
  earnings_date : option Moment;
  expiry_date : option YYYYMMDD;
  cached_at : Z
}.

Inductive Message :=
| ExpiryFarFromTarget (expiry : YYYYMMDD) (days_diff target_dte : Z)   (* log.warning *)
| ErrorCalculatingExpiry                                               (* logger.exception *)
| NoEarningsDate (symbol : string)                                     (* log.debug *)
| EarningsExpiry (symbol : string) (expiry : YYYYMMDD).                (* log.info *)

Record State := {
  earnings_cache : dict CacheEntry;
  logged : list Message
}.

Definition log (m : Message) : SM (S := State) unit :=
  fun st => (Return tt, {| earnings_cache := earnings_cache st;
                           logged := logged st ++ [m] |}).

(** [self.earnings_cache[symbol] = entry] *)
Definition cache_put (symbol : string) (entry : CacheEntry) : SM (S := State) unit :=
  fun st => (Return tt, {| earnings_cache := dict_set (earnings_cache st) symbol entry;
                           logged := logged st |}).

(** [EarningsDetector.get_earnings_date]: the placeholder. *)
Definition get_earnings_date (symbol : string) : option Moment := None.

(** [EarningsDetector.get_same_week_expiry]; [today] is the date read from
    the clock. *)
Definition get_same_week_expiry (earnings_date : Moment) (target_dte : Z) (today : Z)
  : SM (S := State) (option YYYYMMDD) :=
  try_except
    (let days_until_friday := (4 - weekday earnings_date) mod 7 in
     expiry_date <-
       (if (days_until_friday =? 0) && (weekday earnings_date =? 4)
        then ret earnings_date
        else lift (add_days earnings_date days_until_friday)) ;;
     let expiry_str := strftime expiry_date in
     days_diff <- lift (days_since expiry_date today) ;;
     (if 7 <? Z.abs (days_diff - target_dte)
      then log (ExpiryFarFromTarget expiry_str days_diff target_dte)
      else ret tt) ;;
     ret (Some expiry_str))
    (fun _ => log ErrorCalculatingExpiry ;; ret None).

(** [EarningsDetector.get_earnings_expiry_for_symbol]; [today] and [now] are
    the readings of the clock. *)
Definition get_earnings_expiry_for_symbol (symbol : string) (today now : Z)
  : SM (S := State) (option YYYYMMDD) :=
  fun st =>
    let cached :=
      match dict_get (earnings_cache st) symbol with
      | Some cache_entry => expiry_date cache_entry
      | None => None
      end in
    match cached with
    | Some expiry => ret (Some expiry) st
    | None =>
        match get_earnings_date symbol with
        | None => (log (NoEarningsDate symbol) ;; ret None) st
        | Some earnings_date =>
            (expiry_str <- get_same_week_expiry earnings_date 45 today ;;
             match expiry_str with
             | Some expiry =>
                 cache_put symbol {| earnings_date := Some earnings_date;
                                     expiry_date := Some expiry;
                                     cached_at := now |}
             | None => ret tt
             end ;;
             ret expiry_str) st
        end
    end.

(** [EarningsDetector.is_earnings_week] *)
Definition is_earnings_week (symbol : string) (today : Z) (st : State) : bool :=
  match dict_get (earnings_cache st) symbol with
  | None => false
  | Some cache_entry =>
      match earnings_date cache_entry with
      | None => false
      | Some earnings_date =>
          let days_until_earnings := day_of earnings_date - today in
          (0 <=? days_until_earnings) && (days_until_earnings <=? 7)
      end
  end.

(** The loop of [get_all_earnings_expiries] over the symbols that are left,
    [expiries] being the dictionary built so far. *)
Fixpoint collect_expiries (symbols : list string) (today now : Z)
    (expiries : dict YYYYMMDD) : SM (S := State) (dict YYYYMMDD) :=
  match symbols with
  | [] => ret expiries
  | symbol :: rest =>
      expiry <- get_earnings_expiry_for_symbol symbol today now ;;
      match expiry with
      | Some e =>
          log (EarningsExpiry symbol e) ;;
          collect_expiries rest today now (dict_set expiries symbol e)
      | None => collect_expiries rest today now expiries
      end
  end.

(** [EarningsDetector.get_all_earnings_expiries] *)
Definition get_all_earnings_expiries (symbols : list string) (today now : Z)
  : SM (S := State) (dict YYYYMMDD) :=
  collect_expiries symbols today now [].

(** ** Views used in the statements *)

(** A detector as [__init__] leaves it. *)
Definition initial_state : State := {| earnings_cache := []; logged := [] |}.

(** The expiry that the cache holds for a symbol. *)
Definition cached_expiry (st : State) (symbol : string) : option YYYYMMDD :=
  match dict_get (earnings_cache st) symbol with
  | Some cache_entry => expiry_date cache_entry
  | None => None
  end.

(** A cache with an entry, as a caller could have filled it. *)
Module Sample.

Definition filled : State :=
  {| earnings_cache :=
       [("AAA"%string, {| earnings_date := Some (ADate 20000);
                          expiry_date := Some 20001;
                          cached_at := 0 |})];
     logged := [] |}.

End Sample.

End EarningsDetector.

(** * Facts *)

(** ** Dictionaries *)

Section DictFacts.
Context {V : Type}.
Implicit Types (d : dict V) (k : string) (v : V).

Lemma dict_get_set_same d k v : dict_get (dict_set d k v) k = Some v.
Proof.
  induction d as [|[k' v'] d IH]; simpl.
  - now rewrite String.eqb_refl.
  - destruct (String.eqb k k') eqn:E; simpl; rewrite E; auto.
Qed.

Lemma dict_get_set_other d k k' v :
  k <> k' -> dict_get (dict_set d k v) k' = dict_get d k'.
Proof.
  intros N. induction d as [|[k0 v0] d IH]; simpl.
  - destruct (String.eqb_spec k' k); congruence.
  - destruct (String.eqb_spec k k0); simpl.
    + subst. destruct (String.eqb_spec k' k0); congruence.
    + now rewrite IH.
Qed.

Lemma dict_get_keys d k : In k (dict_keys d) -> dict_get d k <> None.
Proof.
  unfold dict_keys.
  induction d as [|[k' v'] d IH]; simpl; [tauto|].
  intros [->|H]; [now rewrite String.eqb_refl|].
  destruct (String.eqb k k'); [discriminate|auto].
Qed.

Lemma dict_get_not_key d k : ~ In k (dict_keys d) -> dict_get d k = None.
Proof.
  unfold dict_keys.
  induction d as [|[k' v'] d IH]; simpl; [reflexivity|].
  intros N. destruct (String.eqb_spec k k') as [->|D]; [exfalso; apply N; now left|].
  apply IH. intro H. apply N. now right.
Qed.

Lemma dict_keys_set_new d k v :
  ~ In k (dict_keys d) -> dict_set d k v = d ++ [(k, v)].
Proof.
  unfold dict_keys.
  induction d as [|[k' v'] d IH]; simpl; [reflexivity|].
  intros N. destruct (String.eqb_spec k k') as [->|D]; [exfalso; apply N; now left|].
  rewrite IH; [reflexivity|]. intro H. apply N. now right.
Qed.

Lemma dict_values_set_in d k v x :
  In x (dict_values (dict_set d k v)) -> x = v \/ In x (dict_values d).
Proof.
  unfold dict_values.
  induction d as [|[k' v'] d IH]; simpl.
  - intros [<-|[]]; now left.
  - destruct (String.eqb k k'); simpl; intuition congruence.
Qed.
End DictFacts.

(** ** Python floats *)

Module PyFloatFacts.
Import PyFloat.

Lemma SFltb_key (x y : spec_float) :
  sf_is_nan x = false -> sf_is_nan y = false ->
  (SFltb x y = true <-> lex_lt (sf_key x) (sf_key y)).
Proof.
  unfold SFltb.
  destruct x as [sx|sx| |sx mx ex], y as [sy|sy| |sy my ey];
    try discriminate; intros _ _;
    try destruct sx; try destruct sy; cbn;
    try (split; [discriminate || lia | lia || reflexivity || (intros; exfalso; lia)]).
  all: change (Pos.compare_cont Eq mx my) with (Pos.compare mx my);
    destruct (Z.compare_spec ex ey);
    try (destruct (Pos.compare_spec mx my)); cbn;
    split; intros; first [discriminate | reflexivity | lia | exfalso; lia].
Qed.

Lemma SFltb_nan (x y : spec_float) :
  SFltb x y = true -> sf_is_nan x = false /\ sf_is_nan y = false.
Proof.
  unfold SFltb. destruct x, y; cbn; try discriminate; auto.
Qed.

Lemma is_nan_spec (x : float) : PrimFloat.is_nan x = sf_is_nan (Prim2SF x).
Proof.
  unfold PrimFloat.is_nan. rewrite FloatAxioms.eqb_spec. unfold SFeqb.
  destruct (Prim2SF x) as [s|s| |s m e]; try destruct s; cbn;
    rewrite ?Z.compare_refl, ?Pos.compare_cont_refl; reflexivity.
Qed.

Lemma lt_asym (x y : float) : lt x y = true -> lt y x = false.
Proof.
  unfold lt. rewrite !ltb_spec. intros H.
  destruct (SFltb_nan _ _ H) as [nx ny].
  apply (SFltb_key _ _ nx ny) in H.
  destruct (SFltb (Prim2SF y) (Prim2SF x)) eqn:E; [|reflexivity].
  apply (SFltb_key _ _ ny nx) in E.
  destruct (sf_key (Prim2SF x)) as [[? ?] ?], (sf_key (Prim2SF y)) as [[? ?] ?].
  cbn in *. lia.
Qed.

Lemma not_lt_trans (x y z : float) :
  PrimFloat.is_nan y = false ->
  lt x y = false -> lt y z = false -> lt x z = false.
Proof.
  unfold lt. rewrite !ltb_spec, is_nan_spec. intros ny Hxy Hyz.
  destruct (SFltb (Prim2SF x) (Prim2SF z)) eqn:E; [|reflexivity].
  destruct (SFltb_nan _ _ E) as [nx nz].
  apply (SFltb_key _ _ nx nz) in E.
  assert (A : ~ lex_lt (sf_key (Prim2SF x)) (sf_key (Prim2SF y))).
  { intro A. apply (SFltb_key _ _ nx ny) in A. congruence. }
  assert (B : ~ lex_lt (sf_key (Prim2SF y)) (sf_key (Prim2SF z))).
  { intro B. apply (SFltb_key _ _ ny nz) in B. congruence. }
  destruct (sf_key (Prim2SF x)) as [[? ?] ?], (sf_key (Prim2SF y)) as [[? ?] ?],
    (sf_key (Prim2SF z)) as [[? ?] ?].
  cbn in *. lia.
Qed.

Lemma lt_not_nan (x y : float) :
  lt x y = true -> PrimFloat.is_nan x = false /\ PrimFloat.is_nan y = false.
Proof.
  unfold lt. rewrite ltb_spec, !is_nan_spec. apply SFltb_nan.
Qed.

Lemma abs_is_nan (x : float) : PrimFloat.is_nan (PrimFloat.abs x) = PrimFloat.is_nan x.
Proof.
  rewrite !is_nan_spec, abs_spec. destruct (Prim2SF x); reflexivity.
Qed.

Lemma positive_not_zero (c : float) :
  lt 0%float c = true -> PrimFloat.eqb c 0%float = false.
Proof.
  unfold lt. rewrite ltb_spec, FloatAxioms.eqb_spec.
  replace (Prim2SF 0%float) with (S754_zero false) by reflexivity.
  unfold SFltb, SFeqb.
  destruct (Prim2SF c) as [s|s| |s m e]; try destruct s; cbn; congruence.
Qed.

Lemma lt_trans (x y z : float) :
  lt x y = true -> lt y z = true -> lt x z = true.
Proof.
  unfold lt. rewrite !ltb_spec. intros Hxy Hyz.
  destruct (SFltb_nan _ _ Hxy) as [nx ny].
  destruct (SFltb_nan _ _ Hyz) as [_ nz].
  apply (SFltb_key _ _ nx ny) in Hxy.
  apply (SFltb_key _ _ ny nz) in Hyz.
  apply (SFltb_key _ _ nx nz).
  destruct (sf_key (Prim2SF x)) as [[? ?] ?], (sf_key (Prim2SF y)) as [[? ?] ?],
    (sf_key (Prim2SF z)) as [[? ?] ?].
  cbn in *. lia.
Qed.

Lemma below_minus_one_not_above_one (x : float) :
  lt x (-1)%float = true -> lt 1%float x = false.
Proof.
  intros H. apply lt_asym. apply (lt_trans _ _ _ H). reflexivity.
Qed.
End PyFloatFacts.

(** ** One symbol *)

Ltac unfold_monad :=
  unfold try_except, bind, lift, ret, log, emit, store_result, assign_results in *.

Lemma price_change_total (current_price close_price : float) :
  price_change current_price close_price =
    Ok (if PyFloat.lt 0%float close_price
        then ((current_price - close_price) / close_price * 100)%float
        else 0%float).
Proof.
  unfold price_change, PyFloat.truediv.
  destruct (PyFloat.lt 0%float close_price) eqn:E; [|reflexivity].
  now rewrite (PyFloatFacts.positive_not_zero _ E).
Qed.

Lemma scan_symbol_run env config s pe now st :
  exists tr,
    scan_symbol env config s pe now st =
      (Ok (task_result env config s pe now),
       {| scan_results := match task_result env config s pe now with
                          | Some r => dict_set (scan_results st) s r
                          | None => scan_results st
                          end;
          trace := trace st ++ tr |})
    /\ count_logs tr = [].
Proof.
  unfold task_result, scan_symbol. unfold_monad. simpl.
  destruct (qualify_contracts env (stock_contract s pe)) as [[|c cs]|e]; simpl;
    try (eexists; split; [rewrite <- ?app_assoc; reflexivity | reflexivity]).
  destruct (get_ticker_for_contract env c) as [[tk|]|e]; simpl;
    try (eexists; split; [rewrite <- ?app_assoc; reflexivity | reflexivity]).
  rewrite price_change_total; simpl.
  destruct (classify _ _) as [h a]; simpl.
  eexists; split; [rewrite <- ?app_assoc; reflexivity | reflexivity].
Qed.

Lemma scan_symbol_some env config s pe now st r st' :
  scan_symbol env config s pe now st = (Ok (Some r), st') ->
  exists c cs tk,
    qualify_contracts env (stock_contract s pe) = Ok (c :: cs) /\
    get_ticker_for_contract env c = Ok (Some tk) /\
    symbol r = s /\
    current_price r = read_current_price tk /\
    close_price r = read_close_price tk /\
    price_change (current_price r) (close_price r) = Ok (price_change_pct r) /\
    res_volume r = read_volume tk /\
    (has_opportunity r, recommended_action r) =
      classify (dict_get (symbols config) s) (price_change_pct r) /\
    timestamp r = now /\
    scan_results st' = dict_set (scan_results st) s r.
Proof.
  unfold scan_symbol. unfold_monad. simpl.
  destruct (qualify_contracts env (stock_contract s pe)) as [[|c cs]|e] eqn:Q; simpl;
    try discriminate.
  destruct (get_ticker_for_contract env c) as [[tk|]|e] eqn:T; simpl; try discriminate.
  destruct (price_change _ _) as [pct|e] eqn:P; simpl; try discriminate.
  destruct (classify _ _) as [h a] eqn:C; simpl.
  intros H. injection H as <- <-. simpl.
  exists c, cs, tk. repeat split; auto.
Qed.

Lemma scan_symbol_ticker env config s pe now st c cs tk :
  qualify_contracts env (stock_contract s pe) = Ok (c :: cs) ->
  get_ticker_for_contract env c = Ok (Some tk) ->
  exists r st', scan_symbol env config s pe now st = (Ok (Some r), st').
Proof.
  intros Q T. unfold scan_symbol. unfold_monad. simpl. rewrite Q. simpl. rewrite T. simpl.
  rewrite price_change_total. simpl.
  destruct (classify _ _) as [h a]. simpl. eauto.
Qed.

Lemma scan_symbol_quote env config s pe now st c cs tk :
  qualify_contracts env (stock_contract s pe) = Ok (c :: cs) ->
  get_ticker_for_contract env c = Ok (Some tk) ->
  exists r st',
    scan_symbol env config s pe now st = (Ok (Some r), st')
    /\ current_price r = read_current_price tk
    /\ close_price r = read_close_price tk
    /\ price_change_pct r =
         (if PyFloat.lt 0%float (close_price r)
          then ((current_price r - close_price r) / close_price r * 100)%float
          else 0%float).
Proof.
  intros Q T.
  destruct (scan_symbol_ticker env config s pe now st c cs tk Q T) as (r & st' & H).
  exists r, st'. split; [exact H|].
  destruct (scan_symbol_some _ _ _ _ _ _ _ _ H)
    as (c' & cs' & tk' & Q' & T' & _ & Hc & Hp & P & _).
  rewrite Q in Q'. injection Q' as <- <-. rewrite T in T'. injection T' as <-.
  split; [exact Hc|]. split; [exact Hp|].
  rewrite price_change_total in P. now injection P.
Qed.

Lemma classify_classified symbol_config pct h a :
  classify symbol_config pct = (h, a) ->
  h = true -> PyFloat.lt pct (-1)%float || PyFloat.lt 1%float pct = true.
Proof.
  unfold classify. destruct symbol_config as [sc|]; [|congruence].
  destruct (PyFloat.lt pct (-1)%float); [reflexivity|].
  destruct (PyFloat.lt 1%float pct); [reflexivity|]. congruence.
Qed.

(** ** The claims on one symbol *)

(** C1, as amended.  For a symbol that has an entry in the configuration and
    whose scan returns a result, [has_opportunity] is
    [(pct < -1.0 and allow_red) or (pct > 1.0 and allow_green)] and the
    recommended action is PUT on the down branch, CALL on the up branch and
    none otherwise; a gate is open when the side or its [write_when] is not
    set, and otherwise only when its flag is [True]. *)
Theorem scan_symbol_classification env config s pe now st r st' sc :
  dict_get (symbols config) s = Some sc ->
  scan_symbol env config s pe now st = (Ok (Some r), st') ->
  let pct := price_change_pct r in
  has_opportunity r =
    (PyFloat.lt pct (-1)%float && allow_red sc) || (PyFloat.lt 1%float pct && allow_green sc)
  /\ recommended_action r =
       (if PyFloat.lt pct (-1)%float && allow_red sc then Some PUT
        else if PyFloat.lt 1%float pct && allow_green sc then Some CALL
        else None)
  /\ (puts sc = None -> allow_red sc = true)
  /\ (forall p, puts sc = Some p -> write_when p = None -> allow_red sc = true)
  /\ (calls sc = None -> allow_green sc = true)
  /\ (forall c, calls sc = Some c -> write_when c = None -> allow_green sc = true).
Proof.
  intros G H pct.
  destruct (scan_symbol_some _ _ _ _ _ _ _ _ H)
    as (c & cs & tk & _ & _ & _ & _ & _ & _ & _ & C & _).
  rewrite G in C. unfold classify in C. fold pct in C.
  repeat split.
  - destruct (PyFloat.lt pct (-1)%float) eqn:D.
    + rewrite (PyFloatFacts.below_minus_one_not_above_one _ D).
      destruct (allow_red sc); injection C as -> _; reflexivity.
    + destruct (PyFloat.lt 1%float pct); simpl;
        [destruct (allow_green sc)|]; injection C as -> _; reflexivity.
  - destruct (PyFloat.lt pct (-1)%float) eqn:D.
    + rewrite (PyFloatFacts.below_minus_one_not_above_one _ D).
      destruct (allow_red sc); injection C as _ ->; reflexivity.
    + destruct (PyFloat.lt 1%float pct); simpl;
        [destruct (allow_green sc)|]; injection C as _ ->; reflexivity.
  - unfold allow_red. now intros ->.
  - unfold allow_red. now intros p -> ->.
  - unfold allow_green. now intros ->.
  - unfold allow_green. now intros p -> ->.
Qed.

Lemma scan_symbol_classification_witness :
  exists r st',
    scan_symbol Sample.env Sample.config "AAA" "" 0 initial_state = (Ok (Some r), st')
    /\ has_opportunity r = true /\ recommended_action r = Some PUT.
Proof.
  destruct (scan_symbol Sample.env Sample.config "AAA" "" 0 initial_state)
    as [[[r|]|e] st'] eqn:E; try (vm_compute in E; discriminate).
  exists r, st'. split; [reflexivity|].
  destruct (scan_symbol_classification Sample.env Sample.config "AAA" "" 0
              initial_state r st' Sample.plain eq_refl E) as (Ho & Ha & _).
  assert (P : price_change_pct r = (-2)%float).
  { vm_compute in E. injection E as <- _. reflexivity. }
  rewrite P in Ho, Ha. split; [exact Ho | exact Ha].
Defined.

(** C1, as stated, fails for a symbol without an entry in the configuration:
    its gates are unset, the move is below minus one percent, and the scan
    reports no opportunity. *)
Lemma unconfigured_symbol_breaks_spec_gate :
  exists r,
    fst (scan_symbol Sample.env Sample.no_symbols "AAA" "" 0 initial_state) = Ok (Some r)
    /\ PyFloat.lt (price_change_pct r) (-1)%float = true
    /\ has_opportunity r = false
    /\ spec_has_opportunity (dict_get (symbols Sample.no_symbols) "AAA")
         (price_change_pct r) = true.
Proof.
  eexists. split; [vm_compute; reflexivity|]. vm_compute. auto.
Qed.

(** C2.  Whenever a ticker is obtained, the scan returns a result (no fault
    is raised); its percent change is
    [(current_price - close_price) / close_price * 100] when
    [close_price > 0], the division being defined there, and [0] otherwise,
    in particular when [close_price == 0], where the division would raise and
    is not made. *)
Theorem scan_symbol_price_change env config s pe now st c cs tk :
  qualify_contracts env (stock_contract s pe) = Ok (c :: cs) ->
  get_ticker_for_contract env c = Ok (Some tk) ->
  exists r st',
    scan_symbol env config s pe now st = (Ok (Some r), st')
    /\ current_price r = read_current_price tk
    /\ close_price r = read_close_price tk
    /\ price_change (current_price r) (close_price r) = Ok (price_change_pct r)
    /\ (PyFloat.lt 0%float (close_price r) = true ->
        PyFloat.truediv (current_price r - close_price r)%float (close_price r)
          = Some ((current_price r - close_price r) / close_price r)%float
        /\ price_change_pct r
           = ((current_price r - close_price r) / close_price r * 100)%float)
    /\ (PrimFloat.eqb (close_price r) 0%float = true ->
        PyFloat.truediv (current_price r - close_price r)%float (close_price r) = None
        /\ price_change_pct r = 0%float)
    /\ (PyFloat.lt 0%float (close_price r) = false -> price_change_pct r = 0%float).
Proof.
  intros Q T.
  destruct (scan_symbol_quote env config s pe now st c cs tk Q T)
    as (r & st' & H & Hc & Hp & P).
  exists r, st'. split; [exact H|]. split; [exact Hc|]. split; [exact Hp|].
  split; [rewrite price_change_total; now rewrite P|].
  split; [|split].
  - intros L. split.
    + unfold PyFloat.truediv. now rewrite (PyFloatFacts.positive_not_zero _ L).
    + now rewrite P, L.
  - intros Z. split.
    + unfold PyFloat.truediv. now rewrite Z.
    + rewrite P. destruct (PyFloat.lt 0%float (close_price r)) eqn:L; [|reflexivity].
      rewrite (PyFloatFacts.positive_not_zero _ L) in Z. discriminate.
  - intros L. now rewrite P, L.
Qed.

Lemma scan_symbol_price_change_witness :
  exists r st',
    scan_symbol Sample.env Sample.config "AAA" "" 0 initial_state = (Ok (Some r), st')
    /\ price_change (current_price r) (close_price r) = Ok (price_change_pct r).
Proof.
  destruct (scan_symbol_price_change Sample.env Sample.config "AAA" "" 0 initial_state
              (stock_contract "AAA" "") [] (Sample.quote 147 150) eq_refl eq_refl)
    as (r & st' & H & _ & _ & P & _).
  exists r, st'. split; [exact H | exact P].
Defined.

(** C10.  A symbol without an entry in the configuration never has an
    opportunity and never a recommended action, whatever its move. *)
Theorem unconfigured_symbol_no_opportunity env config s pe now st r st' :
  dict_get (symbols config) s = None ->
  scan_symbol env config s pe now st = (Ok (Some r), st') ->
  has_opportunity r = false /\ recommended_action r = None.
Proof.
  intros G H.
  destruct (scan_symbol_some _ _ _ _ _ _ _ _ H)
    as (c & cs & tk & _ & _ & _ & _ & _ & _ & _ & C & _).
  rewrite G in C. simpl in C. now injection C.
Qed.

Lemma unconfigured_symbol_no_opportunity_witness :
  exists r st',
    scan_symbol Sample.env Sample.no_symbols "AAA" "" 0 initial_state = (Ok (Some r), st')
    /\ PyFloat.lt (price_change_pct r) (-1)%float = true
    /\ has_opportunity r = false /\ recommended_action r = None.
Proof.
  destruct (scan_symbol Sample.env Sample.no_symbols "AAA" "" 0 initial_state)
    as [[[r|]|e] st'] eqn:E; try (vm_compute in E; discriminate).
  exists r, st'. split; [reflexivity|]. split.
  - vm_compute in E. injection E as <- _. reflexivity.
  - exact (unconfigured_symbol_no_opportunity Sample.env Sample.no_symbols "AAA" ""
             0 initial_state r st' eq_refl E).
Defined.

(** C6, as amended.  When the ticker cannot be fetched (the call raises, or
    returns no ticker) the scan of the symbol returns no result, does not
    raise and stores nothing.  When a ticker is returned the scan returns a
    result even if a price field is missing: a missing [marketPrice] is read
    as [0.0], a missing or NaN [close] as [0.0] with a percent change of
    [0.0]. *)
Theorem scan_symbol_quote_failure env config s pe now st c cs :
  qualify_contracts env (stock_contract s pe) = Ok (c :: cs) ->
  ((forall tk, get_ticker_for_contract env c <> Ok (Some tk)) ->
   exists st',
     scan_symbol env config s pe now st = (Ok None, st')
     /\ scan_results st' = scan_results st
     /\ (In (Logged (CouldNotGetTicker s)) (trace st')
         \/ In (Logged (ErrorScanningSymbol s)) (trace st')))
  /\ (forall tk, get_ticker_for_contract env c = Ok (Some tk) ->
      exists r st',
        scan_symbol env config s pe now st = (Ok (Some r), st')
        /\ (marketPrice tk = None -> current_price r = 0%float)
        /\ (close tk = None \/ (exists x, close tk = Some x /\ PyFloat.isna x = true) ->
            close_price r = 0%float /\ price_change_pct r = 0%float)).
Proof.
  intros Q. split.
  - intros N. unfold scan_symbol. unfold_monad. simpl. rewrite Q. simpl.
    destruct (get_ticker_for_contract env c) as [[tk|]|e] eqn:T; simpl.
    + now destruct (N tk).
    + eexists. repeat split. left. simpl. rewrite !in_app_iff. simpl. auto.
    + eexists. repeat split. right. simpl. rewrite !in_app_iff. simpl. auto.
  - intros tk T.
    destruct (scan_symbol_quote env config s pe now st c cs tk Q T)
      as (r & st' & H & Hc & Hp & P).
    exists r, st'. split; [exact H|]. split.
    + intros M. rewrite Hc. unfold read_current_price. now rewrite M.
    + intros M.
      assert (E : close_price r = 0%float).
      { rewrite Hp. unfold read_close_price.
        destruct M as [M|(x & M & I)]; rewrite M; [reflexivity|now rewrite I]. }
      split; [exact E|]. rewrite P, E. reflexivity.
Qed.

Lemma scan_symbol_quote_failure_witness :
  exists st',
    scan_symbol Sample.env Sample.config "EEE" "" 0 initial_state = (Ok None, st')
    /\ scan_results st' = scan_results initial_state.
Proof.
  destruct (scan_symbol_quote_failure Sample.env Sample.config "EEE" "" 0 initial_state
              (stock_contract "EEE" "") [] eq_refl) as [F _].
  destruct F as (st' & H & S & _).
  - intros tk. vm_compute. discriminate.
  - exists st'. split; [exact H | exact S].
Defined.

(** C6, as stated, fails on a ticker without price fields: the scan returns
    a result, not a failure. *)
Lemma missing_price_is_still_a_result :
  Sample.ticker_of (stock_contract "DDD" "") = Ok (Some Sample.bare_ticker)
  /\ price_field_missing Sample.bare_ticker = true
  /\ exists r, fst (scan_symbol Sample.env Sample.config "DDD" "" 0 initial_state)
               = Ok (Some r).
Proof.
  split; [reflexivity|]. split; [reflexivity|].
  eexists. vm_compute. reflexivity.
Qed.

(** ** The window gate and the report of the time until the open *)

Lemma is_premarket_hours_run env config t st :
  exists tr,
    is_premarket_hours env config t st =
      (Ok (in_premarket env config t),
       {| scan_results := scan_results st; trace := trace st ++ tr |})
    /\ broker_calls tr = [] /\ count_logs tr = [].
Proof.
  unfold in_premarket, is_premarket_hours. unfold_monad. destruct st as [d tr0]. simpl.
  destruct (get_calendar env (exchange config)) as [cal|e]; simpl;
    [|eexists; repeat split; reflexivity].
  destruct (tz_convert env t) as [now_et|]; simpl;
    [|eexists; repeat split; reflexivity].
  destruct (is_session cal (now_et / 86400)) as [[|]|e]; simpl;
    [ | exists []; rewrite app_nil_r; repeat split; reflexivity
      | eexists; repeat split; reflexivity].
  destruct (session_open cal (now_et / 86400)) as [op|e]; simpl;
    [|eexists; repeat split; reflexivity].
  destruct (tz_convert env op) as [op_et|]; simpl;
    [|eexists; repeat split; reflexivity].
  destruct (_ && _); simpl; exists []; rewrite app_nil_r; repeat split; reflexivity.
Qed.

Lemma report_time_until_open_run env config t st :
  exists tr,
    report_time_until_open env config t st =
      (Ok tt, {| scan_results := scan_results st; trace := trace st ++ tr |})
    /\ broker_calls tr = [] /\ count_logs tr = [].
Proof.
  unfold report_time_until_open. unfold_monad. destruct st as [d tr0]. simpl.
  destruct (get_calendar env (exchange config)) as [cal|e]; simpl;
    [|exists []; rewrite app_nil_r; repeat split; reflexivity].
  destruct (tz_convert env t) as [now_et|]; simpl;
    [|exists []; rewrite app_nil_r; repeat split; reflexivity].
  destruct (session_open cal (now_et / 86400)) as [op|e]; simpl;
    [|exists []; rewrite app_nil_r; repeat split; reflexivity].
  destruct (tz_convert env op) as [op_et|]; simpl;
    [|exists []; rewrite app_nil_r; repeat split; reflexivity].
  destruct (0 <? op_et - now_et); simpl;
    [eexists; repeat split; reflexivity
    |exists []; rewrite app_nil_r; repeat split; reflexivity].
Qed.

(** ** Creating and gathering the tasks *)

Lemma make_tasks_run env config clock syms st :
  (forall s, In s syms -> In s (dict_keys (symbols config))) ->
  make_tasks env config clock syms st = (Ok (map (task_of env config clock) syms), st).
Proof.
  induction syms as [|s rest IH]; intros K; simpl; [reflexivity|].
  unfold bind, lift, ret. 
  assert (Ks : In s (dict_keys (symbols config))) by (apply K; now left).
  apply dict_get_keys in Ks.
  unfold task_of at 1. unfold configured_exchange.
  destruct (dict_get (symbols config) s) as [sc|]; [|congruence].
  rewrite IH; [reflexivity|]. intros s' I. apply K. now right.
Qed.

Lemma task_of_run env config clock s st :
  exists tr,
    task_of env config clock s st =
      (Ok (outcome_of env config clock s),
       {| scan_results := match outcome_of env config clock s with
                          | Some r => dict_set (scan_results st) s r
                          | None => scan_results st
                          end;
          trace := trace st ++ tr |})
    /\ count_logs tr = [].
Proof. apply scan_symbol_run. Qed.

Lemma count_logs_app tr1 tr2 : count_logs (tr1 ++ tr2) = count_logs tr1 ++ count_logs tr2.
Proof. apply filter_app. Qed.

Lemma broker_calls_app tr1 tr2 :
  broker_calls (tr1 ++ tr2) = broker_calls tr1 ++ broker_calls tr2.
Proof. apply filter_app. Qed.

Lemma gather_run env config clock syms st :
  exists tr,
    gather (map (task_of env config clock) syms) st =
      (Ok (map (fun s => Ok (outcome_of env config clock s)) syms),
       {| scan_results := collected env config clock syms (scan_results st);
          trace := trace st ++ tr |})
    /\ count_logs tr = [].
Proof.
  revert st. induction syms as [|s rest IH]; intros st; simpl.
  - exists []. rewrite app_nil_r. destruct st; split; reflexivity.
  - unfold bind, attempt, ret.
    destruct (task_of_run env config clock s st) as (tr1 & -> & C1).
    match goal with |- context [gather _ ?st1] => destruct (IH st1) as (tr2 & -> & C2) end.
    simpl. exists (tr1 ++ tr2). rewrite app_assoc. split.
    + destruct (outcome_of env config clock s); reflexivity.
    + now rewrite count_logs_app, C1, C2.
Qed.

(** ** Counting the results *)

(** Whatever the tasks returned or raised, every result is counted once, as a
    success or as a failure, and the loop does not raise. *)
Lemma process_results_counts syms results :
  forall i d s f st,
    (i + List.length results <= List.length syms)%nat ->
    exists d' s' f' tr,
      process_results syms i results d s f st =
        (Ok (d', s', f'), {| scan_results := scan_results st; trace := trace st ++ tr |})
      /\ (s' + f' = s + f + List.length results)%nat
      /\ broker_calls tr = [].
Proof.
  induction results as [|r rest IH]; intros i d s f st L; simpl in *.
  - exists d, s, f, []. rewrite app_nil_r. destruct st. repeat split. lia.
  - unfold bind, lift, log, emit.
    destruct (nth_error syms i) as [sym|] eqn:N.
    2:{ apply nth_error_None in N. lia. }
    destruct r as [[r|]|e]; simpl.
    + destruct (IH (S i) (dict_set d sym r) (S s) f st) as (d' & s' & f' & tr & -> & C & B);
        [lia|].
      exists d', s', f', tr. repeat split; auto. lia.
    + match goal with |- context [process_results _ _ _ _ _ _ ?st1] =>
        destruct (IH (S i) d s (S f) st1) as (d' & s' & f' & tr & -> & C & B); [lia|] end.
      simpl. exists d', s', f', (Logged (NoResultFor sym) :: tr).
      rewrite <- app_assoc. repeat split; auto. lia.
    + match goal with |- context [process_results _ _ _ _ _ _ ?st1] =>
        destruct (IH (S i) d s (S f) st1) as (d' & s' & f' & tr & -> & C & B); [lia|] end.
      simpl. exists d', s', f', (Logged (ErrorScanning sym) :: tr).
      rewrite <- app_assoc. repeat split; auto. lia.
Qed.

Lemma process_results_run env config clock rest :
  forall pre d s f st,
    exists tr,
      process_results (pre ++ rest) (List.length pre)
        (map (fun x => Ok (outcome_of env config clock x)) rest) d s f st =
        (Ok (collected env config clock rest d,
             (s + List.length (filter (has_result env config clock) rest))%nat,
             (f + List.length (filter (fun x => negb (has_result env config clock x)) rest))%nat),
         {| scan_results := scan_results st; trace := trace st ++ tr |})
      /\ (forall x, In x rest -> outcome_of env config clock x = None ->
          In (Logged (NoResultFor x)) tr)
      /\ broker_calls tr = [].
Proof.
  induction rest as [|x rest IH]; intros pre d s f st; simpl.
  - exists []. rewrite app_nil_r, !Nat.add_0_r. destruct st. repeat split. tauto.
  - unfold bind, lift, log, emit.
    rewrite nth_error_app2, Nat.sub_diag by lia. simpl.
    assert (E : pre ++ x :: rest = (pre ++ [x]) ++ rest) by now rewrite <- app_assoc.
    assert (L : S (List.length pre) = List.length (pre ++ [x]))
      by (rewrite length_app; simpl; lia).
    rewrite E, L.
    destruct (outcome_of env config clock x) as [r|] eqn:O; simpl.
    + assert (Hx : has_result env config clock x = true)
        by (unfold has_result; now rewrite O).
      rewrite Hx. simpl.
      destruct (IH (pre ++ [x]) (dict_set d x r) (S s) f st) as (tr & -> & N & B).
      exists tr. rewrite Nat.add_succ_r. split; [reflexivity|]. split; [|exact B].
      intros y [<-|I] Oy; [congruence|auto].
    + assert (Hx : has_result env config clock x = false)
        by (unfold has_result; now rewrite O).
      rewrite Hx. simpl.
      match goal with |- context [process_results _ _ _ _ _ _ ?st1] =>
        destruct (IH (pre ++ [x]) d s (S f) st1) as (tr & -> & N & B) end.
      simpl. exists (Logged (NoResultFor x) :: tr).
      rewrite <- app_assoc, Nat.add_succ_r. split; [reflexivity|]. split; [|exact B].
      intros y [<-|I] Oy; [now left|right; auto].
Qed.

Lemma filter_split_length {A} (p : A -> bool) (l : list A) :
  (List.length (filter p l) + List.length (filter (fun x => negb (p x)) l)
   = List.length l)%nat.
Proof.
  induction l as [|a l IH]; simpl; [reflexivity|].
  destruct (p a); simpl; lia.
Qed.

(** ** The collected mapping *)

Lemma collected_get_other env config clock syms :
  forall acc s,
    ~ In s syms -> dict_get (collected env config clock syms acc) s = dict_get acc s.
Proof.
  induction syms as [|x syms IH]; intros acc s N; simpl; [reflexivity|].
  assert (D : x <> s) by (intros ->; apply N; now left).
  assert (N' : ~ In s syms) by (intros I; apply N; now right).
  destruct (outcome_of env config clock x) as [r|]; rewrite IH by exact N'.
  - now apply dict_get_set_other.
  - reflexivity.
Qed.

Lemma collected_get env config clock syms :
  forall acc s,
    In s syms ->
    dict_get (collected env config clock syms acc) s =
      match outcome_of env config clock s with
      | Some r => Some r
      | None => dict_get acc s
      end.
Proof.
  induction syms as [|x syms IH]; intros acc s I; simpl; [destruct I|].
  destruct (in_dec string_dec s syms) as [Is|Ns].
  - destruct (outcome_of env config clock x) as [r|] eqn:O; rewrite IH by exact Is;
      [|reflexivity].
    destruct (outcome_of env config clock s) eqn:Os; [reflexivity|].
    apply dict_get_set_other. congruence.
  - destruct I as [<-|I]; [|contradiction].
    destruct (outcome_of env config clock x) as [r|] eqn:O;
      rewrite collected_get_other by exact Ns; [apply dict_get_set_same|reflexivity].
Qed.

Lemma collected_keys env config clock syms :
  forall acc,
    NoDup syms -> (forall s, In s syms -> ~ In s (dict_keys acc)) ->
    collected env config clock syms acc =
      acc ++ flat_map (fun s => match outcome_of env config clock s with
                                | Some r => [(s, r)]
                                | None => []
                                end) syms.
Proof.
  induction syms as [|x syms IH]; intros acc N F; simpl; [now rewrite app_nil_r|].
  inversion N as [|? ? Nx Ns]; subst.
  destruct (outcome_of env config clock x) as [r|] eqn:O.
  - rewrite IH; auto.
    + rewrite dict_keys_set_new by (apply F; now left). now rewrite <- app_assoc.
    + intros s I. rewrite dict_keys_set_new by (apply F; now left).
      unfold dict_keys. rewrite map_app, in_app_iff. simpl.
      intros [H|[<-|[]]]; [|exact (Nx I)]. apply (F s); [now right|exact H].
  - rewrite IH; auto. intros s I. apply F. now right.
Qed.

Lemma collected_length env config clock syms :
  NoDup syms ->
  List.length (collected env config clock syms []) =
    List.length (filter (has_result env config clock) syms).
Proof.
  intros N. rewrite collected_keys by auto. simpl. clear N.
  induction syms as [|x syms IH]; simpl; [reflexivity|].
  unfold has_result at 1.
  destruct (outcome_of env config clock x); simpl; rewrite ?IH; reflexivity.
Qed.

Lemma collected_values env config clock syms :
  forall acc x,
    In x (dict_values (collected env config clock syms acc)) ->
    In x (dict_values acc) \/ exists s, outcome_of env config clock s = Some x.
Proof.
  induction syms as [|y syms IH]; intros acc x; simpl; [now left|].
  destruct (outcome_of env config clock y) as [r|] eqn:O; intros H;
    destruct (IH _ _ H) as [I|I]; auto.
  apply dict_values_set_in in I. destruct I as [->|I]; eauto.
Qed.

(** ** A whole scan *)

Lemma scan_all_symbols_idle env config clock st :
  scan_runs env config clock = false ->
  exists tr,
    scan_all_symbols env config clock st =
      (Ok [], {| scan_results := scan_results st; trace := trace st ++ tr |})
    /\ broker_calls tr = [] /\ count_logs tr = [].
Proof.
  unfold scan_runs, scan_all_symbols. intros R. unfold bind.
  destruct (is_premarket_hours_run env config (t_precheck clock) st) as (tr1 & -> & B1 & C1).
  destruct (in_premarket env config (t_precheck clock)); simpl in *.
  2:{ exists (tr1 ++ [Logged NotInPremarket]).
      rewrite app_assoc, broker_calls_app, count_logs_app, B1, C1. repeat split. }
  remember (dict_keys (symbols config)) as keys eqn:K.
  destruct (Nat.eqb (List.length keys) 0) eqn:Z; simpl in *.
  { exists (tr1 ++ [Logged StartingScan; Logged NoSymbolsConfigured]).
    rewrite broker_calls_app, count_logs_app, B1, C1, <- !app_assoc. repeat split. }
  rewrite make_tasks_run by (rewrite K; auto).
  match goal with |- context [is_premarket_hours _ _ _ ?st1] =>
    destruct (is_premarket_hours_run env config (t_recheck clock) st1) as (tr2 & -> & B2 & C2)
  end.
  rewrite R. simpl.
  exists (tr1 ++ [Logged StartingScan; Logged (ScanningInParallel (List.length keys))]
          ++ tr2 ++ [Logged ExpiredBeforeStart]).
  rewrite !broker_calls_app, !count_logs_app, B1, C1, B2, C2, <- !app_assoc. repeat split.
Qed.

Lemma scan_all_symbols_busy env config clock st :
  scan_runs env config clock = true ->
  let keys := dict_keys (symbols config) in
  let elapsed := t_end clock - t_start clock in
  exists tr,
    scan_all_symbols env config clock st =
      (Ok (collected env config clock keys []),
       {| scan_results := collected env config clock keys [];
          trace := trace st ++ tr |})
    /\ In (Logged (ScanCompleted elapsed
                     (List.length (filter (has_result env config clock) keys))
                     (List.length keys)
                     (List.length (filter (fun s => negb (has_result env config clock s)) keys))))
          tr
    /\ (forall s, In s keys -> outcome_of env config clock s = None ->
        In (Logged (NoResultFor s)) tr)
    /\ (in_premarket env config (t_postcheck clock) = false ->
        In (Logged (ExpiredDuringScan elapsed)) tr).
Proof.
  intros R keys elapsed. unfold scan_runs in R. unfold scan_all_symbols, bind.
  apply andb_prop in R. destruct R as [R R2]. apply andb_prop in R. destruct R as [R1 R0].
  destruct (is_premarket_hours_run env config (t_precheck clock) st) as (tr1 & -> & _).
  rewrite R1. simpl. fold keys. fold keys in R0.
  destruct (Nat.eqb (List.length keys) 0) eqn:Z; [discriminate|]. simpl.
  rewrite make_tasks_run by auto.
  match goal with |- context [is_premarket_hours _ _ _ ?st1] =>
    destruct (is_premarket_hours_run env config (t_recheck clock) st1) as (tr2 & -> & _)
  end.
  rewrite R2. simpl.
  match goal with |- context [report_time_until_open _ _ _ ?st1] =>
    destruct (report_time_until_open_run env config (t_info clock) st1) as (tr3 & -> & _)
  end.
  simpl.
  match goal with |- context [gather _ ?st1] =>
    destruct (gather_run env config clock keys st1) as (tr4 & -> & _)
  end.
  simpl.
  match goal with |- context [is_premarket_hours _ _ _ ?st1] =>
    destruct (is_premarket_hours_run env config (t_postcheck clock) st1) as (tr5 & -> & _)
  end.
  simpl.
  destruct (in_premarket env config (t_postcheck clock)); simpl.
  - match goal with |- context [process_results _ _ _ _ _ _ ?st1] =>
      destruct (process_results_run env config clock keys [] [] 0%nat 0%nat st1)
        as (tr6 & P & N & _)
    end.
    simpl in P. rewrite P. simpl. fold elapsed.
    eexists. split; [rewrite <- !app_assoc; reflexivity|].
    split; [|split].
    + rewrite !in_app_iff. simpl. tauto.
    + intros s I O. rewrite !in_app_iff. pose proof (N s I O). tauto.
    + discriminate.
  - match goal with |- context [process_results _ _ _ _ _ _ ?st1] =>
      destruct (process_results_run env config clock keys [] [] 0%nat 0%nat st1)
        as (tr6 & P & N & _)
    end.
    simpl in P. rewrite P. simpl. fold elapsed.
    eexists. split; [rewrite <- !app_assoc; reflexivity|].
    split; [|split].
    + rewrite !in_app_iff. simpl. tauto.
    + intros s I O. rewrite !in_app_iff. pose proof (N s I O). tauto.
    + intros _. rewrite !in_app_iff. simpl. tauto.
Qed.

Lemma outcome_of_with_postcheck env config clock t s :
  outcome_of env config (with_postcheck clock t) s = outcome_of env config clock s.
Proof. reflexivity. Qed.

Lemma collected_with_postcheck env config clock t syms :
  forall acc,
    collected env config (with_postcheck clock t) syms acc =
    collected env config clock syms acc.
Proof.
  induction syms as [|s syms IH]; intros acc; simpl; [reflexivity|].
  rewrite outcome_of_with_postcheck.
  destruct (outcome_of env config clock s); apply IH.
Qed.

Lemma scan_runs_nonempty env config clock :
  scan_runs env config clock = true -> dict_keys (symbols config) <> [].
Proof.
  unfold scan_runs. intros R E. rewrite E in R. simpl in R.
  now rewrite andb_false_r in R.
Qed.

Lemma scan_runs_open env config clock :
  in_premarket env config (t_precheck clock) = true ->
  in_premarket env config (t_recheck clock) = true ->
  dict_keys (symbols config) <> [] ->
  scan_runs env config clock = true.
Proof.
  unfold scan_runs. intros -> -> N.
  destruct (dict_keys (symbols config)); [congruence|reflexivity].
Qed.

(** ** The claims on a whole scan *)

(** C3.  With the window open at the checks before the scan, every symbol
    is counted once, as a success or as a failure: the two counters add up to
    the number of symbols, the successes are the entries of the returned
    mapping, every symbol whose task returned a result has it in the mapping
    whatever happened to the other tasks, and every symbol whose task failed
    is logged as without result. *)
Theorem scan_counts_every_symbol env config clock st :
  NoDup (dict_keys (symbols config)) ->
  in_premarket env config (t_precheck clock) = true ->
  in_premarket env config (t_recheck clock) = true ->
  let keys := dict_keys (symbols config) in
  exists d st' tr successful_scans failed_scans,
    scan_all_symbols env config clock st = (Ok d, st')
    /\ trace st' = trace st ++ tr
    /\ (successful_scans + failed_scans = List.length keys)%nat
    /\ successful_scans = List.length d
    /\ (keys <> [] ->
        In (Logged (ScanCompleted (t_end clock - t_start clock)
                      successful_scans (List.length keys) failed_scans)) tr)
    /\ (forall s, In s keys -> dict_get d s = outcome_of env config clock s)
    /\ (forall s, In s keys -> outcome_of env config clock s = None ->
        In (Logged (NoResultFor s)) tr).
Proof.
  intros N P R keys.
  destruct (scan_runs env config clock) eqn:S.
  - destruct (scan_all_symbols_busy env config clock st S) as (tr & E & C & F & _).
    fold keys in E, C, F.
    eexists _, _, tr, _, _. split; [exact E|]. simpl.
    split; [reflexivity|]. split; [apply filter_split_length|].
    split; [symmetry; now apply collected_length|].
    split; [intros _; exact C|]. split; [|exact F].
    intros s I. rewrite collected_get by exact I.
    now destruct (outcome_of env config clock s).
  - destruct (scan_all_symbols_idle env config clock st S) as (tr & E & _).
    assert (K : keys = []).
    { destruct keys eqn:K; [reflexivity|]. unfold scan_runs in S.
      fold keys in S. rewrite P, R, K in S. discriminate. }
    eexists _, _, tr, 0%nat, 0%nat. split; [exact E|]. simpl. rewrite K. simpl.
    repeat split; try tauto; congruence.
Qed.

Lemma scan_counts_every_symbol_witness :
  exists d st' tr successful_scans failed_scans,
    scan_all_symbols Sample.env Sample.config Sample.clock_open initial_state = (Ok d, st')
    /\ trace st' = trace initial_state ++ tr
    /\ (successful_scans + failed_scans = 5)%nat
    /\ successful_scans = List.length d
    /\ dict_get d "FFF" = None.
Proof.
  assert (N : NoDup (dict_keys (symbols Sample.config))).
  { repeat constructor; simpl; intuition discriminate. }
  destruct (scan_counts_every_symbol Sample.env Sample.config Sample.clock_open
              initial_state N eq_refl eq_refl)
    as (d & st' & tr & su & fa & E & T & S & L & _ & G & _).
  exists d, st', tr, su, fa. repeat split; try assumption.
  rewrite G by (simpl; tauto). reflexivity.
Defined.

(** C4, as amended.  When the window gate answers closed on entry, the scan
    returns the empty mapping at once: no call is made to the broker, so no
    task has started, nothing is counted as a success or as a failure, and
    [self.scan_results] is left as it was.  The mapping holds no counter and
    no validity flag. *)
Theorem closed_window_skips_scan env config clock st :
  in_premarket env config (t_precheck clock) = false ->
  exists d tr,
    scan_all_symbols env config clock st =
      (Ok d, {| scan_results := scan_results st; trace := trace st ++ tr |})
    /\ d = []
    /\ broker_calls tr = []
    /\ count_logs tr = []
    /\ In (Logged NotInPremarket) tr.
Proof.
  intros C. unfold scan_all_symbols, bind.
  destruct (is_premarket_hours_run env config (t_precheck clock) st) as (tr1 & -> & B1 & C1).
  rewrite C. simpl.
  exists [], (tr1 ++ [Logged NotInPremarket]).
  rewrite app_assoc, broker_calls_app, count_logs_app, B1, C1, in_app_iff.
  simpl. repeat split. tauto.
Qed.

Lemma closed_window_skips_scan_witness :
  exists tr,
    scan_all_symbols Sample.env Sample.config Sample.clock_late Sample.scanned =
      (Ok [], {| scan_results := scan_results Sample.scanned;
                 trace := trace Sample.scanned ++ tr |})
    /\ broker_calls tr = [].
Proof.
  destruct (closed_window_skips_scan Sample.env Sample.config Sample.clock_late
              Sample.scanned eq_refl) as (d & tr & E & -> & B & _).
  exists tr. split; [exact E | exact B].
Defined.

(** C4, as stated, fails: the scan refused on entry returns exactly the
    report of a scan admitted on entry (whose window closes before the tasks
    start, or which has no symbol to scan), the empty mapping, without any
    counter; so no flag read from the report tells whether the window was
    open on entry. *)
Lemma empty_report_carries_no_start_flag :
  in_premarket Sample.env Sample.config (t_precheck Sample.clock_late) = false
  /\ in_premarket Sample.env Sample.config (t_precheck Sample2.clock_expiring) = true
  /\ fst (scan_all_symbols Sample.env Sample.config Sample.clock_late initial_state)
     = Ok []
  /\ fst (scan_all_symbols Sample.env Sample.config Sample2.clock_expiring initial_state)
     = Ok []
  /\ fst (scan_all_symbols Sample.env Sample.no_symbols Sample.clock_open initial_state)
     = Ok []
  /\ ~ (exists window_valid_at_start : Py (dict ScanResult) -> bool,
          forall clock,
            window_valid_at_start
              (fst (scan_all_symbols Sample.env Sample.config clock initial_state))
            = in_premarket Sample.env Sample.config (t_precheck clock)).
Proof.
  assert (L : fst (scan_all_symbols Sample.env Sample.config Sample.clock_late
                     initial_state) = Ok []) by (vm_compute; reflexivity).
  assert (E : fst (scan_all_symbols Sample.env Sample.config Sample2.clock_expiring
                     initial_state) = Ok []) by (vm_compute; reflexivity).
  split; [reflexivity|]. split; [reflexivity|]. split; [exact L|]. split; [exact E|].
  split; [vm_compute; reflexivity|].
  intros [flag H].
  pose proof (H Sample.clock_late) as Hl. pose proof (H Sample2.clock_expiring) as He.
  rewrite L in Hl. rewrite E in He. rewrite Hl in He. discriminate He.
Qed.

(** C5, as amended.  When the window is open at the checks before the scan
    and closed at the check after it, the scan still returns the mapping of
    every collected outcome, the very mapping it returns when the window is
    still open, and logs a warning that the premarket hours expired during
    the scan; the returned mapping holds no validity flag. *)
Theorem window_crossed_keeps_results env config clock st :
  in_premarket env config (t_precheck clock) = true ->
  in_premarket env config (t_recheck clock) = true ->
  dict_keys (symbols config) <> [] ->
  in_premarket env config (t_postcheck clock) = false ->
  exists d st',
    scan_all_symbols env config clock st = (Ok d, st')
    /\ (forall s, In s (dict_keys (symbols config)) ->
        dict_get d s = outcome_of env config clock s)
    /\ (forall t, fst (scan_all_symbols env config (with_postcheck clock t) st) = Ok d)
    /\ In (Logged (ExpiredDuringScan (t_end clock - t_start clock))) (trace st').
Proof.
  intros P R N X.
  pose proof (scan_runs_open env config clock P R N) as S.
  destruct (scan_all_symbols_busy env config clock st S) as (tr & E & _ & _ & W).
  eexists _, _. split; [exact E|]. split; [|split].
  - intros s I. rewrite collected_get by exact I.
    now destruct (outcome_of env config clock s).
  - intros t.
    assert (S' : scan_runs env config (with_postcheck clock t) = true) by exact S.
    destruct (scan_all_symbols_busy env config (with_postcheck clock t) st S')
      as (tr' & -> & _).
    simpl. now rewrite collected_with_postcheck.
  - simpl. rewrite in_app_iff. right. exact (W X).
Qed.

Lemma window_crossed_keeps_results_witness :
  exists d st',
    scan_all_symbols Sample.env Sample.config Sample.clock_crossing initial_state
      = (Ok d, st')
    /\ fst (scan_all_symbols Sample.env Sample.config Sample.clock_open initial_state)
       = Ok d
    /\ In (Logged (ExpiredDuringScan 5)) (trace st').
Proof.
  destruct (window_crossed_keeps_results Sample.env Sample.config Sample.clock_crossing
              initial_state eq_refl eq_refl) as (d & st' & E & _ & F & W).
  - discriminate.
  - reflexivity.
  - exists d, st'. split; [exact E|]. split; [|exact W].
    exact (F (t_postcheck Sample.clock_open)).
Defined.

(** C5, as stated, fails: the scan that crosses the open returns exactly the
    report of the scan that ends inside the window, so no flag read from the
    report tells the two apart. *)
Lemma report_carries_no_window_flag :
  in_premarket Sample.env Sample.config (t_postcheck Sample.clock_open) = true
  /\ in_premarket Sample.env Sample.config (t_postcheck Sample.clock_crossing) = false
  /\ fst (scan_all_symbols Sample.env Sample.config Sample.clock_crossing initial_state)
     = fst (scan_all_symbols Sample.env Sample.config Sample.clock_open initial_state)
  /\ ~ (exists window_valid_at_end : Py (dict ScanResult) -> bool,
          forall clock,
            window_valid_at_end
              (fst (scan_all_symbols Sample.env Sample.config clock initial_state))
            = in_premarket Sample.env Sample.config (t_postcheck clock)).
Proof.
  assert (E : fst (scan_all_symbols Sample.env Sample.config Sample.clock_crossing
                     initial_state)
              = fst (scan_all_symbols Sample.env Sample.config Sample.clock_open
                       initial_state)) by (vm_compute; reflexivity).
  split; [reflexivity|]. split; [reflexivity|]. split; [exact E|].
  intros [flag H].
  pose proof (H Sample.clock_open) as Ho. pose proof (H Sample.clock_crossing) as Hc.
  rewrite E in Hc. rewrite Ho in Hc. discriminate Hc.
Qed.

(** C9, as amended.  A scan that runs its tasks (window open at both checks
    before the scan, at least one symbol) assigns the mapping it returns to
    [self.scan_results], in place of what was stored; a scan that does not
    run returns the empty mapping and leaves [self.scan_results] as it was.
    The stored mapping is what the ranking reads afterwards. *)
Theorem scan_stores_results env config clock st :
  exists d st',
    scan_all_symbols env config clock st = (Ok d, st')
    /\ scan_results st' = (if scan_runs env config clock then d else scan_results st)
    /\ (scan_runs env config clock = false -> d = [])
    /\ opportunities st' =
         filter has_opportunity
           (dict_values (if scan_runs env config clock then d else scan_results st)).
Proof.
  destruct (scan_runs env config clock) eqn:S.
  - destruct (scan_all_symbols_busy env config clock st S) as (tr & E & _).
    eexists _, _. split; [exact E|]. simpl. repeat split. discriminate.
  - destruct (scan_all_symbols_idle env config clock st S) as (tr & E & _).
    eexists _, _. split; [exact E|]. simpl. repeat split.
Qed.

(** C9, as stated, fails: a scan leaves its results in [self.scan_results],
    and a later call made when the window is closed still finds them there. *)
Lemma scan_leaves_results_behind :
  scan_results initial_state = []
  /\ List.length (scan_results Sample.scanned) = 3%nat
  /\ scan_results
       (snd (scan_all_symbols Sample.env Sample.config Sample.clock_late Sample.scanned))
     = scan_results Sample.scanned
  /\ List.length
       (get_top_opportunities
          (snd (scan_all_symbols Sample.env Sample.config Sample.clock_late Sample.scanned))
          10) = 2%nat.
Proof.
  split; [reflexivity|]. split; [vm_compute; reflexivity|].
  split; vm_compute; reflexivity.
Qed.

(** ** Sorting *)

Section SortReverse.
Context {A : Type} (key : A -> float).

Let no_larger (a b : A) : Prop := PyFloat.lt (key a) (key b) = false.
Let comparable (a : A) : Prop := PrimFloat.is_nan (key a) = false.

Lemma insert_desc_perm x l : Permutation (insert_desc key x l) (x :: l).
Proof.
  induction l as [|y l IH]; simpl; [reflexivity|].
  destruct (PyFloat.lt (key x) (key y)); [|reflexivity].
  rewrite IH. apply perm_swap.
Qed.

Lemma sort_reverse_perm l : Permutation (sort_reverse key l) l.
Proof.
  induction l as [|x l IH]; simpl; [reflexivity|].
  unfold sort_reverse in *. simpl. rewrite insert_desc_perm. now constructor.
Qed.

Lemma insert_desc_sorted x l :
  Forall comparable l ->
  StronglySorted no_larger l -> StronglySorted no_larger (insert_desc key x l).
Proof.
  induction l as [|y l IH]; intros C S; simpl.
  - repeat constructor.
  - inversion S as [|? ? Sl Fy]; subst. inversion C as [|? ? Cy Cl]; subst.
    destruct (PyFloat.lt (key x) (key y)) eqn:E.
    + constructor; [now apply IH|].
      eapply Permutation_Forall; [symmetry; apply insert_desc_perm|].
      constructor; [|exact Fy]. now apply PyFloatFacts.lt_asym.
    + constructor; [exact S|]. constructor; [exact E|].
      apply Forall_forall. intros z I. rewrite Forall_forall in Fy.
      exact (PyFloatFacts.not_lt_trans _ _ _ Cy E (Fy z I)).
Qed.

Lemma sort_reverse_sorted l :
  Forall comparable l -> StronglySorted no_larger (sort_reverse key l).
Proof.
  induction l as [|x l IH]; intros C; unfold sort_reverse; simpl; [constructor|].
  inversion C; subst. apply insert_desc_sorted.
  - eapply Permutation_Forall; [symmetry; apply sort_reverse_perm|assumption].
  - now apply IH.
Qed.

(** The elements whose key compares neither way with [k]. *)
Let level (k : float) (b : A) : bool :=
  negb (PyFloat.lt k (key b)) && negb (PyFloat.lt (key b) k).

Lemma insert_desc_level k x l :
  PrimFloat.is_nan k = false ->
  filter (level k) (insert_desc key x l) = filter (level k) (x :: l).
Proof.
  intros N. induction l as [|y l IH]; simpl; [reflexivity|].
  destruct (PyFloat.lt (key x) (key y)) eqn:E; [|reflexivity].
  simpl. rewrite IH. simpl.
  destruct (level k x) eqn:Lx; [|reflexivity].
  destruct (level k y) eqn:Ly; [|reflexivity].
  exfalso. unfold level in Lx, Ly.
  apply andb_prop in Lx. destruct Lx as [_ Lx]. apply negb_true_iff in Lx.
  apply andb_prop in Ly. destruct Ly as [Ly _]. apply negb_true_iff in Ly.
  rewrite (PyFloatFacts.not_lt_trans _ _ _ N Lx Ly) in E. discriminate.
Qed.

Lemma sort_reverse_level k l :
  PrimFloat.is_nan k = false ->
  filter (level k) (sort_reverse key l) = filter (level k) l.
Proof.
  intros N. induction l as [|x l IH]; [reflexivity|].
  unfold sort_reverse in *. simpl fold_right. rewrite insert_desc_level by exact N.
  simpl. now rewrite IH.
Qed.
End SortReverse.

Lemma slice_to_nonneg {A} (l : list A) limit :
  0 <= limit -> slice_to l limit = firstn (Z.to_nat limit) l.
Proof. unfold slice_to. intros L. destruct (Z.ltb_spec limit 0); [lia|reflexivity]. Qed.

Lemma slice_to_length {A} (l : list A) limit :
  List.length (slice_to l limit) =
    if limit <? 0 then Z.to_nat (Z.max 0 (Z.of_nat (List.length l) + limit))
    else Nat.min (Z.to_nat limit) (List.length l).
Proof.
  unfold slice_to. destruct (Z.ltb_spec limit 0); rewrite length_firstn; [lia|reflexivity].
Qed.

(** ** The stored results are classified *)

Lemma outcome_classified env config clock s r :
  outcome_of env config clock s = Some r -> classified r.
Proof.
  unfold outcome_of. intros O.
  destruct (scan_symbol_run env config s (configured_exchange config s) (t_scan clock s)
              initial_state) as (tr & E & _).
  rewrite O in E.
  destruct (scan_symbol_some _ _ _ _ _ _ _ _ E)
    as (c & cs & tk & _ & _ & _ & _ & _ & _ & _ & C & _).
  intros H. symmetry in C. exact (classify_classified _ _ _ _ C H).
Qed.

Lemma scan_all_symbols_scanned_state env config clock st :
  scanned_state st ->
  scanned_state (snd (scan_all_symbols env config clock st)).
Proof.
  unfold scanned_state. intros S.
  destruct (scan_runs env config clock) eqn:R.
  - destruct (scan_all_symbols_busy env config clock st R) as (tr & -> & _). simpl.
    apply Forall_forall. intros r I.
    destruct (collected_values _ _ _ _ _ _ I) as [[]|(s & O)].
    exact (outcome_classified _ _ _ _ _ O).
  - now destruct (scan_all_symbols_idle env config clock st R) as (tr & -> & _).
Qed.

Lemma scan_symbol_scanned_state env config s pe now st :
  scanned_state st ->
  scanned_state (snd (scan_symbol env config s pe now st)).
Proof.
  unfold scanned_state. intros S.
  destruct (scan_symbol env config s pe now st) as [[[r|]|e] st'] eqn:E; simpl.
  - destruct (scan_symbol_some _ _ _ _ _ _ _ _ E)
      as (c & cs & tk & _ & _ & _ & _ & _ & _ & _ & C & _ & ->).
    apply Forall_forall. intros x I. apply dict_values_set_in in I.
    destruct I as [->|I]; [|rewrite Forall_forall in S; auto].
    intros H. symmetry in C. exact (classify_classified _ _ _ _ C H).
  - destruct (scan_symbol_run env config s pe now st) as (tr & R & _).
    rewrite E in R. injection R as R1 ->. rewrite <- R1. exact S.
  - destruct (scan_symbol_run env config s pe now st) as (tr & R & _).
    rewrite E in R. discriminate.
Qed.

Lemma initial_state_scanned : scanned_state initial_state.
Proof. constructor. Qed.

Lemma classified_comparable r :
  classified r -> has_opportunity r = true ->
  PrimFloat.is_nan (change_magnitude r) = false.
Proof.
  intros C H. unfold change_magnitude. rewrite PyFloatFacts.abs_is_nan.
  apply C in H. apply orb_prop in H.
  destruct H as [H|H]; apply PyFloatFacts.lt_not_nan in H; tauto.
Qed.

Lemma opportunities_comparable st :
  scanned_state st ->
  Forall (fun r => PrimFloat.is_nan (change_magnitude r) = false) (opportunities st).
Proof.
  unfold scanned_state, opportunities. intros S. apply Forall_forall. intros r I.
  apply filter_In in I. destruct I as [I H]. rewrite Forall_forall in S.
  exact (classified_comparable r (S r I) H).
Qed.

(** ** The claims on the ranking *)

(** C7, as amended.  The ranking holds exactly the stored results marked as
    opportunities, sorted by [abs(price_change_pct)], larger first; results
    whose magnitudes are equal keep the order they have in
    [self.scan_results] (the order of insertion, not the lexical order of the
    symbols). *)
Theorem ranking_is_stable_sort st :
  scanned_state st ->
  Permutation (ranked_opportunities st) (opportunities st)
  /\ (forall r, In r (ranked_opportunities st) <->
                In r (dict_values (scan_results st)) /\ has_opportunity r = true)
  /\ StronglySorted not_below (ranked_opportunities st)
  /\ (forall a, In a (opportunities st) ->
      filter (tie a) (ranked_opportunities st) = filter (tie a) (opportunities st)).
Proof.
  intros S. pose proof (opportunities_comparable st S) as C.
  unfold ranked_opportunities. split; [apply sort_reverse_perm|]. split; [|split].
  - intros r. rewrite <- (filter_In has_opportunity). fold (opportunities st). split.
    + apply Permutation_in, sort_reverse_perm.
    + apply Permutation_in. symmetry. apply sort_reverse_perm.
  - apply sort_reverse_sorted. exact C.
  - intros a I. rewrite Forall_forall in C.
    exact (sort_reverse_level change_magnitude (change_magnitude a) (opportunities st) (C a I)).
Qed.

Lemma scanned_sample : scanned_state Sample.scanned.
Proof. apply scan_all_symbols_scanned_state, initial_state_scanned. Defined.

Lemma ranking_is_stable_sort_witness :
  Permutation (ranked_opportunities Sample.scanned) (opportunities Sample.scanned)
  /\ StronglySorted not_below (ranked_opportunities Sample.scanned).
Proof.
  destruct (ranking_is_stable_sort Sample.scanned scanned_sample) as (P & _ & S & _).
  split; [exact P | exact S].
Defined.

(** C7, as stated, fails: BBB and AAA both fall by two percent, BBB was
    scanned first and is ranked first, before AAA. *)
Lemma ranking_ties_follow_scan_order :
  map symbol (ranked_opportunities Sample.scanned) = ["BBB"; "AAA"]%string
  /\ map change_magnitude (ranked_opportunities Sample.scanned) = [2%float; 2%float]
  /\ String.leb "BBB" "AAA" = false
  /\ ~ Sorted (fun a b => spec_before a b = true) (ranked_opportunities Sample.scanned).
Proof.
  split; [vm_compute; reflexivity|]. split; [vm_compute; reflexivity|].
  split; [vm_compute; reflexivity|].
  intros H.
  destruct (ranked_opportunities Sample.scanned) as [|a [|b l]] eqn:E;
    try (vm_compute in E; discriminate).
  inversion H as [|? ? _ R]; subst. inversion R as [|? ? B]; subst.
  vm_compute in E. injection E as <- <- _. vm_compute in B. discriminate.
Qed.

(** C8.  For a limit [k >= 0] the top opportunities are the first
    [min(k, number of opportunities)] elements of the ranking; the function
    is total, a limit larger than the number of opportunities returns them
    all. *)
Theorem top_opportunities_limit st limit :
  0 <= limit ->
  get_top_opportunities st limit = firstn (Z.to_nat limit) (ranked_opportunities st)
  /\ List.length (get_top_opportunities st limit)
     = Nat.min (Z.to_nat limit) (List.length (opportunities st))
  /\ (Z.of_nat (List.length (opportunities st)) <= limit ->
      get_top_opportunities st limit = ranked_opportunities st).
Proof.
  intros L. unfold get_top_opportunities. rewrite slice_to_nonneg by exact L.
  assert (E : List.length (ranked_opportunities st) = List.length (opportunities st))
    by (apply Permutation_length, sort_reverse_perm).
  split; [reflexivity|]. split.
  - now rewrite length_firstn, E.
  - intros G. apply firstn_all2. lia.
Qed.

Lemma top_opportunities_limit_witness :
  List.length (get_top_opportunities Sample.scanned 10)
  = Nat.min 10 (List.length (opportunities Sample.scanned))
  /\ List.length (get_top_opportunities Sample.scanned 1) = 1%nat.
Proof.
  split.
  - apply (top_opportunities_limit Sample.scanned 10). lia.
  - destruct (top_opportunities_limit Sample.scanned 1) as (_ & -> & _); [lia|].
    vm_compute. reflexivity.
Defined.

(** A negative limit is a Python slice counted from the end: it drops the
    last [-limit] elements of the ranking and does not raise either. *)
Lemma top_opportunities_negative_limit st limit :
  limit < 0 ->
  List.length (get_top_opportunities st limit)
  = Z.to_nat (Z.max 0 (Z.of_nat (List.length (opportunities st)) + limit)).
Proof.
  intros L. unfold get_top_opportunities, ranked_opportunities. rewrite slice_to_length.
  destruct (Z.ltb_spec limit 0); [|lia].
  now rewrite (Permutation_length (sort_reverse_perm change_magnitude (opportunities st))).
Qed.

(** * More facts *)

(** ** More on Python floats *)

Module PyFloatMore.
Import PyFloat.

Lemma lt_nan_l (x y : float) : PrimFloat.is_nan x = true -> lt x y = false.
Proof.
  intros N. destruct (lt x y) eqn:E; [|reflexivity].
  apply PyFloatFacts.lt_not_nan in E. destruct E. congruence.
Qed.

Lemma lt_nan_r (x y : float) : PrimFloat.is_nan y = true -> lt x y = false.
Proof.
  intros N. destruct (lt x y) eqn:E; [|reflexivity].
  apply PyFloatFacts.lt_not_nan in E. destruct E. congruence.
Qed.

Lemma sub_nan_l (x y : float) :
  PrimFloat.is_nan x = true -> PrimFloat.is_nan (x - y)%float = true.
Proof.
  rewrite !PyFloatFacts.is_nan_spec, sub_spec. unfold SF64sub, SFsub.
  destruct (Prim2SF x); try discriminate. reflexivity.
Qed.

Lemma div_nan_l (x y : float) :
  PrimFloat.is_nan x = true -> PrimFloat.is_nan (x / y)%float = true.
Proof.
  rewrite !PyFloatFacts.is_nan_spec, div_spec. unfold SF64div, SFdiv.
  destruct (Prim2SF x); try discriminate. reflexivity.
Qed.

Lemma mul_nan_l (x y : float) :
  PrimFloat.is_nan x = true -> PrimFloat.is_nan (x * y)%float = true.
Proof.
  rewrite !PyFloatFacts.is_nan_spec, mul_spec. unfold SF64mul, SFmul.
  destruct (Prim2SF x); try discriminate. reflexivity.
Qed.

End PyFloatMore.

(** * More of the scanner *)

(** ** The window gate *)

(** X1.  The gate never raises and answers the same in every state of the
    scanner; it calls no broker and leaves [self.scan_results] alone. *)
Theorem gate_is_pure env config t st :
  exists tr,
    is_premarket_hours env config t st =
      (Ok (in_premarket env config t),
       {| scan_results := scan_results st; trace := trace st ++ tr |})
    /\ broker_calls tr = []
    /\ Forall (fun e => e = Logged FailedConvertET \/ e = Logged FailedConvertOpen
                        \/ e = Logged ErrorCheckingPremarket) tr.
Proof.
  unfold in_premarket, is_premarket_hours. unfold_monad. destruct st as [d tr0]. simpl.
  destruct (get_calendar env (exchange config)) as [cal|e]; simpl;
    [|eexists; repeat split; repeat constructor; tauto].
  destruct (tz_convert env t) as [now_et|]; simpl;
    [|eexists; repeat split; repeat constructor; tauto].
  destruct (is_session cal (now_et / 86400)) as [[|]|e]; simpl;
    [ | exists []; rewrite app_nil_r; repeat split; constructor
      | eexists; repeat split; repeat constructor; tauto].
  destruct (session_open cal (now_et / 86400)) as [op|e]; simpl;
    [|eexists; repeat split; repeat constructor; tauto].
  destruct (tz_convert env op) as [op_et|]; simpl;
    [|eexists; repeat split; repeat constructor; tauto].
  destruct (_ && _); simpl; exists []; rewrite app_nil_r; repeat split; constructor.
Qed.

(** X2.  The gate is open exactly when the calendar is available, the day
    (in New York) is a session, and the New York time is at or after 04:00 of
    that day and strictly before the session's open. *)
Theorem gate_open_iff env config t :
  in_premarket env config t = true <->
  exists calendar now_et regular_open regular_open_et,
    get_calendar env (exchange config) = Ok calendar
    /\ tz_convert env t = Some now_et
    /\ is_session calendar (now_et / 86400) = Ok true
    /\ session_open calendar (now_et / 86400) = Ok regular_open
    /\ tz_convert env regular_open = Some regular_open_et
    /\ (now_et / 86400) * 86400 + 4 * 3600 <= now_et < regular_open_et.
Proof.
  unfold in_premarket, is_premarket_hours, PREMARKET_START_HOUR, PREMARKET_START_MINUTE.
  unfold_monad. simpl. split.
  - destruct (get_calendar env (exchange config)) as [cal|e]; simpl; [|discriminate].
    destruct (tz_convert env t) as [now_et|]; simpl; [|discriminate].
    destruct (is_session cal (now_et / 86400)) as [[|]|e] eqn:S; simpl; try discriminate.
    destruct (session_open cal (now_et / 86400)) as [op|e] eqn:O; simpl; [|discriminate].
    destruct (tz_convert env op) as [op_et|] eqn:T; simpl; [|discriminate].
    destruct (_ && _) eqn:W; simpl; [|discriminate]. intros _.
    apply andb_prop in W. destruct W as [W1 W2].
    exists cal, now_et, op, op_et. repeat split; auto; lia.
  - intros (cal & now_et & op & op_et & -> & -> & S & O & T & W1 & W2). simpl.
    rewrite S. simpl. rewrite O. simpl. rewrite T. simpl.
    destruct (_ && _) eqn:W; [reflexivity|].
    apply andb_false_iff in W. destruct W as [W|W]; lia.
Qed.

(** X3.  A symbol whose contract does not qualify (the call raises, or
    returns no contract) is not fetched: the scan returns no result, makes
    the one qualification call and no ticker call, and stores nothing. *)
Theorem unqualified_symbol_is_not_fetched env config s pe now st :
  qualify_contracts env (stock_contract s pe) = Ok []
  \/ (exists e, qualify_contracts env (stock_contract s pe) = Raise e) ->
  exists tr,
    scan_symbol env config s pe now st =
      (Ok None, {| scan_results := scan_results st; trace := trace st ++ tr |})
    /\ qualify_calls tr = [stock_contract s pe]
    /\ ticker_calls tr = [].
Proof.
  unfold scan_symbol. unfold_monad. simpl.
  intros [->|(e & ->)]; simpl; eexists;
    (split; [rewrite <- !app_assoc; reflexivity|split; reflexivity]).
Qed.

Lemma unqualified_symbol_is_not_fetched_witness :
  exists tr,
    scan_symbol Sample.env Sample.config "ZZZ" "" 0 initial_state =
      (Ok None, {| scan_results := []; trace := [] ++ tr |})
    /\ ticker_calls tr = [].
Proof.
  destruct (unqualified_symbol_is_not_fetched Sample.env Sample.config "ZZZ" "" 0
              initial_state) as (tr & E & _ & T).
  - left. reflexivity.
  - exists tr. split; [exact E | exact T].
Defined.

(** X4.  A scan of a symbol never raises and writes at most the entry of
    its own symbol: every other entry of [self.scan_results] is as before;
    a returned result is stored under the symbol, carries it, and can be
    looked up; without a result nothing is stored. *)
Theorem scan_symbol_writes_own_key env config s pe now st :
  exists o st',
    scan_symbol env config s pe now st = (Ok o, st')
    /\ (forall k, k <> s -> dict_get (scan_results st') k = dict_get (scan_results st) k)
    /\ match o with
       | Some r => dict_get (scan_results st') s = Some r /\ symbol r = s
       | None => scan_results st' = scan_results st
       end.
Proof.
  destruct (scan_symbol_run env config s pe now st) as (tr & E & _).
  eexists _, _. split; [exact E|]. simpl.
  destruct (task_result env config s pe now) as [r|] eqn:O.
  - split; [intros k D; apply dict_get_set_other; congruence|].
    split; [apply dict_get_set_same|].
    destruct (scan_symbol_some _ _ _ _ _ _ _ _ E) as (_ & _ & _ & _ & _ & S & _).
    exact S.
  - split; [reflexivity|reflexivity].
Qed.

Lemma classify_coherent symbol_config pct h a :
  classify symbol_config pct = (h, a) ->
  match a with
  | Some PUT => h = true /\ PyFloat.lt pct (-1)%float = true
  | Some CALL => h = true /\ PyFloat.lt 1%float pct = true
  | None => h = false
  end.
Proof.
  unfold classify. destruct symbol_config as [sc|]; [|intros [= <- <-]; reflexivity].
  destruct (PyFloat.lt pct (-1)%float) eqn:D.
  - destruct (allow_red sc); intros [= <- <-]; auto.
  - destruct (PyFloat.lt 1%float pct) eqn:U; [|intros [= <- <-]; reflexivity].
    destruct (allow_green sc); intros [= <- <-]; auto.
Qed.

Lemma scan_symbol_coherent env config s pe now st r st' :
  scan_symbol env config s pe now st = (Ok (Some r), st') -> coherent r.
Proof.
  intros H.
  destruct (scan_symbol_some _ _ _ _ _ _ _ _ H)
    as (c & cs & tk & _ & _ & _ & _ & _ & _ & _ & C & _).
  symmetry in C. exact (classify_coherent _ _ _ _ C).
Qed.

(** X5.  In every result of a scan the flag and the action go together:
    there is an action exactly when [has_opportunity] is set, PUT only for a
    change below -1.0 and CALL only for a change above 1.0. *)
Theorem action_matches_opportunity env config s pe now st r st' :
  scan_symbol env config s pe now st = (Ok (Some r), st') ->
  (has_opportunity r = true <-> recommended_action r <> None)
  /\ (recommended_action r = Some PUT ->
      PyFloat.lt (price_change_pct r) (-1)%float = true)
  /\ (recommended_action r = Some CALL ->
      PyFloat.lt 1%float (price_change_pct r) = true).
Proof.
  intros H. pose proof (scan_symbol_coherent _ _ _ _ _ _ _ _ H) as C.
  unfold coherent in C.
  destruct (recommended_action r) as [[|]|]; repeat split;
    try tauto; try congruence; try discriminate;
    try (intros _; tauto); try (rewrite C; discriminate).
Qed.

Lemma action_matches_opportunity_witness :
  exists r st',
    scan_symbol Sample.env Sample.config "CCC" "" 0 initial_state = (Ok (Some r), st')
    /\ (has_opportunity r = true <-> recommended_action r <> None).
Proof.
  destruct (scan_symbol Sample.env Sample.config "CCC" "" 0 initial_state)
    as [[[r|]|e] st'] eqn:E; try (vm_compute in E; discriminate).
  exists r, st'. split; [reflexivity|].
  exact (proj1 (action_matches_opportunity Sample.env Sample.config "CCC" "" 0
                  initial_state r st' E)).
Defined.

(** X6.  A ticker whose market price is NaN still gives a result, and the
    result is never an opportunity. *)
Theorem nan_price_no_opportunity env config s pe now st c cs tk p :
  qualify_contracts env (stock_contract s pe) = Ok (c :: cs) ->
  get_ticker_for_contract env c = Ok (Some tk) ->
  marketPrice tk = Some p ->
  PrimFloat.is_nan p = true ->
  exists r st',
    scan_symbol env config s pe now st = (Ok (Some r), st')
    /\ PrimFloat.is_nan (current_price r) = true
    /\ has_opportunity r = false /\ recommended_action r = None
    /\ dict_get (scan_results st') s = Some r.
Proof.
  intros Q T M N.
  destruct (scan_symbol_quote env config s pe now st c cs tk Q T)
    as (r & st' & H & Hc & _ & P).
  assert (Nc : PrimFloat.is_nan (current_price r) = true)
    by (rewrite Hc; unfold read_current_price; now rewrite M).
  exists r, st'. split; [exact H|]. split; [exact Nc|].
  assert (L1 : PyFloat.lt (price_change_pct r) (-1)%float = false).
  { rewrite P. destruct (PyFloat.lt 0%float (close_price r)); [|reflexivity].
    apply PyFloatMore.lt_nan_l, PyFloatMore.mul_nan_l, PyFloatMore.div_nan_l,
      PyFloatMore.sub_nan_l, Nc. }
  assert (L2 : PyFloat.lt 1%float (price_change_pct r) = false).
  { rewrite P. destruct (PyFloat.lt 0%float (close_price r)); [|reflexivity].
    apply PyFloatMore.lt_nan_r, PyFloatMore.mul_nan_l, PyFloatMore.div_nan_l,
      PyFloatMore.sub_nan_l, Nc. }
  pose proof (scan_symbol_coherent _ _ _ _ _ _ _ _ H) as C. unfold coherent in C.
  destruct (scan_symbol_some _ _ _ _ _ _ _ _ H) as (_ & _ & _ & _ & _ & _ & _ & _ & _ & _ & _ & _ & S).
  rewrite S, dict_get_set_same.
  destruct (recommended_action r) as [[|]|]; [| |auto]; destruct C; congruence.
Qed.

Lemma nan_price_no_opportunity_witness :
  exists r st',
    scan_symbol Sample2.nan_quotes Sample.config "AAA" "" 0 initial_state
      = (Ok (Some r), st')
    /\ has_opportunity r = false.
Proof.
  destruct (nan_price_no_opportunity Sample2.nan_quotes Sample.config "AAA" "" 0
              initial_state (stock_contract "AAA" "") []
              {| marketPrice := Some PrimFloat.nan; close := Some 100%float;
                 volume := None |} PrimFloat.nan eq_refl eq_refl eq_refl eq_refl)
    as (r & st' & E & _ & H & _).
  exists r, st'. split; [exact E | exact H].
Defined.

(** X7.  Without a positive previous close (missing, NaN, zero or
    negative) the change is [0.0] and the result is never an opportunity,
    whatever the current price. *)
Theorem no_positive_close_no_opportunity env config s pe now st c cs tk :
  qualify_contracts env (stock_contract s pe) = Ok (c :: cs) ->
  get_ticker_for_contract env c = Ok (Some tk) ->
  PyFloat.lt 0%float (read_close_price tk) = false ->
  exists r st',
    scan_symbol env config s pe now st = (Ok (Some r), st')
    /\ price_change_pct r = 0%float
    /\ has_opportunity r = false /\ recommended_action r = None.
Proof.
  intros Q T L.
  destruct (scan_symbol_quote env config s pe now st c cs tk Q T)
    as (r & st' & H & _ & Hp & P).
  rewrite Hp, L in P.
  exists r, st'. split; [exact H|]. split; [exact P|].
  pose proof (scan_symbol_coherent _ _ _ _ _ _ _ _ H) as C. unfold coherent in C.
  rewrite P in C.
  destruct (recommended_action r) as [[|]|]; [| |auto]; destruct C as [_ C];
    vm_compute in C; discriminate.
Qed.

Lemma no_positive_close_no_opportunity_witness :
  exists r st',
    scan_symbol Sample.env Sample.config "DDD" "" 0 initial_state = (Ok (Some r), st')
    /\ price_change_pct r = 0%float /\ has_opportunity r = false.
Proof.
  destruct (no_positive_close_no_opportunity Sample.env Sample.config "DDD" "" 0
              initial_state (stock_contract "DDD" "") [] Sample.bare_ticker
              eq_refl eq_refl eq_refl) as (r & st' & E & P & H & _).
  exists r, st'. split; [exact E|]. split; [exact P | exact H].
Defined.

(** ** More on a whole scan *)

Lemma qualify_calls_app tr1 tr2 :
  qualify_calls (tr1 ++ tr2) = qualify_calls tr1 ++ qualify_calls tr2.
Proof. apply flat_map_app. Qed.

Lemma ticker_calls_app tr1 tr2 :
  ticker_calls (tr1 ++ tr2) = ticker_calls tr1 ++ ticker_calls tr2.
Proof. apply flat_map_app. Qed.

Lemma no_broker_calls tr :
  broker_calls tr = [] -> qualify_calls tr = [] /\ ticker_calls tr = [].
Proof.
  induction tr as [|e tr IH]; simpl; [auto|].
  destruct e; simpl; try discriminate. exact IH.
Qed.

(** X8.  When the window closes between the check on entry and the check
    before the scan, the tasks that were created are never run: the scan
    returns the empty mapping, calls no broker, warns that the premarket
    hours expired before the scan started and leaves [self.scan_results] as
    it was. *)
Theorem window_expired_before_start env config clock st :
  in_premarket env config (t_precheck clock) = true ->
  dict_keys (symbols config) <> [] ->
  in_premarket env config (t_recheck clock) = false ->
  exists tr,
    scan_all_symbols env config clock st =
      (Ok [], {| scan_results := scan_results st; trace := trace st ++ tr |})
    /\ broker_calls tr = []
    /\ count_logs tr = []
    /\ In (Logged ExpiredBeforeStart) tr.
Proof.
  intros P N R. unfold scan_all_symbols, bind.
  destruct (is_premarket_hours_run env config (t_precheck clock) st) as (tr1 & -> & B1 & C1).
  rewrite P. simpl.
  remember (dict_keys (symbols config)) as keys eqn:K.
  destruct (Nat.eqb (List.length keys) 0) eqn:Z.
  { destruct keys; [congruence|discriminate]. }
  simpl. rewrite make_tasks_run by (rewrite K; auto).
  match goal with |- context [is_premarket_hours _ _ _ ?st1] =>
    destruct (is_premarket_hours_run env config (t_recheck clock) st1) as (tr2 & -> & B2 & C2)
  end.
  rewrite R. simpl.
  exists (tr1 ++ [Logged StartingScan; Logged (ScanningInParallel (List.length keys))]
          ++ tr2 ++ [Logged ExpiredBeforeStart]).
  rewrite !broker_calls_app, !count_logs_app, B1, C1, B2, C2, <- !app_assoc.
  repeat split. rewrite !in_app_iff. simpl. tauto.
Qed.

Lemma window_expired_before_start_witness :
  exists tr,
    scan_all_symbols Sample.env Sample.config Sample2.clock_expiring Sample.scanned =
      (Ok [], {| scan_results := scan_results Sample.scanned;
                 trace := trace Sample.scanned ++ tr |})
    /\ broker_calls tr = [].
Proof.
  destruct (window_expired_before_start Sample.env Sample.config Sample2.clock_expiring
              Sample.scanned eq_refl) as (tr & E & B & _).
  - discriminate.
  - reflexivity.
  - exists tr. split; [exact E | exact B].
Defined.

Lemma is_premarket_hours_open env config t st :
  in_premarket env config t = true ->
  is_premarket_hours env config t st = (Ok true, st).
Proof.
  unfold in_premarket, is_premarket_hours. unfold_monad. destruct st as [d tr0]. simpl.
  destruct (get_calendar env (exchange config)) as [cal|e]; simpl; [|discriminate].
  destruct (tz_convert env t) as [now_et|]; simpl; [|discriminate].
  destruct (is_session cal (now_et / 86400)) as [[|]|e]; simpl; try discriminate.
  destruct (session_open cal (now_et / 86400)) as [op|e]; simpl; [|discriminate].
  destruct (tz_convert env op) as [op_et|]; simpl; [|discriminate].
  destruct (_ && _); simpl; [reflexivity|discriminate].
Qed.

(** X9.  With no symbol configured and the window open, the scan checks the
    gate once, logs that it starts and warns that no symbols are configured,
    then returns the empty mapping: nothing else is logged, no broker is
    called and [self.scan_results] stays as it was. *)
Theorem no_symbols_no_scan env config clock st :
  in_premarket env config (t_precheck clock) = true ->
  symbols config = [] ->
  scan_all_symbols env config clock st =
    (Ok [], {| scan_results := scan_results st;
               trace := trace st ++ [Logged StartingScan; Logged NoSymbolsConfigured] |}).
Proof.
  intros P K. unfold scan_all_symbols, bind.
  rewrite (is_premarket_hours_open _ _ _ _ P), K. simpl.
  rewrite <- !app_assoc. reflexivity.
Qed.

Lemma no_symbols_no_scan_witness :
  scan_all_symbols Sample.env Sample.no_symbols Sample.clock_open initial_state =
    (Ok [], {| scan_results := [];
               trace := [Logged StartingScan; Logged NoSymbolsConfigured] |}).
Proof.
  exact (no_symbols_no_scan Sample.env Sample.no_symbols Sample.clock_open
           initial_state eq_refl eq_refl).
Defined.

Lemma outcome_symbol env config clock s r :
  outcome_of env config clock s = Some r -> symbol r = s.
Proof.
  unfold outcome_of. intros O.
  destruct (scan_symbol_run env config s (configured_exchange config s) (t_scan clock s)
              initial_state) as (tr & E & _).
  rewrite O in E.
  destruct (scan_symbol_some _ _ _ _ _ _ _ _ E) as (_ & _ & _ & _ & _ & S & _).
  exact S.
Qed.

(** X10.  The mapping that a scan returns lists the symbols whose task
    returned a result, in the order of the configuration, each with the
    result of its own task, which carries that symbol. *)
Theorem returned_mapping_in_config_order env config clock st :
  NoDup (dict_keys (symbols config)) ->
  scan_runs env config clock = true ->
  exists d st',
    scan_all_symbols env config clock st = (Ok d, st')
    /\ dict_keys d = filter (has_result env config clock) (dict_keys (symbols config))
    /\ Forall (fun kr => outcome_of env config clock (fst kr) = Some (snd kr)
                         /\ symbol (snd kr) = fst kr) d.
Proof.
  intros N R.
  destruct (scan_all_symbols_busy env config clock st R) as (tr & E & _).
  eexists _, _. split; [exact E|].
  rewrite collected_keys by auto. simpl. clear.
  induction (dict_keys (symbols config)) as [|s keys [IH1 IH2]]; simpl; [auto|].
  unfold has_result at 1.
  destruct (outcome_of env config clock s) as [r|] eqn:O; simpl.
  - split; [unfold dict_keys in *; simpl; now rewrite IH1|].
    constructor; [|exact IH2]. simpl. split; [exact O|].
    exact (outcome_symbol _ _ _ _ _ O).
  - auto.
Qed.

Lemma returned_mapping_in_config_order_witness :
  exists d st',
    scan_all_symbols Sample.env Sample.config Sample.clock_open initial_state = (Ok d, st')
    /\ dict_keys d = ["BBB"; "AAA"; "CCC"]%string.
Proof.
  assert (N : NoDup (dict_keys (symbols Sample.config))).
  { repeat constructor; simpl; intuition discriminate. }
  destruct (returned_mapping_in_config_order Sample.env Sample.config Sample.clock_open
              initial_state N eq_refl) as (d & st' & E & K & _).
  exists d, st'. split; [exact E|]. rewrite K. vm_compute. reflexivity.
Defined.

Lemma scan_symbol_calls env config s pe now st :
  exists tr,
    scan_symbol env config s pe now st =
      (Ok (task_result env config s pe now),
       {| scan_results := match task_result env config s pe now with
                          | Some r => dict_set (scan_results st) s r
                          | None => scan_results st
                          end;
          trace := trace st ++ tr |})
    /\ qualify_calls tr = [stock_contract s pe]
    /\ (List.length (ticker_calls tr) <= 1)%nat.
Proof.
  unfold task_result, scan_symbol. unfold_monad. simpl.
  destruct (qualify_contracts env (stock_contract s pe)) as [[|c cs]|e]; simpl;
    try (eexists; split; [rewrite <- ?app_assoc; reflexivity | split; simpl; auto]).
  destruct (get_ticker_for_contract env c) as [[tk|]|e]; simpl;
    try (eexists; split; [rewrite <- ?app_assoc; reflexivity | split; simpl; auto]).
  rewrite price_change_total; simpl.
  destruct (classify _ _) as [h a]; simpl.
  eexists; split; [rewrite <- ?app_assoc; reflexivity | split; simpl; auto].
Qed.

Lemma task_of_calls env config clock s st :
  exists tr,
    task_of env config clock s st =
      (Ok (outcome_of env config clock s),
       {| scan_results := match outcome_of env config clock s with
                          | Some r => dict_set (scan_results st) s r
                          | None => scan_results st
                          end;
          trace := trace st ++ tr |})
    /\ qualify_calls tr = [stock_contract s (configured_exchange config s)]
    /\ (List.length (ticker_calls tr) <= 1)%nat.
Proof. apply scan_symbol_calls. Qed.

Lemma gather_calls env config clock syms st :
  exists tr,
    gather (map (task_of env config clock) syms) st =
      (Ok (map (fun s => Ok (outcome_of env config clock s)) syms),
       {| scan_results := collected env config clock syms (scan_results st);
          trace := trace st ++ tr |})
    /\ qualify_calls tr =
         map (fun s => stock_contract s (configured_exchange config s)) syms
    /\ (List.length (ticker_calls tr) <= List.length syms)%nat.
Proof.
  revert st. induction syms as [|s rest IH]; intros st; simpl.
  - exists []. rewrite app_nil_r. destruct st; repeat split. auto.
  - unfold bind, attempt, ret.
    destruct (task_of_calls env config clock s st) as (tr1 & -> & Q1 & T1).
    match goal with |- context [gather _ ?st1] => destruct (IH st1) as (tr2 & -> & Q2 & T2) end.
    simpl. exists (tr1 ++ tr2). rewrite app_assoc. split; [|split].
    + destruct (outcome_of env config clock s); reflexivity.
    + now rewrite qualify_calls_app, Q1, Q2.
    + rewrite ticker_calls_app, length_app. lia.
Qed.

(** X11.  A scan that runs qualifies every configured symbol exactly once,
    in the order of the configuration, with the symbol's primary exchange,
    and fetches at most one ticker per symbol: nothing is retried. *)
Theorem one_qualification_per_symbol env config clock st :
  scan_runs env config clock = true ->
  exists d tr,
    scan_all_symbols env config clock st =
      (Ok d, {| scan_results := d; trace := trace st ++ tr |})
    /\ qualify_calls tr =
         map (fun s => stock_contract s (configured_exchange config s))
             (dict_keys (symbols config))
    /\ (List.length (ticker_calls tr) <= List.length (dict_keys (symbols config)))%nat.
Proof.
  intros R. unfold scan_runs in R. unfold scan_all_symbols, bind.
  apply andb_prop in R. destruct R as [R R2]. apply andb_prop in R. destruct R as [R1 R0].
  set (keys := dict_keys (symbols config)) in *.
  destruct (is_premarket_hours_run env config (t_precheck clock) st) as (tr1 & -> & B1 & _).
  rewrite R1. simpl.
  destruct (Nat.eqb (List.length keys) 0) eqn:Z; [discriminate|]. simpl.
  rewrite make_tasks_run by auto.
  match goal with |- context [is_premarket_hours _ _ _ ?st1] =>
    destruct (is_premarket_hours_run env config (t_recheck clock) st1) as (tr2 & -> & B2 & _)
  end.
  rewrite R2. simpl.
  match goal with |- context [report_time_until_open _ _ _ ?st1] =>
    destruct (report_time_until_open_run env config (t_info clock) st1) as (tr3 & -> & B3 & _)
  end.
  simpl.
  match goal with |- context [gather _ ?st1] =>
    destruct (gather_calls env config clock keys st1) as (tr4 & -> & Q4 & T4)
  end.
  simpl.
  match goal with |- context [is_premarket_hours _ _ _ ?st1] =>
    destruct (is_premarket_hours_run env config (t_postcheck clock) st1) as (tr5 & -> & B5 & _)
  end.
  simpl.
  apply no_broker_calls in B1, B2, B3, B5.
  destruct B1 as [Q1 T1], B2 as [Q2 T2], B3 as [Q3 T3], B5 as [Q5 T5].
  destruct (in_premarket env config (t_postcheck clock)); simpl;
    match goal with |- context [process_results _ _ _ _ _ _ ?st1] =>
      destruct (process_results_run env config clock keys [] [] 0%nat 0%nat st1)
        as (tr6 & P & _ & B6)
    end;
    simpl in P; rewrite P; simpl; apply no_broker_calls in B6; destruct B6 as [Q6 T6];
    eexists _, _; (split; [rewrite <- !app_assoc; reflexivity|]);
    rewrite !qualify_calls_app, !ticker_calls_app, Q1, Q2, Q3, Q4, Q5, Q6,
      T1, T2, T3, T5, T6; simpl; rewrite ?app_nil_r; split; auto.
Qed.

Lemma one_qualification_per_symbol_witness :
  exists d tr,
    scan_all_symbols Sample.env Sample.config Sample.clock_open initial_state =
      (Ok d, {| scan_results := d; trace := [] ++ tr |})
    /\ map stk_symbol (qualify_calls tr) = ["BBB"; "AAA"; "CCC"; "EEE"; "FFF"]%string.
Proof.
  destruct (one_qualification_per_symbol Sample.env Sample.config Sample.clock_open
              initial_state eq_refl) as (d & tr & E & Q & _).
  exists d, tr. split; [exact E|]. rewrite Q. reflexivity.
Defined.

(** ** The summary table *)

(** X12.  The summary table is never empty: without a stored opportunity it
    holds the single row "No opportunities found", otherwise one row per
    stored opportunity, in the order of [get_top_opportunities] with a limit
    that covers them all. *)
Theorem summary_follows_ranking st limit :
  Z.of_nat (List.length (opportunities st)) <= limit ->
  get_opportunities_summary st =
    match opportunities st with
    | [] => [NoOpportunitiesFound]
    | _ :: _ => map summary_row (get_top_opportunities st limit)
    end
  /\ List.length (get_opportunities_summary st)
     = Nat.max 1 (List.length (opportunities st)).
Proof.
  intros L. unfold get_opportunities_summary, get_top_opportunities, ranked_opportunities.
  assert (E : List.length (sort_reverse change_magnitude (opportunities st))
              = List.length (opportunities st))
    by (apply Permutation_length, sort_reverse_perm).
  destruct (opportunities st) as [|o os] eqn:O; [split; reflexivity|].
  rewrite slice_to_nonneg by lia. rewrite firstn_all2 by lia.
  split; [reflexivity|]. rewrite length_map, E. simpl. reflexivity.
Qed.

Lemma summary_follows_ranking_witness :
  get_opportunities_summary Sample.scanned
  = map summary_row (get_top_opportunities Sample.scanned 10)
  /\ get_opportunities_summary initial_state = [NoOpportunitiesFound].
Proof.
  split.
  - destruct (summary_follows_ranking Sample.scanned 10) as [E _];
      [vm_compute; discriminate|].
    rewrite E. vm_compute. reflexivity.
  - destruct (summary_follows_ranking initial_state 0) as [E _]; [simpl; lia|].
    exact E.
Defined.

Lemma outcome_coherent env config clock s r :
  outcome_of env config clock s = Some r -> coherent r.
Proof.
  unfold outcome_of. intros O.
  destruct (scan_symbol_run env config s (configured_exchange config s) (t_scan clock s)
              initial_state) as (tr & E & _).
  rewrite O in E. exact (scan_symbol_coherent _ _ _ _ _ _ _ _ E).
Qed.

Lemma scan_all_symbols_coherent_state env config clock st :
  coherent_state st ->
  coherent_state (snd (scan_all_symbols env config clock st)).
Proof.
  unfold coherent_state. intros S.
  destruct (scan_runs env config clock) eqn:R.
  - destruct (scan_all_symbols_busy env config clock st R) as (tr & -> & _). simpl.
    apply Forall_forall. intros r I.
    destruct (collected_values _ _ _ _ _ _ I) as [[]|(s & O)].
    exact (outcome_coherent _ _ _ _ _ O).
  - now destruct (scan_all_symbols_idle env config clock st R) as (tr & -> & _).
Qed.

Lemma scan_symbol_coherent_state env config s pe now st :
  coherent_state st ->
  coherent_state (snd (scan_symbol env config s pe now st)).
Proof.
  unfold coherent_state. intros S.
  destruct (scan_symbol env config s pe now st) as [[[r|]|e] st'] eqn:E; simpl.
  - pose proof (scan_symbol_coherent _ _ _ _ _ _ _ _ E) as C.
    destruct (scan_symbol_some _ _ _ _ _ _ _ _ E)
      as (c & cs & tk & _ & _ & _ & _ & _ & _ & _ & _ & _ & ->).
    apply Forall_forall. intros x I. apply dict_values_set_in in I.
    destruct I as [->|I]; [exact C|rewrite Forall_forall in S; auto].
  - destruct (scan_symbol_run env config s pe now st) as (tr & R & _).
    rewrite E in R. injection R as R1 ->. rewrite <- R1. exact S.
  - destruct (scan_symbol_run env config s pe now st) as (tr & R & _).
    rewrite E in R. discriminate.
Qed.

(** X13.  The scanner keeps its stored results coherent: starting from no
    results, after any scan of one symbol or of all symbols every stored
    result has an action exactly when it is flagged, PUT with a change below
    -1.0 and CALL with a change above 1.0. *)
Theorem stored_results_stay_coherent env config :
  coherent_state initial_state
  /\ (forall s pe now st, coherent_state st ->
        coherent_state (snd (scan_symbol env config s pe now st)))
  /\ (forall clock st, coherent_state st ->
        coherent_state (snd (scan_all_symbols env config clock st))).
Proof.
  split; [constructor|]. split.
  - intros. now apply scan_symbol_coherent_state.
  - intros. now apply scan_all_symbols_coherent_state.
Qed.

Lemma coherent_sample : coherent_state Sample.scanned.
Proof. apply scan_all_symbols_coherent_state. constructor. Defined.

Lemma coherent_row r :
  coherent r -> has_opportunity r = true -> row_colour_matches_action (summary_row r).
Proof.
  unfold coherent, row_colour_matches_action, summary_row. intros C H. simpl.
  destruct (recommended_action r) as [[|]|].
  - destruct C as [_ C].
    assert (Z : PyFloat.lt (price_change_pct r) 0%float = true)
      by (apply (PyFloatFacts.lt_trans _ _ _ C); reflexivity).
    rewrite Z. repeat split; intros; try reflexivity; discriminate.
  - destruct C as [_ C].
    assert (Z : PyFloat.lt (price_change_pct r) 0%float = false).
    { apply PyFloatFacts.lt_asym. apply (fun P => PyFloatFacts.lt_trans _ _ _ P C).
      reflexivity. }
    rewrite Z. repeat split; intros; try reflexivity; discriminate.
  - congruence.
Qed.

(** X14.  In the summary table of coherent stored results the colour of the
    change tells the action: a row is red exactly when its action is PUT and
    green exactly when its action is CALL. *)
Theorem summary_colour_matches_action st :
  coherent_state st ->
  Forall row_colour_matches_action (get_opportunities_summary st).
Proof.
  unfold coherent_state, get_opportunities_summary. intros S.
  destruct (opportunities st) as [|o os] eqn:O; [repeat constructor|].
  rewrite <- O. apply Forall_forall. intros row I.
  apply in_map_iff in I. destruct I as (r & <- & I).
  apply (Permutation_in _ (sort_reverse_perm change_magnitude (opportunities st))) in I.
  unfold opportunities in I. apply filter_In in I. destruct I as [I H].
  rewrite Forall_forall in S. exact (coherent_row r (S r I) H).
Qed.

Lemma summary_colour_matches_action_witness :
  Forall row_colour_matches_action (get_opportunities_summary Sample.scanned).
Proof.
  exact (summary_colour_matches_action Sample.scanned coherent_sample).
Defined.

(** * The exchange hours *)

Import ExchangeHours.


Ltac unfold_eff :=
  unfold Eff.try_except, Eff.bind, Eff.ret, Eff.lift, Eff.raise, ExchangeHours.log,
    ExchangeHours.sleep in *.

Lemma sleeps_app tr1 tr2 : sleeps (tr1 ++ tr2) = sleeps tr1 ++ sleeps tr2.
Proof. apply flat_map_app. Qed.

(** The [try] block never raises; it answers "continue" only with the
    scanner enabled, and then logs one line. *)
Lemma extended_hours_check_run env config calendar now today tr :
  exists early tr2,
    extended_hours_check env config calendar now today tr = (Return early, tr ++ tr2)
    /\ sleeps tr2 = []
    /\ (early = None /\ (tr2 = [] \/ tr2 = [Logged ErrorCheckingExtendedHours])
        \/ early = Some "continue"%string
           /\ enable_premarket_scanner config = true
           /\ tr2 = [Logged PremarketScanningEnabled]).
Proof.
  unfold extended_hours_check. unfold_eff.
  destruct (tz_convert env now) as [now_et|e]; simpl;
    [|eexists _, _; split; [reflexivity|]; split; [reflexivity|]; left; auto].
  destruct (is_session calendar today) as [[|]|e]; simpl;
    [ | exists None, []; rewrite app_nil_r; repeat split; tauto
      | eexists _, _; split; [reflexivity|]; split; [reflexivity|]; left; auto].
  destruct (session_open calendar today) as [o|e]; simpl;
    [|eexists _, _; split; [reflexivity|]; split; [reflexivity|]; left; auto].
  destruct (tz_convert env o) as [o_et|e]; simpl;
    [|eexists _, _; split; [reflexivity|]; split; [reflexivity|]; left; auto].
  destruct (enable_premarket_scanner config); rewrite ?andb_true_r, ?andb_false_r.
  - destruct (_ && _); simpl.
    + eexists _, _; split; [reflexivity|]; split; [reflexivity|]; right; auto.
    + exists None, []; rewrite app_nil_r; repeat split; tauto.
  - exists None, []; rewrite app_nil_r; repeat split; tauto.
Qed.


(** X15.  [determine_action] answers "continue", "exit" or "wait" and
    nothing else; it answers "wait" only when [action_when_closed] is
    "wait", and it never sleeps. *)
Theorem determine_action_answers env config now tr a tr' :
  determine_action env config now tr = (Return a, tr') ->
  (a = "continue" \/ a = "exit" \/ a = "wait")%string
  /\ (a = "wait"%string -> action_when_closed config = "wait"%string)
  /\ exists tr2, tr' = tr ++ tr2 /\ sleeps tr2 = [].
Proof.
  unfold determine_action.
  destruct (String.eqb (action_when_closed config) "continue") eqn:C.
  { intros [= <- <-]. split; [auto|]. split; [discriminate|].
    exists []. now rewrite app_nil_r. }
  unfold Eff.bind at 1, Eff.lift at 1.
  destruct (get_calendar env (exchange config)) as [cal|e]; [|discriminate].
  unfold Eff.bind at 1.
  assert (E : exists early tr2,
    (if enable_extended_hours config || enable_premarket_scanner config
     then extended_hours_check env config cal now (now / 86400)
     else Eff.ret None) tr = (Return early, tr ++ tr2)
    /\ sleeps tr2 = [] /\ (early = None \/ early = Some "continue"%string)).
  { destruct (_ || _).
    - destruct (extended_hours_check_run env config cal now (now / 86400) tr)
        as (early & tr2 & E & S & H).
      exists early, tr2. split; [exact E|]. split; [exact S|]. tauto.
    - exists None, []. rewrite app_nil_r. auto. }
  destruct E as (early & tr2 & -> & S & [->| ->]).
  2:{ intros [= <- <-]. split; [auto|]. split; [discriminate|]. now exists tr2. }
  unfold_eff.
  destruct (is_session cal (now / 86400)) as [[|]|e]; [| |discriminate].
  - destruct (session_open cal (now / 86400)) as [o|e]; [|discriminate].
    destruct (session_close cal (now / 86400)) as [c|e]; [|discriminate].
    destruct (_ && _).
    + intros [= <- <-]. split; [auto|]. split; [discriminate|].
      eexists. rewrite <- app_assoc. split; [reflexivity|].
      now rewrite sleeps_app, S.
    + destruct (String.eqb (action_when_closed config) "exit") eqn:X.
      * intros [= <- <-]. split; [auto|]. split; [discriminate|].
        eexists. rewrite <- !app_assoc. split; [reflexivity|].
        now rewrite sleeps_app, S.
      * destruct (String.eqb (action_when_closed config) "wait") eqn:W;
          intros [= <- <-]; (split; [auto|]);
          (split; [try discriminate; intros _; now apply String.eqb_eq|]);
          eexists; rewrite <- !app_assoc; (split; [reflexivity|]);
          now rewrite sleeps_app, S.
  - destruct (String.eqb (action_when_closed config) "wait") eqn:W;
      intros [= <- <-]; (split; [auto|]);
      (split; [try discriminate; intros _; now apply String.eqb_eq|]);
      eexists; rewrite <- ?app_assoc; (split; [reflexivity|]);
      now rewrite ?sleeps_app, S.
Qed.

Lemma determine_action_answers_witness :
  determine_action Sample.env (Sample.config "wait") Sample.holiday [] = (Return "wait"%string, [])
  /\ action_when_closed (Sample.config "wait") = "wait"%string.
Proof.
  split; [reflexivity|].
  apply (determine_action_answers Sample.env (Sample.config "wait") Sample.holiday []
           "wait" []); reflexivity.
Defined.

(** What the [try] block leaves to the code after it. *)
Lemma extended_hours_run env config cal now tr :
  exists early tr2,
    (if enable_extended_hours config || enable_premarket_scanner config
     then extended_hours_check env config cal now (now / 86400)
     else Eff.ret None) tr = (Return early, tr ++ tr2)
    /\ sleeps tr2 = []
    /\ (early = None
        \/ early = Some "continue"%string /\ enable_premarket_scanner config = true).
Proof.
  destruct (_ || _).
  - destruct (extended_hours_check_run env config cal now (now / 86400) tr)
      as (early & tr2 & E & S & H).
    exists early, tr2. split; [exact E|]. split; [exact S|]. tauto.
  - exists None, []. rewrite app_nil_r. auto.
Qed.

(** X16.  During the regular hours, from [delay_after_open] after the open
    to [delay_before_close] before the close of a session day, the answer is
    "continue" whatever [action_when_closed] and the two flags are, also when
    the conversion to New York time fails. *)
Theorem regular_hours_continue env config now tr cal o c :
  get_calendar env (exchange config) = Return cal ->
  is_session cal (now / 86400) = Return true ->
  session_open cal (now / 86400) = Return o ->
  session_close cal (now / 86400) = Return c ->
  o + delay_after_open config <= now <= c - delay_before_close config ->
  fst (determine_action env config now tr) = Return "continue"%string.
Proof.
  intros G I O C [L U]. unfold determine_action.
  destruct (String.eqb (action_when_closed config) "continue"); [reflexivity|].
  unfold Eff.bind at 1, Eff.lift at 1. rewrite G. unfold Eff.bind at 1.
  destruct (extended_hours_run env config cal now tr) as (early & tr2 & -> & _ & [->|[-> _]]);
    [|reflexivity].
  unfold_eff. rewrite I, O, C.
  apply Z.leb_le in L, U. rewrite L, U. reflexivity.
Qed.

Lemma regular_hours_continue_witness :
  fst (determine_action Sample.env (Sample.scanning "exit") Sample.midday [])
    = Return "continue"%string.
Proof.
  apply (regular_hours_continue Sample.env (Sample.scanning "exit") Sample.midday []
           Sample.calendar (7 * 86400 + 52200) (7 * 86400 + 75600));
    try reflexivity.
  vm_compute. split; discriminate.
Defined.

(** X17.  With the scanner enabled, on a session day between 04:00 New York
    time and the open, the answer is "continue" although the exchange is
    closed: one line is logged, the table of the hours is not printed and
    [action_when_closed] is not looked at (unless it is "continue"
    itself). *)
Theorem premarket_hours_continue env config now tr cal now_et o o_et :
  action_when_closed config <> "continue"%string ->
  enable_premarket_scanner config = true ->
  get_calendar env (exchange config) = Return cal ->
  tz_convert env now = Return now_et ->
  is_session cal (now / 86400) = Return true ->
  session_open cal (now / 86400) = Return o ->
  tz_convert env o = Return o_et ->
  now_et / 86400 * 86400 + 4 * 3600 <= now_et < o_et ->
  determine_action env config now tr
    = (Return "continue"%string, tr ++ [Logged PremarketScanningEnabled]).
Proof.
  intros N P G T I O T' [L U]. unfold determine_action, extended_hours_check.
  apply String.eqb_neq in N. rewrite N, P, orb_true_r. unfold_eff.
  rewrite G, T, I, O, T'.
  assert (L' : (now_et / 86400 * 86400 + 4 * 3600 + 0 * 60 <=? now_et) = true)
    by (apply Z.leb_le; lia).
  apply Z.ltb_lt in U. rewrite L', U. reflexivity.
Qed.

Lemma premarket_hours_continue_witness :
  determine_action Sample.env (Sample.scanning "exit") Sample.premarket []
    = (Return "continue"%string, [Logged PremarketScanningEnabled]).
Proof.
  apply (premarket_hours_continue Sample.env (Sample.scanning "exit") Sample.premarket []
           Sample.calendar (Sample.premarket - 14400) (7 * 86400 + 52200)
           (7 * 86400 + 52200 - 14400));
    try reflexivity; try discriminate.
  vm_compute. split; [discriminate|reflexivity].
Defined.

(** X18.  When the exchange is closed (the day is no session, or the time is
    outside the hours) and the scanner is not enabled, the answer is "wait"
    if [action_when_closed] is "wait" and "exit" for every other setting
    than "continue", an unknown one included. *)
Theorem closed_exchange_answer env config now tr cal :
  action_when_closed config <> "continue"%string ->
  enable_premarket_scanner config = false ->
  get_calendar env (exchange config) = Return cal ->
  (is_session cal (now / 86400) = Return false
   \/ exists o c,
        is_session cal (now / 86400) = Return true
        /\ session_open cal (now / 86400) = Return o
        /\ session_close cal (now / 86400) = Return c
        /\ (now < o + delay_after_open config \/ c - delay_before_close config < now)) ->
  fst (determine_action env config now tr)
    = Return (if String.eqb (action_when_closed config) "wait" then "wait" else "exit")%string.
Proof.
  intros N P G H. unfold determine_action.
  apply String.eqb_neq in N. rewrite N.
  unfold Eff.bind at 1, Eff.lift at 1. rewrite G. unfold Eff.bind at 1.
  destruct (extended_hours_run env config cal now tr)
    as (early & tr2 & -> & _ & [->|[_ Q]]); [|congruence].
  unfold_eff. destruct H as [I|(o & c & I & O & C & H)].
  - rewrite I. destruct (String.eqb (action_when_closed config) "wait"); reflexivity.
  - rewrite I, O, C.
    assert (W : ((o + delay_after_open config <=? now)
                 && (now <=? c - delay_before_close config)) = false).
    { apply andb_false_iff. destruct H; [left; apply Z.leb_gt|right; apply Z.leb_gt]; lia. }
    rewrite W.
    destruct (String.eqb (action_when_closed config) "exit") eqn:X.
    + apply String.eqb_eq in X. rewrite X. reflexivity.
    + destruct (String.eqb (action_when_closed config) "wait"); reflexivity.
Qed.

Lemma closed_exchange_answer_witness :
  fst (determine_action Sample.env (Sample.config "hold") Sample.evening [])
    = Return "exit"%string.
Proof.
  apply (closed_exchange_answer Sample.env (Sample.config "hold") Sample.evening []
           Sample.calendar); try reflexivity; try discriminate.
  right. exists (7 * 86400 + 52200), (7 * 86400 + 75600).
  repeat split. right. vm_compute. reflexivity.
Defined.

Ltac destruct_hours :=
  repeat (simpl; rewrite ?andb_false_r;
          first [ rewrite ?app_nil_r, <- ?app_assoc; reflexivity
                | match goal with
                  | |- context [tz_convert ?e ?t] => destruct (tz_convert e t)
                  | |- context [is_session ?c ?d] => destruct (is_session c d) as [[|]|]
                  | |- context [session_open ?c ?d] => destruct (session_open c d)
                  | |- context [session_close ?c ?d] => destruct (session_close c d)
                  | |- context [(?x <=? ?y) && ?z] => destruct ((x <=? y) && z)
                  | |- context [String.eqb ?x ?y] => destruct (String.eqb x y)
                  | |- context [enable_premarket_scanner ?c] =>
                      destruct (enable_premarket_scanner c)
                  | |- context [enable_extended_hours ?c] =>
                      destruct (enable_extended_hours c)
                  end ]).

(** [determine_action] only appends to the trace, and what it answers and
    appends does not depend on the trace it starts from. *)
Lemma determine_action_shift env config now tr :
  determine_action env config now tr =
    (fst (determine_action env config now []),
     tr ++ snd (determine_action env config now [])).
Proof.
  unfold determine_action, extended_hours_check. unfold_eff.
  destruct (String.eqb (action_when_closed config) "continue");
    [simpl; now rewrite app_nil_r|].
  destruct (get_calendar env (exchange config)) as [cal|e];
    [|simpl; now rewrite app_nil_r].
  destruct_hours.
Qed.

(** With the scanner off, setting the flag only runs the [try] block, which
    answers nothing and logs at most its warning. *)
Lemma extended_hours_only_logs env config now tr :
  enable_premarket_scanner config = false ->
  exists w,
    (w = [] \/ w = [Logged ErrorCheckingExtendedHours])
    /\ determine_action env (with_extended_hours config true) now tr
       = determine_action env (with_extended_hours config false) now (tr ++ w).
Proof.
  intros P. unfold determine_action, with_extended_hours. cbn [action_when_closed
    exchange delay_after_open delay_before_close enable_extended_hours
    enable_premarket_scanner]. rewrite P. cbn [orb].
  destruct (String.eqb (action_when_closed config) "continue").
  { exists []. rewrite app_nil_r. auto. }
  unfold Eff.bind at 1 6, Eff.lift at 1 5.
  destruct (get_calendar env (exchange config)) as [cal|e].
  2:{ exists []. rewrite app_nil_r. auto. }
  destruct (extended_hours_check_run env
              {| exchange := exchange config;
                 action_when_closed := action_when_closed config;
                 delay_after_open := delay_after_open config;
                 delay_before_close := delay_before_close config;
                 max_wait_until_open := max_wait_until_open config;
                 enable_extended_hours := true;
                 enable_premarket_scanner := false |} cal now (now / 86400) tr)
    as (early & w & E & _ & [[-> W]|(_ & Q & _)]); [|discriminate Q].
  exists w. split; [exact W|].
  unfold Eff.bind at 1 6. rewrite E. reflexivity.
Qed.

(** X19.  [enable_extended_hours] alone changes no answer: with the scanner
    not enabled, [determine_action] returns the same result (value or
    exception) with the flag set and with the flag unset, and logs the same
    lines but for at most one warning, added when the flag is set and the
    [try] block fails. *)
Theorem extended_hours_flag_changes_nothing env config now tr :
  enable_premarket_scanner config = false ->
  exists r w rest,
    determine_action env (with_extended_hours config false) now tr = (r, tr ++ rest)
    /\ determine_action env (with_extended_hours config true) now tr
       = (r, tr ++ w ++ rest)
    /\ (w = [] \/ w = [Logged ErrorCheckingExtendedHours]).
Proof.
  intros P.
  destruct (extended_hours_only_logs env config now tr P) as (w & W & E).
  exists (fst (determine_action env (with_extended_hours config false) now [])), w,
    (snd (determine_action env (with_extended_hours config false) now [])).
  split; [apply determine_action_shift|]. split; [|exact W].
  rewrite E, determine_action_shift, <- app_assoc. reflexivity.
Qed.

Lemma extended_hours_flag_changes_nothing_witness :
  exists rest,
    determine_action Sample.no_time_zone
      (with_extended_hours (Sample.config "exit") false) Sample.evening []
    = (Return "exit"%string, [] ++ rest)
    /\ determine_action Sample.no_time_zone
         (with_extended_hours (Sample.config "exit") true) Sample.evening []
       = (Return "exit"%string, [] ++ [Logged ErrorCheckingExtendedHours] ++ rest).
Proof.
  destruct (extended_hours_flag_changes_nothing Sample.no_time_zone (Sample.config "exit")
              Sample.evening [] eq_refl) as (r & w & rest & E1 & E2 & W).
  assert (R : r = Return "exit"%string) by (vm_compute in E1; congruence).
  assert (V : w = [Logged ErrorCheckingExtendedHours]).
  { destruct W as [->| ->]; [|reflexivity].
    assert (D : determine_action Sample.no_time_zone
                  (with_extended_hours (Sample.config "exit") true) Sample.evening []
                = determine_action Sample.no_time_zone
                    (with_extended_hours (Sample.config "exit") false) Sample.evening [])
      by (rewrite E1, E2; reflexivity).
    vm_compute in D. discriminate D. }
  subst r w. exists rest. split; [exact E1|exact E2].
Defined.

(** X20.  [waited_for_open] sleeps at most once, never for a negative time
    and never for [max_wait_until_open] or longer; it answers [True] exactly
    when it has slept. *)
Theorem waited_for_open_sleeps_less_than_max env config now tr r tr' :
  waited_for_open env config now tr = (r, tr') ->
  exists tr2,
    tr' = tr ++ tr2
    /\ (r = Return true ->
        exists s, sleeps tr2 = [s] /\ 0 <= s < max_wait_until_open config)
    /\ (r <> Return true -> sleeps tr2 = []).
Proof.
  unfold waited_for_open. unfold_eff.
  destruct (get_calendar env (exchange config)) as [cal|e];
    [|intros [= <- <-]; exists []; rewrite app_nil_r; repeat split; congruence].
  destruct (date_to_session_next cal (now / 86400)) as [next|e];
    [|intros [= <- <-]; exists []; rewrite app_nil_r; repeat split; congruence].
  destruct (session_open cal next) as [o|e];
    [|intros [= <- <-]; exists []; rewrite app_nil_r; repeat split; congruence].
  destruct (Z.ltb_spec (o + delay_after_open config - now) (max_wait_until_open config)).
  - simpl. destruct (Z.ltb_spec (o + delay_after_open config - now) 0); simpl.
    + intros [= <- <-]. eexists. split; [reflexivity|]. split; [discriminate|reflexivity].
    + intros [= <- <-]. eexists. rewrite <- app_assoc. split; [reflexivity|]. split.
      * intros _. eexists. split; [reflexivity|]. lia.
      * congruence.
  - simpl. intros [= <- <-]. eexists. split; [reflexivity|]. split; [discriminate|reflexivity].
Qed.

Lemma waited_for_open_sleeps_less_than_max_witness :
  exists tr2,
    [Logged (WaitingForOpen 486000 82800); Slept 82800] = [] ++ tr2
    /\ (Return true = Return true ->
        exists s, sleeps tr2 = [s] /\ 0 <= s < 86400).
Proof.
  destruct (waited_for_open_sleeps_less_than_max Sample.env (Sample.config "wait")
              Sample.holiday [] (Return true)
              [Logged (WaitingForOpen 486000 82800); Slept 82800] eq_refl)
    as (tr2 & E & S & _).
  exists tr2. split; [exact E|exact S].
Defined.

(** X21.  After the end of the hours of a session day, with
    [action_when_closed] set to "wait", [need_to_exit] does not answer: the
    session that the calendar gives for today is today's, its start is past,
    and [time.sleep] raises [ValueError] on the negative time; nothing has
    been slept. *)
Theorem need_to_exit_raises_after_close env config now tr cal o c :
  action_when_closed config = "wait"%string ->
  enable_premarket_scanner config = false ->
  get_calendar env (exchange config) = Return cal ->
  is_session cal (now / 86400) = Return true ->
  date_to_session_next cal (now / 86400) = Return (now / 86400) ->
  session_open cal (now / 86400) = Return o ->
  session_close cal (now / 86400) = Return c ->
  o + delay_after_open config < now ->
  c - delay_before_close config < now ->
  0 <= max_wait_until_open config ->
  exists tr2,
    need_to_exit env config now tr = (Throw ValueError, tr ++ tr2)
    /\ sleeps tr2 = [].
Proof.
  intros A P G I D O C L U M. unfold need_to_exit, determine_action.
  rewrite A. cbn [String.eqb Ascii.eqb Bool.eqb].
  unfold Eff.bind at 1 2, Eff.lift at 1. rewrite G. unfold Eff.bind at 1.
  destruct (extended_hours_run env config cal now tr)
    as (early & tr2 & -> & S & [->|[_ Q]]); [|congruence].
  unfold waited_for_open. unfold_eff. rewrite I, O, C, G, D, O.
  assert (V : ((o + delay_after_open config <=? now)
               && (now <=? c - delay_before_close config)) = false).
  { apply andb_false_iff. right. apply Z.leb_gt. lia. }
  assert (X : (o + delay_after_open config - now <? max_wait_until_open config) = true)
    by (apply Z.ltb_lt; lia).
  assert (Y : (o + delay_after_open config - now <? 0) = true) by (apply Z.ltb_lt; lia).
  rewrite V. cbn [String.eqb Ascii.eqb Bool.eqb fst snd]. rewrite X, Y.
  eexists. rewrite <- !app_assoc. split; [reflexivity|].
  now rewrite sleeps_app, S.
Qed.

Lemma need_to_exit_raises_after_close_witness :
  exists tr2,
    need_to_exit Sample.env (Sample.config "wait") Sample.evening []
      = (Throw ValueError, [] ++ tr2)
    /\ sleeps tr2 = [].
Proof.
  apply (need_to_exit_raises_after_close Sample.env (Sample.config "wait") Sample.evening []
           Sample.calendar (7 * 86400 + 52200) (7 * 86400 + 75600));
    try reflexivity.
  vm_compute. discriminate.
Defined.

(** X22.  On a day without session, with [action_when_closed] set to "wait"
    and both flags unset, [need_to_exit] looks at the start of the next
    session: when it is less than [max_wait_until_open] away the program
    sleeps until then and goes on ([False]); otherwise it sleeps not at all
    and exits ([True]). *)
Theorem need_to_exit_waits_for_next_session env config now tr cal next o :
  action_when_closed config = "wait"%string ->
  enable_extended_hours config = false ->
  enable_premarket_scanner config = false ->
  get_calendar env (exchange config) = Return cal ->
  is_session cal (now / 86400) = Return false ->
  date_to_session_next cal (now / 86400) = Return next ->
  session_open cal next = Return o ->
  now <= o + delay_after_open config ->
  need_to_exit env config now tr =
    let start := o + delay_after_open config in
    if start - now <? max_wait_until_open config
    then (Return false, tr ++ [Logged (WaitingForOpen start (start - now)); Slept (start - now)])
    else (Return true,
          tr ++ [Logged (MaxWaitExceeded (start - now) (max_wait_until_open config))]).
Proof.
  intros A X P G I D O L.
  unfold need_to_exit, determine_action, waited_for_open. rewrite A, X, P. simpl.
  unfold_eff. rewrite G, I. simpl. rewrite D, O.
  destruct (o + delay_after_open config - now <? max_wait_until_open config); simpl.
  - assert (Y : (o + delay_after_open config - now <? 0) = false) by (apply Z.ltb_ge; lia).
    rewrite Y. simpl. now rewrite <- app_assoc.
  - reflexivity.
Qed.

Lemma need_to_exit_waits_for_next_session_witness :
  need_to_exit Sample.env (Sample.config "wait") Sample.holiday []
    = (Return false, [Logged (WaitingForOpen 486000 82800); Slept 82800])
  /\ need_to_exit Sample.env (Sample.config "wait") Sample.long_weekend []
    = (Return true, [Logged (MaxWaitExceeded 169200 86400)]).
Proof.
  split.
  - apply (need_to_exit_waits_for_next_session Sample.env (Sample.config "wait")
             Sample.holiday [] Sample.calendar 5 (5 * 86400 + 52200));
      try reflexivity.
    vm_compute. discriminate.
  - apply (need_to_exit_waits_for_next_session Sample.env (Sample.config "wait")
             Sample.long_weekend [] Sample.calendar 5 (5 * 86400 + 52200));
      try reflexivity.
    vm_compute. discriminate.
Defined.

(** * The market regime *)

Import MarketRegime.
#[local] Set Warnings "-inexact-float".

Ltac unfold_regime :=
  unfold Eff.try_except, Eff.bind, Eff.ret, Eff.lift, Eff.raise, MarketRegime.log,
    set_current_regime in *.

Lemma gt_trans_const (x a b : float) :
  PyFloat.lt a b = true -> gt x b = true -> gt x a = true.
Proof. unfold gt. intros A B. exact (PyFloatFacts.lt_trans _ _ _ A B). Qed.

Lemma lt_not_gt_const (x a b : float) :
  PyFloat.lt a b = true -> PyFloat.lt x a = true -> gt x b = false.
Proof.
  unfold gt. intros A B. apply PyFloatFacts.lt_asym.
  exact (PyFloatFacts.lt_trans _ _ _ B A).
Qed.

Lemma classify_regime_spec vix trend vol :
  _classify_regime vix trend vol =
    if gt vix 30 then HIGH_VOLATILITY
    else if gt trend 0.01 && PyFloat.lt vix 20 then BULL
    else if PyFloat.lt trend (-0.01) && gt vix 20 then BEAR
    else SIDEWAYS.
Proof.
  unfold _classify_regime.
  destruct (gt vix 30); [reflexivity|].
  destruct (gt trend 0.01 && PyFloat.lt vix 20); [reflexivity|].
  destruct (PyFloat.lt trend (-0.01) && gt vix 20); [reflexivity|].
  destruct (_ && _); reflexivity.
Qed.

(** X23.  [_classify_regime] never answers UNKNOWN and never reads the
    volatility; it answers HIGH_VOLATILITY exactly for a VIX above 30, BULL
    exactly for a trend above 0.01 with a VIX below 20, BEAR exactly for a
    trend below -0.01 with a VIX above 20 and not above 30, and SIDEWAYS in
    every other case, a NaN input included. *)
Theorem classify_regime_cases vix trend vol :
  _classify_regime vix trend vol <> UNKNOWN
  /\ (forall vol', _classify_regime vix trend vol' = _classify_regime vix trend vol)
  /\ (_classify_regime vix trend vol = HIGH_VOLATILITY <-> gt vix 30 = true)
  /\ (_classify_regime vix trend vol = BULL <->
      gt trend 0.01 = true /\ PyFloat.lt vix 20 = true)
  /\ (_classify_regime vix trend vol = BEAR <->
      PyFloat.lt trend (-0.01) = true /\ gt vix 20 = true /\ gt vix 30 = false)
  /\ (PrimFloat.is_nan vix = true -> _classify_regime vix trend vol = SIDEWAYS).
Proof.
  split; [|split; [|split; [|split; [|split]]]].
  - rewrite classify_regime_spec.
    destruct (gt vix 30); [discriminate|].
    destruct (_ && _); [discriminate|]. destruct (_ && _); discriminate.
  - intros vol'. now rewrite !classify_regime_spec.
  - rewrite classify_regime_spec.
    destruct (gt vix 30); [tauto|].
    destruct (_ && _); [split; discriminate|].
    destruct (_ && _); split; discriminate.
  - rewrite classify_regime_spec.
    destruct (gt vix 30) eqn:H.
    + split; [discriminate|]. intros [_ L].
      rewrite (lt_not_gt_const vix 20 30 eq_refl L) in H. discriminate.
    + destruct (gt trend 0.01); simpl.
      * destruct (PyFloat.lt vix 20); [tauto|].
        destruct (_ && _); split; try discriminate; intros [_ ?]; discriminate.
      * destruct (_ && _); split; try discriminate; intros [? _]; discriminate.
  - rewrite classify_regime_spec.
    destruct (gt vix 30) eqn:H; [split; [discriminate|intros (_ & _ & ?); discriminate]|].
    destruct (gt trend 0.01 && PyFloat.lt vix 20) eqn:B.
    + split; [discriminate|]. intros (T & _ & _).
      apply andb_prop in B. destruct B as [B _].
      assert (T' : gt trend 0.01 = false)
        by (exact (lt_not_gt_const trend (-0.01) 0.01 eq_refl T)).
      congruence.
    + destruct (PyFloat.lt trend (-0.01)); simpl.
      * destruct (gt vix 20); [tauto|]. split; [discriminate|]. intros (_ & ? & _). discriminate.
      * split; [discriminate|]. intros (? & _). discriminate.
  - intros N. rewrite classify_regime_spec. unfold gt.
    rewrite (PyFloatMore.lt_nan_r 30 vix N), (PyFloatMore.lt_nan_l vix 20 N),
      (PyFloatMore.lt_nan_r 20 vix N), !andb_false_r. reflexivity.
Qed.

(** The inner [try] block never raises and keeps [self.current_regime]. *)
Lemma spy_trend_of_run env st :
  exists trend l,
    spy_trend_of env st =
      (Return trend, {| current_regime := current_regime st; logged := logged st ++ l |})
    /\ (l = [] \/ l = [CouldNotCalculateTrend])
    /\ (short_history env -> trend = 0%float).
Proof.
  unfold spy_trend_of, short_history. unfold_regime.
  destruct (reqHistoricalDataAsync env) as [[|b bars]|e] eqn:R.
  - exists 0%float, []. rewrite app_nil_r. destruct st; auto.
  - remember (b :: bars) as all eqn:A.
    destruct (10 <=? List.length (map close (last_n 20 all)))%nat eqn:L.
    + apply Nat.leb_le in L. unfold last_n in L. rewrite length_map, length_skipn in L.
      match goal with |- context [if gt ?m 0 then _ else _] => destruct (gt m 0) end;
        eexists _, []; rewrite app_nil_r; destruct st;
        (split; [reflexivity|]); (split; [auto|]); intros H;
        specialize (H _ eq_refl); lia.
    + exists 0%float, []. rewrite app_nil_r. destruct st; auto.
  - exists 0%float, [CouldNotCalculateTrend]. auto.
Qed.

Lemma detect_regime_run env st :
  (exists vix trend l,
     detect_regime env st =
       (Return (metrics_of vix trend),
        {| current_regime := Some (metrics_of vix trend);
           logged := logged st ++ l ++ [RegimeDetected (metrics_of vix trend)] |})
     /\ (l = [] \/ l = [CouldNotCalculateTrend])
     /\ (short_history env -> trend = 0%float)
     /\ (get_ticker_for_stock env "VIX" "" = Return None -> vix = 20%float))
  \/ detect_regime env st =
       (Return default_metrics,
        {| current_regime := current_regime st;
           logged := logged st ++ [ErrorDetectingRegime] |}).
Proof.
  unfold detect_regime, price_or. unfold_regime.
  destruct (get_ticker_for_stock env "VIX" "") as [[[[vix|e]]|]|e] eqn:V; simpl;
    try (right; reflexivity);
    (destruct (get_ticker_for_stock env "SPY" "") as [[[[spy|e]]|]|e] eqn:SP; simpl;
     try (right; reflexivity));
    destruct (spy_trend_of_run env st) as (trend & l & -> & L & B); simpl;
    left; eexists _, trend, l; rewrite <- app_assoc;
    (split; [reflexivity|]); (split; [exact L|]); (split; [exact B|]);
    first [discriminate | reflexivity].
Qed.

(** X24.  [detect_regime] never raises.  When the VIX or the SPY quote
    cannot be read (the ticker call or [marketPrice()] raises) it answers the
    default metrics (UNKNOWN, VIX 20.0, confidence 0.0), logs the error and
    leaves [self.current_regime] as it was.  Otherwise (a missing VIX ticker
    counts as a VIX of 20.0) it answers the metrics computed from the VIX
    and from the trend of the inner block, stores them in
    [self.current_regime] and logs them last; their regime is never
    UNKNOWN. *)
Theorem detect_regime_never_raises env st :
  exists m st',
    detect_regime env st = (Return m, st')
    /\ match quote_of env "VIX" 20, quote_of env "SPY" 0 with
       | Return vix, Return _ =>
           exists trend l,
             fst (spy_trend_of env st) = Return trend
             /\ m = metrics_of vix trend
             /\ regime m <> UNKNOWN
             /\ current_regime st' = Some m
             /\ logged st' = logged st ++ l ++ [RegimeDetected m]
             /\ (l = [] \/ l = [CouldNotCalculateTrend])
       | _, _ =>
           m = default_metrics
           /\ current_regime st' = current_regime st
           /\ logged st' = logged st ++ [ErrorDetectingRegime]
       end.
Proof.
  assert (N : forall vix trend, regime (metrics_of vix trend) <> UNKNOWN).
  { intros vix trend. unfold metrics_of. cbn [regime]. rewrite classify_regime_spec.
    destruct (gt vix 30); [discriminate|].
    destruct (_ && _); [discriminate|]. destruct (_ && _); discriminate. }
  unfold detect_regime, price_or, quote_of. unfold_regime.
  destruct (get_ticker_for_stock env "VIX" "") as [[[[vix|e]]|]|e]; cbn [fst snd];
    try (eexists _, _; split; [reflexivity|]; simpl; auto; fail);
    (destruct (get_ticker_for_stock env "SPY" "") as [[[[spy|e]]|]|e]; cbn [fst snd];
     try (eexists _, _; split; [reflexivity|]; simpl; auto; fail));
    destruct (spy_trend_of_run env st) as (trend & l & E & L & _); rewrite E;
    cbn [fst snd]; eexists _, _; (split; [reflexivity|]);
    exists trend, l; cbn [fst snd current_regime logged];
    rewrite <- app_assoc; repeat split; auto; apply N.
Qed.

Lemma detect_regime_never_raises_witness :
  exists m st',
    detect_regime Sample.no_tickers initial_state = (Return m, st')
    /\ vix_level m = 20%float
    /\ regime m = SIDEWAYS
    /\ current_regime st' = Some m.
Proof.
  destruct (detect_regime_never_raises Sample.no_tickers initial_state)
    as (m & st' & E & H).
  cbv [quote_of Sample.no_tickers get_ticker_for_stock] in H.
  destruct H as (trend & l & T & -> & _ & C & _).
  vm_compute in T. injection T as <-.
  exists (metrics_of 20 0), st'. split; [exact E|].
  split; [reflexivity|]. split; [reflexivity|exact C].
Defined.

Lemma regime_of_metrics vix trend :
  regime (metrics_of vix trend) =
    if gt vix 30 then HIGH_VOLATILITY
    else if gt trend 0.01 && PyFloat.lt vix 20 then BULL
    else if PyFloat.lt trend (-0.01) && gt vix 20 then BEAR
    else SIDEWAYS.
Proof. unfold metrics_of. simpl. apply classify_regime_spec. Qed.

Lemma detect_regime_detected env st m st' :
  detect_regime env st = (Return m, st') -> regime m <> UNKNOWN ->
  exists vix trend,
    m = metrics_of vix trend /\ current_regime st' = Some (metrics_of vix trend)
    /\ (short_history env -> trend = 0%float)
    /\ (get_ticker_for_stock env "VIX" "" = Return None -> vix = 20%float).
Proof.
  intros E N.
  destruct (detect_regime_run env st) as [(vix & trend & l & E' & _ & B & V)|E'];
    rewrite E in E'.
  - injection E' as -> ->. exists vix, trend. auto.
  - injection E' as -> ->. now elim N.
Qed.

(** X25.  After a detection that succeeded the position size depends on the
    VIX and the trend alone: 0.5 for a VIX above 35, 0.75 for a VIX above 30
    and not above 35, 1.1 (more than the full size) for a trend above 0.01
    with a VIX below 18, and 1.0 otherwise. *)
Theorem detected_position_size env st m st' :
  detect_regime env st = (Return m, st') ->
  regime m <> UNKNOWN ->
  get_position_size_multiplier st' =
    if gt (vix_level m) 35 then 0.5%float
    else if gt (vix_level m) 30 then 0.75%float
    else if gt (spy_trend m) 0.01 && PyFloat.lt (vix_level m) 18 then 1.1%float
    else 1%float.
Proof.
  intros E N.
  destruct (detect_regime_detected env st m st' E N) as (vix & trend & -> & C & _).
  unfold get_position_size_multiplier. rewrite C, regime_of_metrics. simpl.
  destruct (gt vix 35) eqn:H35.
  - rewrite (gt_trans_const vix 30 35 eq_refl H35). reflexivity.
  - destruct (gt vix 30) eqn:H30; simpl; [reflexivity|].
    destruct (gt trend 0.01); simpl.
    + destruct (PyFloat.lt vix 18) eqn:H18.
      * assert (H20 : PyFloat.lt vix 20 = true)
          by (exact (PyFloatFacts.lt_trans vix 18 20 H18 eq_refl)).
        rewrite H20. reflexivity.
      * destruct (PyFloat.lt vix 20); simpl; [reflexivity|].
        destruct (_ && _); reflexivity.
    + destruct (_ && _); reflexivity.
Qed.

Lemma detected_position_size_witness :
  get_position_size_multiplier
    (snd (detect_regime (Sample.quiet 32) initial_state)) = 0.75%float.
Proof.
  rewrite (detected_position_size (Sample.quiet 32) initial_state (metrics_of 32 0)
             (snd (detect_regime (Sample.quiet 32) initial_state))).
  - reflexivity.
  - reflexivity.
  - vm_compute. discriminate.
Defined.

(** X26.  After a detection that succeeded trading is paused exactly for a
    VIX above 40, and the delta is lowered by 0.05 exactly for a VIX above
    30, raised by 0.02 exactly for a trend above 0.01 with a VIX below 20,
    and left alone otherwise. *)
Theorem detected_pause_and_delta env st m st' :
  detect_regime env st = (Return m, st') ->
  regime m <> UNKNOWN ->
  fst (should_trade st') = Return (negb (gt (vix_level m) 40))
  /\ get_delta_adjustment st' =
       if gt (vix_level m) 30 then (-0.05)%float
       else if gt (spy_trend m) 0.01 && PyFloat.lt (vix_level m) 20 then 0.02%float
       else 0%float.
Proof.
  intros E N.
  destruct (detect_regime_detected env st m st' E N) as (vix & trend & -> & C & _).
  unfold should_trade, get_delta_adjustment. rewrite C, regime_of_metrics. simpl.
  split.
  - destruct (gt vix 40) eqn:H40.
    + rewrite (gt_trans_const vix 30 40 eq_refl H40). reflexivity.
    + rewrite andb_false_r. reflexivity.
  - destruct (gt vix 30); simpl; [reflexivity|].
    destruct (gt trend 0.01 && PyFloat.lt vix 20); simpl; [reflexivity|].
    destruct (_ && _); reflexivity.
Qed.

Lemma detected_pause_and_delta_witness :
  fst (should_trade (snd (detect_regime (Sample.quiet 45) initial_state))) = Return false
  /\ get_delta_adjustment (snd (detect_regime (Sample.quiet 45) initial_state))
     = (-0.05)%float.
Proof.
  destruct (detected_pause_and_delta (Sample.quiet 45) initial_state (metrics_of 45 0)
              (snd (detect_regime (Sample.quiet 45) initial_state))) as [A B].
  - reflexivity.
  - vm_compute. discriminate.
  - split; [exact A|exact B].
Defined.

(** X27.  Without ten bars of history (none, fewer, or a failed request)
    the trend and the volatility are 0.0, so a detection that succeeds
    answers HIGH_VOLATILITY or SIDEWAYS, never BULL or BEAR; and without a
    VIX ticker the VIX is taken as 20.0, which is SIDEWAYS. *)
Theorem short_history_is_never_bull_or_bear env st m st' :
  short_history env ->
  detect_regime env st = (Return m, st') ->
  regime m <> UNKNOWN ->
  spy_trend m = 0%float /\ volatility m = 0%float
  /\ (regime m = HIGH_VOLATILITY \/ regime m = SIDEWAYS)
  /\ (get_ticker_for_stock env "VIX" "" = Return None -> regime m = SIDEWAYS).
Proof.
  intros H E N.
  destruct (detect_regime_detected env st m st' E N) as (vix & trend & -> & C & B & V).
  rewrite (B H). split; [reflexivity|]. split; [reflexivity|].
  rewrite regime_of_metrics. split.
  - destruct (gt vix 30); [auto|]. right. reflexivity.
  - intros G. rewrite (V G). reflexivity.
Qed.

Lemma short_history_is_never_bull_or_bear_witness :
  spy_trend (metrics_of 32 0) = 0%float
  /\ regime (metrics_of 32 0) = HIGH_VOLATILITY.
Proof.
  assert (H : short_history (Sample.quiet 32)).
  { intros bars [= <-]. simpl. lia. }
  destruct (short_history_is_never_bull_or_bear (Sample.quiet 32) initial_state
              (metrics_of 32 0) (snd (detect_regime (Sample.quiet 32) initial_state)) H)
    as (A & _ & _ & _).
  - reflexivity.
  - vm_compute. discriminate.
  - split; [exact A|reflexivity].
Defined.

(** * The earnings detector *)

Import EarningsDetector.

Ltac unfold_earnings :=
  unfold Eff.try_except, Eff.bind, Eff.ret, Eff.lift, Eff.raise, EarningsDetector.log,
    cache_put in *.

(** X28.  For a date that leaves room for a week before [date.max],
    [get_same_week_expiry] answers the first Friday on or after the date (the
    date itself when it is a Friday, the Friday of the next week for a
    Saturday or a Sunday); it warns exactly when that Friday is more than
    seven days away from [target_dte] days after today, and it leaves the
    cache alone. *)
Theorem same_week_expiry_is_next_friday d target_dte today st :
  d + 6 <= date_max ->
  exists e l,
    get_same_week_expiry (ADate d) target_dte today st =
      (Return (Some e), {| earnings_cache := earnings_cache st; logged := logged st ++ l |})
    /\ weekday (ADate e) = 4
    /\ d <= e <= d + 6
    /\ (forall f, d <= f < e -> weekday (ADate f) <> 4)
    /\ l = (if 7 <? Z.abs (e - today - target_dte)
            then [ExpiryFarFromTarget e (e - today) target_dte] else []).
Proof.
  intros M.
  pose proof (Z.mod_pos_bound (d + 3) 7 eq_refl) as B.
  pose proof (Z.mod_pos_bound (4 - (d + 3) mod 7) 7 eq_refl) as B'.
  assert (K : (4 - (d + 3) mod 7) mod 7 =
              if (d + 3) mod 7 <=? 4 then 4 - (d + 3) mod 7 else 11 - (d + 3) mod 7).
  { destruct (Z.leb_spec ((d + 3) mod 7) 4).
    - apply Z.mod_small. lia.
    - symmetry. apply (Z.mod_unique _ _ (-1)); lia. }
  assert (W : forall f, (f + 3) mod 7 = 4 <-> exists q, f = 7 * q + 1).
  { intros f. split.
    - intros H. exists ((f + 3) / 7). pose proof (Z.div_mod (f + 3) 7). lia.
    - intros [q ->]. symmetry. apply (Z.mod_unique _ _ q); lia. }
  pose proof (Z.div_mod (d + 3) 7) as DM.
  unfold get_same_week_expiry, weekday, add_days, days_since, strftime.
  unfold_earnings. cbn [day_of].
  remember ((d + 3) mod 7) as w eqn:Ew.
  remember ((4 - w) mod 7) as k eqn:Ek.
  destruct (k =? 0) eqn:Z0; cbn [andb].
  - apply Z.eqb_eq in Z0.
    assert (F : w = 4) by (destruct (Z.leb_spec w 4); lia).
    rewrite F. cbn [Z.eqb Pos.eqb day_of].
    exists d, (if 7 <? Z.abs (d - today - target_dte)
               then [ExpiryFarFromTarget d (d - today) target_dte] else []).
    split.
    + destruct (7 <? Z.abs (d - today - target_dte)); [reflexivity|].
      rewrite app_nil_r. destruct st; reflexivity.
    + split; [congruence|]. split; [lia|]. split; [intros; lia|]. reflexivity.
  - apply Z.eqb_neq in Z0.
    assert (L : (d + k <=? date_max) = true) by (apply Z.leb_le; lia).
    rewrite L. cbn [day_of].
    exists (d + k), (if 7 <? Z.abs (d + k - today - target_dte)
                     then [ExpiryFarFromTarget (d + k) (d + k - today) target_dte] else []).
    split.
    + destruct (7 <? Z.abs (d + k - today - target_dte)); [reflexivity|].
      rewrite app_nil_r. destruct st; reflexivity.
    + split; [|split; [lia|split]].
      * apply W. destruct (Z.leb_spec w 4).
        -- exists ((d + 3) / 7). lia.
        -- exists ((d + 3) / 7 + 1). lia.
      * intros f [F1 F2] H. apply W in H. destruct H as [q ->].
        destruct (Z.leb_spec w 4); lia.
      * reflexivity.
Qed.

Lemma same_week_expiry_is_next_friday_witness :
  exists e l,
    get_same_week_expiry (ADate 20000) 45 19960 initial_state =
      (Return (Some e), {| earnings_cache := []; logged := [] ++ l |})
    /\ weekday (ADate e) = 4.
Proof.
  destruct (same_week_expiry_is_next_friday 20000 45 19960 initial_state)
    as (e & l & E & W & _).
  - vm_compute. discriminate.
  - exists e, l. split; [exact E|exact W].
Defined.

(** X29.  For a [datetime], which is what the signature asks for,
    [get_same_week_expiry] never answers an expiry: subtracting today's date
    from a datetime raises [TypeError], the error is logged and the answer is
    [None], whatever the date, the target and the day are. *)
Theorem same_week_expiry_of_datetime_is_none d s target_dte today st :
  get_same_week_expiry (ADateTime d s) target_dte today st =
    (Return None, {| earnings_cache := earnings_cache st;
                     logged := logged st ++ [ErrorCalculatingExpiry] |}).
Proof.
  unfold get_same_week_expiry, add_days, days_since. unfold_earnings.
  destruct (_ && _); [reflexivity|].
  destruct (_ <=? date_max); reflexivity.
Qed.

Lemma get_earnings_expiry_for_symbol_run symbol today now st :
  exists l,
    get_earnings_expiry_for_symbol symbol today now st =
      (Return (cached_expiry st symbol),
       {| earnings_cache := earnings_cache st; logged := logged st ++ l |})
    /\ (cached_expiry st symbol = None -> l = [NoEarningsDate symbol]).
Proof.
  unfold get_earnings_expiry_for_symbol, cached_expiry, get_earnings_date.
  unfold_earnings.
  destruct (match dict_get (earnings_cache st) symbol with
            | Some e => expiry_date e | None => None end) as [e|].
  - exists []. rewrite app_nil_r. destruct st. split; [reflexivity|discriminate].
  - exists [NoEarningsDate symbol]. auto.
Qed.

Lemma collect_expiries_run symbols today now : forall expiries st,
  exists d l,
    collect_expiries symbols today now expiries st =
      (Return d, {| earnings_cache := earnings_cache st; logged := logged st ++ l |})
    /\ (forall s, In s symbols -> cached_expiry st s <> None ->
                  dict_get d s = cached_expiry st s)
    /\ (forall s, ~ In s symbols \/ cached_expiry st s = None ->
                  dict_get d s = dict_get expiries s).
Proof.
  induction symbols as [|x rest IH]; intros expiries st; simpl.
  - exists expiries, []. rewrite app_nil_r. destruct st.
    split; [reflexivity|]. split; [intros s []|reflexivity].
  - unfold Eff.bind at 1.
    destruct (get_earnings_expiry_for_symbol_run x today now st) as (l1 & -> & _).
    destruct (cached_expiry st x) as [e|] eqn:C.
    + unfold Eff.bind at 1, EarningsDetector.log at 1.
      match goal with |- context [collect_expiries _ _ _ ?ex ?st1] =>
        destruct (IH ex st1) as (d & l2 & -> & H1 & H2) end.
      simpl in *. exists d, (l1 ++ [EarningsExpiry x e] ++ l2).
      rewrite <- !app_assoc. split; [reflexivity|].
      change (cached_expiry {| earnings_cache := earnings_cache st;
                               logged := (logged st ++ l1) ++ [EarningsExpiry x e] |})
        with (cached_expiry st) in *.
      split.
      * intros s [<-|I] N; [|now apply H1].
        destruct (in_dec string_dec x rest) as [I|I]; [now apply H1|].
        rewrite H2 by (left; exact I). now rewrite dict_get_set_same.
      * intros s [N|N].
        -- rewrite H2 by (left; tauto). apply dict_get_set_other. tauto.
        -- rewrite H2 by (right; exact N). apply dict_get_set_other. congruence.
    + match goal with |- context [collect_expiries _ _ _ ?ex ?st1] =>
        destruct (IH ex st1) as (d & l2 & -> & H1 & H2) end.
      simpl in *. exists d, (l1 ++ l2). rewrite <- !app_assoc. split; [reflexivity|].
      change (cached_expiry {| earnings_cache := earnings_cache st;
                               logged := logged st ++ l1 |})
        with (cached_expiry st) in *.
      split.
      * intros s [<-|I] N; [congruence|now apply H1].
      * intros s [N|N]; apply H2; tauto.
Qed.

(** X30.  As long as [get_earnings_date] is the placeholder, the expiries
    come from the cache alone and the cache is never written:
    [get_all_earnings_expiries] answers, for each symbol asked, the expiry
    that the cache already holds, and nothing for any other symbol; a
    detector with an empty cache answers the empty dictionary and is never in
    an earnings week. *)
Theorem earnings_expiries_come_from_cache symbols today now st :
  exists d l,
    get_all_earnings_expiries symbols today now st =
      (Return d, {| earnings_cache := earnings_cache st; logged := logged st ++ l |})
    /\ (forall s, dict_get d s = if in_dec string_dec s symbols
                                 then cached_expiry st s else None)
    /\ (earnings_cache st = [] ->
        d = [] /\ forall s day, is_earnings_week s day st = false).
Proof.
  unfold get_all_earnings_expiries.
  destruct (collect_expiries_run symbols today now [] st) as (d & l & E & H1 & H2).
  exists d, l. split; [exact E|]. split.
  - intros s. destruct (in_dec string_dec s symbols) as [I|I].
    + destruct (cached_expiry st s) eqn:C.
      * rewrite <- C. apply H1; [exact I|congruence].
      * now rewrite H2 by (right; exact C).
    + now rewrite H2 by (left; exact I).
  - intros Z. split.
    + destruct d as [|[k v] d']; [reflexivity|].
      specialize (H2 k). unfold cached_expiry in H2. rewrite Z in H2. simpl in H2.
      rewrite String.eqb_refl in H2. specialize (H2 (or_intror eq_refl)). discriminate.
    + intros s day. unfold is_earnings_week. now rewrite Z.
Qed.
